(** * The Jasmine reporter of allure-js and its executable wrapper

    A shallow embedding of
    - the classes [ExecutableItemWrapper] and [AllureStep] of
      allure-js-commons (second half of
      [packages/allure-js-commons/src/properties.d.ts]) and
    - the classes [JasmineAllureReporter], [JasmineAllureInterface] and
      [WrappedStep] of
      [packages/allure-jasmine/src/JasmineAllureReporter.ts],
    followed by the properties the specification states about them.

    JavaScript objects live in a store and are referred to by their index
    (a reference); every method becomes a computation in a state monad whose
    result is either a normal completion or a thrown value.  The state that
    a method had built up when it throws is kept, as in JavaScript. *)

From Stdlib Require Import String Ascii ZArith Lia.
From stdpp Require Import base option list strings.

Local Open Scope string_scope.
Local Open Scope list_scope.

(* ===================================================================== *)
(** * JavaScript values *)
(* ===================================================================== *)

(** The values user code can return, throw or reject with.  [VObject m s]
    is an object that is not a thenable and whose [message] and [stack]
    properties read [m] and [s] ([VUndefined] when the property is absent);
    [new Error(..)] is such an object.  A promise carries the settlement it
    will have; [Pending] is a promise that never settles. *)
#[warnings="-register-all"]
Inductive value : Type :=
| VUndefined
| VNull
| VBool (b : bool)
| VNum (n : Z)
| VStr (s : string)
| VArray (elems : list value)
| VObject (message stack : value)
| VPromise (p : settlement)
with settlement : Type :=
| Pending
| Fulfilled (v : value)
| Rejected (v : value).

(** ToBoolean. *)
Definition truthy (v : value) : bool :=
  match v with
  | VUndefined | VNull => false
  | VBool b => b
  | VNum n => negb (n =? 0)%Z
  | VStr s => negb (String.eqb s EmptyString)
  | VArray _ | VObject _ _ | VPromise _ => true
  end.

(** [x !== null], [!!x] on a field that holds an object or nothing. *)
Definition is_set {A} (x : option A) : bool :=
  match x with Some _ => true | None => false end.

(** [a || b] on values that are already evaluated. *)
Definition js_or (a b : value) : value := if truthy a then a else b.

(** Modelled from the spec: [isPromise] is imported from [./isPromise],
    which is not among the sources; the wrapper treats a "returned
    asynchronous result" apart from every other value. *)
Definition isPromise (v : value) : bool :=
  match v with VPromise _ => true | _ => false end.

Inductive prop_name := P_message | P_stack.

Definition prop_text (p : prop_name) : string :=
  match p with P_message => "message" | P_stack => "stack" end.

(** The error object made by [new Error(msg)]; of its stack only the first
    line is kept. *)
Definition new_Error (msg : string) : value :=
  VObject (VStr msg) (VStr ("Error: " ++ msg)).

Definition new_TypeError (msg : string) : value :=
  VObject (VStr msg) (VStr ("TypeError: " ++ msg)).

(* ===================================================================== *)
(** * Completions and the state monad *)
(* ===================================================================== *)

Inductive completion (A : Type) : Type :=
| Normal (a : A)
| Abrupt (e : value).
Arguments Normal {A} a.
Arguments Abrupt {A} e.

Definition is_normal {A} (c : completion A) : bool :=
  match c with Normal _ => true | Abrupt _ => false end.

Section Monad.
Context {S : Type}.

Definition M (A : Type) : Type := S -> completion A * S.

Definition ret {A} (a : A) : M A := fun s => (Normal a, s).

Definition bind {A B} (c : M A) (k : A -> M B) : M B :=
  fun s =>
    match c s with
    | (Normal a, s') => k a s'
    | (Abrupt e, s') => (Abrupt e, s')
    end.

Definition throw {A} (e : value) : M A := fun s => (Abrupt e, s).

Definition try_catch {A} (c : M A) (h : value -> M A) : M A :=
  fun s =>
    match c s with
    | (Normal a, s') => (Normal a, s')
    | (Abrupt e, s') => h e s'
    end.

Definition gets {A} (f : S -> A) : M A := fun s => (Normal (f s), s).

Definition modify (f : S -> S) : M unit := fun s => (Normal tt, f s).

Definition when (b : bool) (c : M unit) : M unit :=
  if b then c else ret tt.

(** [for (const x of xs) body(x)] *)
Fixpoint for_of {A} (xs : list A) (body : A -> M unit) : M unit :=
  match xs with
  | [] => ret tt
  | x :: xs' => bind (body x) (fun _ => for_of xs' body)
  end.
End Monad.
Arguments M : clear implicits.

Declare Scope js_scope.
Delimit Scope js_scope with js.
Notation "'let!' x ':=' c 'in' k" := (bind c (fun x => k))
  (at level 10, x name, c at level 100, k at level 200) : js_scope.
Notation "c ;; k" := (bind c (fun _ => k))
  (at level 100, right associativity) : js_scope.
Local Open Scope js_scope.

(** Property read [v.p]: a TypeError on [null] and [undefined]. *)
Definition get_prop {S} (v : value) (p : prop_name) : M S value :=
  match v with
  | VUndefined =>
      throw (new_TypeError ("Cannot read property '" ++ prop_text p ++ "' of undefined"))
  | VNull =>
      throw (new_TypeError ("Cannot read property '" ++ prop_text p ++ "' of null"))
  | VObject m s => ret (match p with P_message => m | P_stack => s end)
  | _ => ret VUndefined
  end.

(* ===================================================================== *)
(** * Strings *)
(* ===================================================================== *)

(** [s.replace(pat, r)] for a string pattern [pat] and the empty string as
    [r]: the first occurrence of [pat] in [s] is removed, wherever it is. *)
Fixpoint replace_first (pat s : string) : string :=
  if String.prefix pat s then String.substring (String.length pat) (String.length s - String.length pat) s
  else match s with
       | EmptyString => EmptyString
       | String c s' => String c (replace_first pat s')
       end.

(** [s.split(sep)] for a one-character separator. *)
Fixpoint split_at (sep : ascii) (s : string) : list string :=
  match s with
  | EmptyString => [EmptyString]
  | String c s' =>
      if Ascii.eqb c sep then EmptyString :: split_at sep s'
      else match split_at sep s' with
           | [] => [String c EmptyString]
           | w :: ws => String c w :: ws
           end
  end.

(** [xs.join(sep)] *)
Fixpoint join (sep : string) (xs : list string) : string :=
  match xs with
  | [] => EmptyString
  | [x] => x
  | x :: xs' => x ++ sep ++ join sep xs'
  end.

(* ===================================================================== *)
(** * The report model *)
(* ===================================================================== *)

(** Modelled from the spec: the enumerations [Status], [Stage] and
    [LabelName] and the result records are declared in [./model] of
    allure-js-commons, which is not among the sources; they follow the
    glossary (status: passed/failed/broken/skipped; stage:
    scheduled/running/finished/interrupted/pending). *)
Inductive Status := PASSED | FAILED | BROKEN | SKIPPED.
Inductive Stage := SCHEDULED | RUNNING | FINISHED | PENDING | INTERRUPTED.

Record Label := mkLabel { label_name : string; label_value : string }.

(** Modelled from the spec: the label names of the suite hierarchy, the
    worker thread and the package. *)
Module LabelName.
Definition PARENT_SUITE := "parentSuite".
Definition SUITE := "suite".
Definition SUB_SUITE := "subSuite".
Definition THREAD := "thread".
Definition PACKAGE := "package".
End LabelName.

Record Attachment := mkAttachment {
  att_name : string; att_type : string; att_source : string }.

Record StatusDetails := mkDetails { message : value; trace : value }.

(** [FixtureResult | TestResult | StepResult]: the mutable record behind an
    executable item.  A test carries labels and names on top of what every
    item has. *)
Record ExecutableItem := mkItem {
  name : string;
  status : option Status;
  stage : Stage;
  statusDetails : StatusDetails;
  steps : list nat;
  attachments : list Attachment;
  parameters : list (string * string);
  labels : list Label;
  fullName : option string;
  historyId : option string;
  start : option nat;
  stop : option nat
}.

(** Modelled from the spec: the constructors of [./constructors]; an item
    starts with no status, stage scheduled, empty details and empty
    collections. *)
Definition stepResult : ExecutableItem :=
  mkItem EmptyString None SCHEDULED (mkDetails VUndefined VUndefined) [] [] [] [] None None None None.

Definition with_name (x : string) (i : ExecutableItem) :=
  mkItem x (status i) (stage i) (statusDetails i) (steps i) (attachments i)
         (parameters i) (labels i) (fullName i) (historyId i) (start i) (stop i).
Definition with_status (x : option Status) (i : ExecutableItem) :=
  mkItem (name i) x (stage i) (statusDetails i) (steps i) (attachments i)
         (parameters i) (labels i) (fullName i) (historyId i) (start i) (stop i).
Definition with_stage (x : Stage) (i : ExecutableItem) :=
  mkItem (name i) (status i) x (statusDetails i) (steps i) (attachments i)
         (parameters i) (labels i) (fullName i) (historyId i) (start i) (stop i).
Definition with_statusDetails (x : StatusDetails) (i : ExecutableItem) :=
  mkItem (name i) (status i) (stage i) x (steps i) (attachments i)
         (parameters i) (labels i) (fullName i) (historyId i) (start i) (stop i).
Definition with_steps (x : list nat) (i : ExecutableItem) :=
  mkItem (name i) (status i) (stage i) (statusDetails i) x (attachments i)
         (parameters i) (labels i) (fullName i) (historyId i) (start i) (stop i).
Definition with_attachments (x : list Attachment) (i : ExecutableItem) :=
  mkItem (name i) (status i) (stage i) (statusDetails i) (steps i) x
         (parameters i) (labels i) (fullName i) (historyId i) (start i) (stop i).
Definition with_parameters (x : list (string * string)) (i : ExecutableItem) :=
  mkItem (name i) (status i) (stage i) (statusDetails i) (steps i) (attachments i)
         x (labels i) (fullName i) (historyId i) (start i) (stop i).
Definition with_labels (x : list Label) (i : ExecutableItem) :=
  mkItem (name i) (status i) (stage i) (statusDetails i) (steps i) (attachments i)
         (parameters i) x (fullName i) (historyId i) (start i) (stop i).
Definition with_fullName (x : option string) (i : ExecutableItem) :=
  mkItem (name i) (status i) (stage i) (statusDetails i) (steps i) (attachments i)
         (parameters i) (labels i) x (historyId i) (start i) (stop i).
Definition with_historyId (x : option string) (i : ExecutableItem) :=
  mkItem (name i) (status i) (stage i) (statusDetails i) (steps i) (attachments i)
         (parameters i) (labels i) (fullName i) x (start i) (stop i).
Definition with_start (x : option nat) (i : ExecutableItem) :=
  mkItem (name i) (status i) (stage i) (statusDetails i) (steps i) (attachments i)
         (parameters i) (labels i) (fullName i) (historyId i) x (stop i).
Definition with_stop (x : option nat) (i : ExecutableItem) :=
  mkItem (name i) (status i) (stage i) (statusDetails i) (steps i) (attachments i)
         (parameters i) (labels i) (fullName i) (historyId i) (start i) x.

Definition with_message (x : value) (i : ExecutableItem) :=
  with_statusDetails (mkDetails x (trace (statusDetails i))) i.
Definition with_trace (x : value) (i : ExecutableItem) :=
  with_statusDetails (mkDetails (message (statusDetails i)) x) i.

(** Modelled from the spec: a group "holds an ordered sequence of child
    items (tests, sub-groups, fixtures) and a name" and is closed when its
    end event fires.  The class [AllureGroup] is not among the sources. *)
Inductive Child := ChildGroup (g : nat) | ChildTest (t : nat) | ChildFixture (f : nat).

Record Group := mkGroup {
  group_name : string;
  children : list Child;
  closed : bool
}.

Definition add_child (c : Child) (g : Group) : Group :=
  mkGroup (group_name g) (children g ++ [c]) (closed g).
Definition close_group (g : Group) : Group :=
  mkGroup (group_name g) (children g) true.

Inductive Stream := StdOut | StdErr.

(** The fields of [JasmineAllureReporter], together with the store of the
    objects they refer to: [items] and [groups] hold the result records,
    [roots] the groups started on the runtime itself.  [clock] counts the
    readings of [Date.now()] made so far and stands for the time the next
    one reads; [console] is what was printed so far. *)
Record Reporter := mkReporter {
  items : list ExecutableItem;
  groups : list Group;
  roots : list nat;
  projectDir : option string;
  groupStack : list nat;
  labelStack : list (list Label);
  runningTest : option nat;
  stepStack : list nat;
  runningExecutable : option nat;
  isSuite : bool;
  clock : nat;
  console : list (Stream * string)
}.

Definition with_items (f : list ExecutableItem -> list ExecutableItem) (s : Reporter) :=
  mkReporter (f (items s)) (groups s) (roots s) (projectDir s) (groupStack s) (labelStack s)
             (runningTest s) (stepStack s) (runningExecutable s) (isSuite s) (clock s) (console s).
Definition with_groups (f : list Group -> list Group) (s : Reporter) :=
  mkReporter (items s) (f (groups s)) (roots s) (projectDir s) (groupStack s) (labelStack s)
             (runningTest s) (stepStack s) (runningExecutable s) (isSuite s) (clock s) (console s).
Definition with_roots (f : list nat -> list nat) (s : Reporter) :=
  mkReporter (items s) (groups s) (f (roots s)) (projectDir s) (groupStack s) (labelStack s)
             (runningTest s) (stepStack s) (runningExecutable s) (isSuite s) (clock s) (console s).
Definition with_groupStack (f : list nat -> list nat) (s : Reporter) :=
  mkReporter (items s) (groups s) (roots s) (projectDir s) (f (groupStack s)) (labelStack s)
             (runningTest s) (stepStack s) (runningExecutable s) (isSuite s) (clock s) (console s).
Definition with_labelStack (f : list (list Label) -> list (list Label)) (s : Reporter) :=
  mkReporter (items s) (groups s) (roots s) (projectDir s) (groupStack s) (f (labelStack s))
             (runningTest s) (stepStack s) (runningExecutable s) (isSuite s) (clock s) (console s).
Definition with_runningTest (x : option nat) (s : Reporter) :=
  mkReporter (items s) (groups s) (roots s) (projectDir s) (groupStack s) (labelStack s)
             x (stepStack s) (runningExecutable s) (isSuite s) (clock s) (console s).
Definition with_stepStack (f : list nat -> list nat) (s : Reporter) :=
  mkReporter (items s) (groups s) (roots s) (projectDir s) (groupStack s) (labelStack s)
             (runningTest s) (f (stepStack s)) (runningExecutable s) (isSuite s) (clock s) (console s).
Definition with_runningExecutable (x : option nat) (s : Reporter) :=
  mkReporter (items s) (groups s) (roots s) (projectDir s) (groupStack s) (labelStack s)
             (runningTest s) (stepStack s) x (isSuite s) (clock s) (console s).
Definition with_isSuite (x : bool) (s : Reporter) :=
  mkReporter (items s) (groups s) (roots s) (projectDir s) (groupStack s) (labelStack s)
             (runningTest s) (stepStack s) (runningExecutable s) x (clock s) (console s).
Definition with_clock (x : nat) (s : Reporter) :=
  mkReporter (items s) (groups s) (roots s) (projectDir s) (groupStack s) (labelStack s)
             (runningTest s) (stepStack s) (runningExecutable s) (isSuite s) x (console s).
Definition with_console (f : list (Stream * string) -> list (Stream * string)) (s : Reporter) :=
  mkReporter (items s) (groups s) (roots s) (projectDir s) (groupStack s) (labelStack s)
             (runningTest s) (stepStack s) (runningExecutable s) (isSuite s) (clock s) (f (console s)).

Abbreviation JS := (M Reporter).

(** [Date.now()]: the clock is read and moves on, so that later readings
    are larger. *)
Definition Date_now : JS nat :=
  fun s => (Normal (clock s), with_clock (Datatypes.S (clock s)) s).

Definition console_error (msg : string) : JS unit :=
  modify (with_console (fun l => l ++ [(StdErr, msg)])).
Definition console_log (msg : string) : JS unit :=
  modify (with_console (fun l => l ++ [(StdOut, msg)])).

(** Arrays used as stacks: [push] appends, [pop] drops the last element. *)
Definition push {A} (x : A) (l : list A) : list A := l ++ [x].
Definition pop {A} (l : list A) : list A := removelast l.

(** User code handed to the reporter: a JavaScript function, applied to its
    list of arguments. *)
Definition Body : Type := list value -> JS value.

(* ===================================================================== *)
(** * ExecutableItemWrapper and AllureStep *)
(* ===================================================================== *)

(** An [ExecutableItemWrapper] is the reference [r] of the record it wraps
    ([this.info]). *)
Module ExecutableItemWrapper.

Definition update (r : nat) (f : ExecutableItem -> ExecutableItem) : JS unit :=
  modify (with_items (alter f r)).

Definition alloc (i : ExecutableItem) : JS nat :=
  fun s => (Normal (length (items s)), with_items (fun l => l ++ [i]) s).

Definition set_name (r : nat) (x : string) : JS unit := update r (with_name x).
Definition set_status (r : nat) (x : option Status) : JS unit := update r (with_status x).
Definition get_status (r : nat) : JS (option Status) :=
  gets (fun s => i ← items s !! r; status i).
Definition set_detailsMessage (r : nat) (x : value) : JS unit := update r (with_message x).
Definition set_detailsTrace (r : nat) (x : value) : JS unit := update r (with_trace x).
Definition set_stage (r : nat) (x : Stage) : JS unit := update r (with_stage x).

(** The class declares [set detailsMessage] and [set detailsTrace] without
    getters, so reading either property through the wrapper gives
    [undefined]. *)
Definition get_detailsMessage (r : nat) : JS value := ret VUndefined.
Definition get_detailsTrace (r : nat) : JS value := ret VUndefined.

Definition addParameter (r : nat) (name value : string) : JS unit :=
  update r (fun i => with_parameters (push (name, value) (parameters i)) i).

Definition addAttachment (r : nat) (name type fileName : string) : JS unit :=
  update r (fun i => with_attachments (push (mkAttachment name type fileName) (attachments i)) i).

(** [new AllureStep(result)] stamps the start time. *)
Definition new_AllureStep (result : nat) : JS nat :=
  let! now := Date_now in
  update result (with_start (Some now));;
  ret result.

Definition startStep (r : nat) (name : string) : JS nat :=
  let! result := alloc stepResult in
  update r (fun i => with_steps (push result (steps i)) i);;
  let! allureStep := new_AllureStep result in
  set_name allureStep name;;
  ret allureStep.

Definition logStep (r : nat) (status : Status) : JS unit :=
  set_stage r FINISHED;;
  set_status r (Some status).

(** [this.detailsTrace.replace(this.detailsMessage, ..)], with the empty
    string as the replacement. *)
Definition replace_in_trace (t m : value) : value :=
  match t, m with
  | VStr t', VStr m' => VStr (replace_first m' t')
  | _, _ => t
  end.

(** The block guarded by [error.stack && error.message], which the source
    has once in the [catch] clause and once in the rejection handler. *)
Definition record_failure (r : nat) (error : value) : JS unit :=
  set_status r (Some FAILED);;
  set_stage r FINISHED;;
  let! message := get_prop error P_message in
  let! stack := get_prop error P_stack in
  set_detailsMessage r (js_or message (VStr EmptyString));;
  set_detailsTrace r (js_or stack (VStr EmptyString));;
  let! t := get_detailsTrace r in
  if truthy t then
    let! m := get_detailsMessage r in
    set_detailsTrace r (replace_in_trace t m)
  else ret tt.

(** The [catch (error)] clause around the call of the body.  Its value is
    what [result] holds afterwards.  Both property reads fail on the same
    values and have no effect, so they are made up front. *)
Definition on_throw (r : nat) (error : value) : JS value :=
  let! stack := get_prop error P_stack in
  let! message := get_prop error P_message in
  if truthy stack || truthy message then
    when (truthy stack && truthy message) (record_failure r error);;
    ret error
  else ret VUndefined.

(** [.then(res => ...)] *)
Definition on_fulfilled (r : nat) (res : value) : JS value :=
  let! st := get_status r in
  when (negb (is_set st)) (set_status r (Some PASSED));;
  set_stage r FINISHED;;
  ret res.

(** [.catch(error => ...)]: the handler returns nothing. *)
Definition on_rejected (r : nat) (error : value) : JS value :=
  set_stage r INTERRUPTED;;
  let! st := get_status r in
  when (negb (is_set st)) (set_status r (Some BROKEN));;
  (if truthy error then
     let! stack := get_prop error P_stack in
     let! message := get_prop error P_message in
     when (truthy stack && truthy message) (record_failure r error)
   else ret tt);;
  ret VUndefined.

(** [promise.then(..).catch(..)]: the reactions are run from the
    settlement the promise will have, and the value is the promise that
    the chain yields. *)
Definition chain (r : nat) (p : settlement) : JS value :=
  match p with
  | Pending => ret (VPromise Pending)
  | Fulfilled res =>
      let! a := on_fulfilled r res in ret (VPromise (Fulfilled a))
  | Rejected error =>
      let! a := on_rejected r error in ret (VPromise (Fulfilled a))
  end.

(** [wrap(fun)(...args)] *)
Definition wrap (r : nat) (fun_ : Body) (args : list value) : JS value :=
  set_stage r RUNNING;;
  let! result := try_catch (fun_ [VArray args]) (on_throw r) in
  match result with
  | VPromise promise => chain r promise
  | _ =>
      let! st := get_status r in
      when (negb (is_set st)) (set_status r (Some PASSED));;
      set_stage r FINISHED;;
      ret result
  end.

End ExecutableItemWrapper.

Module AllureStep.
Definition endStep (r : nat) : JS unit :=
  let! now := Date_now in
  ExecutableItemWrapper.update r (with_stop (Some now)).
End AllureStep.

(* ===================================================================== *)
(** * What the reporter uses of allure-js-commons and of the host *)
(* ===================================================================== *)

(** Modelled from the spec: [AllureRuntime.startGroup] and the class
    [AllureGroup] are not among the sources.  A group is created as a child
    of the group it is started on, or of the runtime root; a test or a
    fixture is created inside its group; [endGroup] closes the group. *)
Module AllureGroup.

Definition alloc (g : Group) : JS nat :=
  fun s => (Normal (length (groups s)), with_groups (fun l => l ++ [g]) s).

Definition update (g : nat) (f : Group -> Group) : JS unit :=
  modify (with_groups (alter f g)).

(** [(parent || this.runtime).startGroup(name)] *)
Definition startGroup (parent : option nat) (name : string) : JS nat :=
  let! g := alloc (mkGroup name [] false) in
  match parent with
  | Some p => update p (add_child (ChildGroup g))
  | None => modify (with_roots (push g))
  end;;
  ret g.

Definition startTest (g : nat) (name : string) : JS nat :=
  let! t := ExecutableItemWrapper.alloc stepResult in
  update g (add_child (ChildTest t));;
  let! now := Date_now in
  ExecutableItemWrapper.update t (with_start (Some now));;
  ExecutableItemWrapper.set_name t name;;
  ret t.

Definition addFixture (g : nat) : JS nat :=
  let! f := ExecutableItemWrapper.alloc stepResult in
  update g (add_child (ChildFixture f));;
  ret f.
Definition addBefore := addFixture.
Definition addAfter := addFixture.

Definition endGroup (g : nat) : JS unit := update g close_group.

(** [group.name]; the references held by the reporter are never stale. *)
Definition get_name (g : nat) : JS string :=
  gets (fun s => default EmptyString (group_name <$> groups s !! g)).

End AllureGroup.

(** Modelled from the spec: the class [AllureTest] is not among the
    sources; it is an executable item with labels, whose end stamps the stop
    time. *)
Module AllureTest.

Definition addLabel (t : nat) (name value : string) : JS unit :=
  ExecutableItemWrapper.update t (fun i => with_labels (push (mkLabel name value) (labels i)) i).

Definition set_fullName (t : nat) (x : string) : JS unit :=
  ExecutableItemWrapper.update t (with_fullName (Some x)).

Definition set_historyId (t : nat) (x : string) : JS unit :=
  ExecutableItemWrapper.update t (with_historyId (Some x)).

Definition endTest (t : nat) : JS unit :=
  let! now := Date_now in
  ExecutableItemWrapper.update t (with_stop (Some now)).

End AllureTest.

(** The descriptors of the host engine (the typings of jasmine). *)
Module jasmine.

Record FailedExpectation := mkFailedExpectation {
  matcherName : string;
  message : string;
  stack : string
}.

Record CustomReporterResult := mkResult {
  description : string;
  fullName : string;
  status : option string;
  pendingReason : option string;
  failedExpectations : option (list FailedExpectation);
  testPath : option string
}.

End jasmine.

(** What the reporter takes from outside the repository: [strip-ansi],
    [path.relative] of Node, the attachment writer of the runtime (content
    and type to file name) and the environment variable JEST_WORKER_ID. *)
Record Host := mkHost {
  stripAnsi : string -> string;
  path_relative : string -> string -> string;
  runtime_writeAttachment : string -> string -> string;
  JEST_WORKER_ID : option string
}.

Module SpecStatus.
Definition PASSED := "passed".
Definition FAILED := "failed".
Definition BROKEN := "broken".
Definition PENDING := "pending".
Definition DISABLED := "disabled".
Definition EXCLUDED := "excluded".
Definition TODO := "todo".
End SpecStatus.

(** [spec.status === c] *)
Definition status_is (st : option string) (c : string) : bool :=
  match st with Some x => String.eqb x c | None => false end.

(** A string read in a condition. *)
Definition nonempty (x : option string) : option string :=
  match x with
  | Some EmptyString => None
  | _ => x
  end.

(** [arr[i]] at an index that is in range at each use. *)
Definition at_index (arr : list string) (i : nat) : string := default EmptyString (arr !! i).

(* ===================================================================== *)
(** * JasmineAllureReporter.ts *)
(* ===================================================================== *)

Module JasmineAllureReporter.
Section Reporter.
Variable host : Host.

(** [new JasmineAllureReporter(config)], before any event. *)
Definition init (projectDir : option string) : Reporter :=
  mkReporter [] [] [] projectDir [] [[]] None [] None false 0 [].

Definition getCurrentGroup : JS (option nat) :=
  gets (fun s => last (groupStack s)).

Definition currentGroup : JS nat :=
  let! currentGroup := getCurrentGroup in
  match currentGroup with
  | None => throw (new_Error "No active group")
  | Some g => ret g
  end.

Definition currentTest : JS nat :=
  let! t := gets runningTest in
  match t with
  | None => throw (new_Error "No active test")
  | Some t => ret t
  end.

Definition currentExecutable : JS (option nat) := gets runningExecutable.

Definition jasmineStarted : JS unit :=
  console_log ("Jest Worker #" ++ default "undefined" (JEST_WORKER_ID host) ++ " has started.").

Definition suiteStarted (suite : jasmine.CustomReporterResult) : JS unit :=
  modify (with_isSuite true);;
  let name := jasmine.description suite in
  let! parent := getCurrentGroup in
  let! group := AllureGroup.startGroup parent name in
  modify (with_groupStack (push group));;
  modify (with_labelStack (push [])).

Definition addLabel (name value : string) : JS unit :=
  modify (with_labelStack (fun ls =>
    if Nat.eqb (length ls) 0 then ls
    else alter (push (mkLabel name value)) (length ls - 1) ls)).

(** The path of the spec file, split at "/" (the branch for specs outside
    any describe block). *)
Definition specPath (spec : jasmine.CustomReporterResult) : JS (list string) :=
  let! projectDir := gets projectDir in
  match nonempty projectDir, jasmine.testPath spec with
  | Some dir, Some testPath => ret (split_at "/" (path_relative host dir testPath))
  | Some dir, None =>
      throw (new_TypeError "The 'to' argument must be of type string. Received undefined")
  | None, Some testPath => ret (split_at "/" testPath)
  | None, None => throw (new_TypeError "Cannot read property 'split' of undefined")
  end.

Definition specStarted (spec : jasmine.CustomReporterResult) : JS unit :=
  let! suiteMode := gets isSuite in
  let! specPathArr :=
    (if negb suiteMode then
       let! specPathArr := specPath spec in
       match specPathArr with
       | first :: _ =>
           let! parent := getCurrentGroup in
           let! group := AllureGroup.startGroup parent first in
           modify (with_groupStack (push group));;
           modify (with_labelStack (push []))
       | [] => ret tt
       end;;
       ret specPathArr
     else ret []) in
  let! currentGroup := getCurrentGroup in
  match currentGroup with
  | None => throw (new_Error "No active suite")
  | Some currentGroup =>
      let! currentGroup := AllureGroup.startGroup (Some currentGroup) "Test wrapper" in
      modify (with_groupStack (push currentGroup));;
      let specName := jasmine.description spec in
      let! allureTest := AllureGroup.startTest currentGroup specName in
      let! running := gets runningTest in
      match running with
      | Some _ => throw (new_Error "Test is starting before other ended!")
      | None =>
          modify (with_runningTest (Some allureTest));;
          AllureTest.set_fullName allureTest (jasmine.fullName spec);;
          AllureTest.set_historyId allureTest (jasmine.fullName spec);;
          ExecutableItemWrapper.set_stage allureTest RUNNING;;
          let! stack := gets groupStack in
          (if suiteMode then
             (if Nat.ltb 1 (length stack) then
                let! n := AllureGroup.get_name (default 0 (stack !! 0)) in
                AllureTest.addLabel allureTest LabelName.PARENT_SUITE n
              else ret tt);;
             (if Nat.ltb 2 (length stack) then
                let! n := AllureGroup.get_name (default 0 (stack !! 1)) in
                AllureTest.addLabel allureTest LabelName.SUITE n
              else ret tt);;
             (if Nat.ltb 3 (length stack) then
                let! n := AllureGroup.get_name (default 0 (stack !! 2)) in
                AllureTest.addLabel allureTest LabelName.SUB_SUITE n
              else ret tt)
           else ret tt);;
          (if negb suiteMode && Nat.ltb 1 (length specPathArr) then
             let len := length specPathArr in
             AllureTest.addLabel allureTest LabelName.SUB_SUITE (at_index specPathArr (len - 1));;
             AllureTest.addLabel allureTest LabelName.SUITE (at_index specPathArr (len - 2));;
             AllureTest.addLabel allureTest LabelName.PARENT_SUITE
                                 (join "/" (take (len - 2) specPathArr));;
             AllureTest.addLabel allureTest LabelName.PACKAGE (at_index specPathArr 0)
           else ret tt);;
          match nonempty (JEST_WORKER_ID host) with
          | Some id => addLabel LabelName.THREAD id
          | None => ret tt
          end;;
          let! labelStack := gets labelStack in
          for_of labelStack (fun labels =>
            for_of labels (fun label =>
              AllureTest.addLabel allureTest (label_name label) (label_value label)))
      end
  end.

Definition findMessageAboutThrow (expectations : option (list jasmine.FailedExpectation))
  : option jasmine.FailedExpectation :=
  List.find (fun e => String.eqb (jasmine.matcherName e) EmptyString) (default [] expectations).

Definition findAnyError (expectations : option (list jasmine.FailedExpectation))
  : option jasmine.FailedExpectation :=
  match default [] expectations with
  | e :: _ => Some e
  | [] => None
  end.

(** The block of [specDone] that closes the steps left open. *)
Definition closeLeakedSteps : JS unit :=
  let! steps := gets stepStack in
  if Nat.ltb 0 (length steps) then
    console_error "Allure reporter issue: step stack is not empty on specDone";;
    modify (with_stepStack reverse);;
    let! reversed := gets stepStack in
    for_of reversed (fun step =>
      ExecutableItemWrapper.set_status step (Some BROKEN);;
      ExecutableItemWrapper.set_stage step INTERRUPTED;;
      ExecutableItemWrapper.set_detailsMessage step
        (VStr "Test ended unexpectedly before step could complete.");;
      AllureStep.endStep step);;
    modify (with_stepStack (fun _ => []))
  else ret tt.

(** The block "Capture test result/status" of [specDone]. *)
Definition captureStatus (spec : jasmine.CustomReporterResult) (currentTest : nat) : JS unit :=
  let st := jasmine.status spec in
  when (status_is st SpecStatus.PASSED)
    (ExecutableItemWrapper.set_status currentTest (Some PASSED);;
     ExecutableItemWrapper.set_stage currentTest FINISHED);;
  when (status_is st SpecStatus.BROKEN)
    (ExecutableItemWrapper.set_status currentTest (Some BROKEN);;
     ExecutableItemWrapper.set_stage currentTest FINISHED);;
  when (status_is st SpecStatus.FAILED)
    (ExecutableItemWrapper.set_status currentTest (Some FAILED);;
     ExecutableItemWrapper.set_stage currentTest FINISHED);;
  when (status_is st SpecStatus.PENDING || status_is st SpecStatus.DISABLED
        || status_is st SpecStatus.EXCLUDED || status_is st SpecStatus.TODO)
    (ExecutableItemWrapper.set_status currentTest (Some SKIPPED);;
     ExecutableItemWrapper.set_stage currentTest PENDING;;
     ExecutableItemWrapper.set_detailsMessage currentTest
       (VStr (default "Suite disabled" (nonempty (jasmine.pendingReason spec))))).

(** [findMessageAboutThrow(..) || findAnyError(..)] *)
Definition exceptionInfo (spec : jasmine.CustomReporterResult) : option jasmine.FailedExpectation :=
  match findMessageAboutThrow (jasmine.failedExpectations spec) with
  | Some e => Some e
  | None => findAnyError (jasmine.failedExpectations spec)
  end.

(** The block "Capture exceptions" of [specDone]; the descriptors of
    jasmine type [message] and [stack] as strings. *)
Definition captureException (spec : jasmine.CustomReporterResult) (currentTest : nat) : JS unit :=
  match exceptionInfo spec with
  | Some exceptionInfo =>
      let message := stripAnsi host (jasmine.message exceptionInfo) in
      ExecutableItemWrapper.set_detailsMessage currentTest (VStr message);;
      if negb (String.eqb (jasmine.stack exceptionInfo) EmptyString) then
        let stack := stripAnsi host (jasmine.stack exceptionInfo) in
        let stack := replace_first message stack in
        ExecutableItemWrapper.set_detailsTrace currentTest (VStr stack)
      else ret tt
  | None => ret tt
  end.

(** The end of [specDone], from "Finished with test" on. *)
Definition finishTest (currentTest : nat) : JS unit :=
  AllureTest.endTest currentTest;;
  modify (with_runningTest None);;
  let! wrapper := currentGroup in
  AllureGroup.endGroup wrapper;;
  modify (with_groupStack pop);;
  let! suiteMode := gets isSuite in
  if negb suiteMode then
    let! currentGroup := getCurrentGroup in
    match currentGroup with
    | None => throw (new_Error "No active suite")
    | Some currentGroup =>
        AllureGroup.endGroup currentGroup;;
        modify (with_groupStack pop);;
        modify (with_labelStack pop)
    end
  else ret tt.

Definition specDone (spec : jasmine.CustomReporterResult) : JS unit :=
  let! running := gets runningTest in
  match running with
  | None => throw (new_Error "specDone while no test is running")
  | Some currentTest =>
      closeLeakedSteps;;
      captureStatus spec currentTest;;
      captureException spec currentTest;;
      finishTest currentTest
  end.

Definition suiteDone (suite : jasmine.CustomReporterResult) : JS unit :=
  let! suiteMode := gets isSuite in
  when (negb suiteMode)
    (console_error "Allure reporter issue: suiteDone called without suiteStart context.");;
  let! running := gets runningTest in
  when (is_set running)
    (console_error "Allure reporter issue: A test was running on suiteDone.");;
  let! currentGroup := getCurrentGroup in
  match currentGroup with
  | None => throw (new_Error "No active suite.")
  | Some currentGroup =>
      AllureGroup.endGroup currentGroup;;
      modify (with_groupStack pop);;
      modify (with_labelStack pop)
  end.

Definition jasmineDone : JS unit :=
  console_log ("Jest Worker #" ++ default "undefined" (JEST_WORKER_ID host) ++ " has finished.").

Definition pushStep (step : nat) : JS unit := modify (with_stepStack (push step)).

Definition popStep : JS unit := modify (with_stepStack pop).

Definition currentStep : JS (option nat) := gets (fun s => last (stepStack s)).

Definition writeAttachment (content type : string) : JS string :=
  ret (runtime_writeAttachment host content type).

End Reporter.
End JasmineAllureReporter.

(** A [WrappedStep] is the reference of its [AllureStep]. *)
Module WrappedStep.
Section WrappedStep.
Variable host : Host.

Definition startStep (step : nat) (name : string) : JS nat :=
  let! step' := ExecutableItemWrapper.startStep step name in
  JasmineAllureReporter.pushStep step';;
  ret step'.

Definition attach (step : nat) (name content type : string) : JS unit :=
  let! file := JasmineAllureReporter.writeAttachment host content type in
  ExecutableItemWrapper.addAttachment step name type file.

Definition param (step : nat) (name value : string) : JS unit :=
  ExecutableItemWrapper.addParameter step name value.

Definition logStep (step : nat) (status : Status) : JS unit :=
  ExecutableItemWrapper.logStep step status.

Definition run (step : nat) (body : Body) : JS value :=
  ExecutableItemWrapper.wrap step body [].

Definition endStep (step : nat) : JS unit :=
  JasmineAllureReporter.popStep;;
  AllureStep.endStep step.

End WrappedStep.
End WrappedStep.

Module JasmineAllureInterface.
Section Interface.
Variable host : Host.

(** [reporter.currentStep || reporter.currentExecutable || reporter.currentTest] *)
Definition currentExecutable : JS nat :=
  let! step := JasmineAllureReporter.currentStep in
  match step with
  | Some r => ret r
  | None =>
      let! exe := JasmineAllureReporter.currentExecutable in
      match exe with
      | Some r => ret r
      | None => JasmineAllureReporter.currentTest
      end
  end.

Definition startStep (name : string) : JS nat :=
  let! exe := currentExecutable in
  let! allureStep := ExecutableItemWrapper.startStep exe name in
  JasmineAllureReporter.pushStep allureStep;;
  ret allureStep.

Definition setup (body : Body) : JS value :=
  let! group := JasmineAllureReporter.currentGroup in
  let! fixture := AllureGroup.addBefore group in
  modify (with_runningExecutable (Some fixture));;
  let! result := ExecutableItemWrapper.wrap fixture body [] in
  match result with
  | VPromise Pending => ret result
  | VPromise (Fulfilled a) =>
      modify (with_runningExecutable None);;
      ret (VPromise (Fulfilled a))
  | VPromise (Rejected e) =>
      modify (with_runningExecutable None);;
      ret (VPromise (Rejected e))
  | _ =>
      modify (with_runningExecutable None);;
      ret result
  end.

Definition step (name : string) (body : Body) : JS value :=
  let! wrappedStep := startStep name in
  let! result :=
    try_catch (WrappedStep.run wrappedStep body)
              (fun err => WrappedStep.endStep wrappedStep;; throw err) in
  match result with
  | VPromise Pending => ret result
  | VPromise (Fulfilled a) =>
      WrappedStep.endStep wrappedStep;;
      ret (VPromise (Fulfilled a))
  | VPromise (Rejected e) =>
      WrappedStep.endStep wrappedStep;;
      ret (VPromise (Rejected e))
  | _ =>
      WrappedStep.endStep wrappedStep;;
      ret result
  end.

Definition attachment (name content type : string) : JS unit :=
  let! file := JasmineAllureReporter.writeAttachment host content type in
  let! exe := currentExecutable in
  ExecutableItemWrapper.addAttachment exe name type file.

(** An attachment handed to [logStep]: name, content and type. *)
Definition logStep (name : string) (status : Status)
           (attachments : option (list (string * string * string))) : JS unit :=
  let! wrappedStep := startStep name in
  match attachments with
  | Some atts =>
      for_of atts (fun a =>
        match a with (name, content, type) => attachment name content type end)
  | None => ret tt
  end;;
  WrappedStep.logStep wrappedStep status;;
  WrappedStep.endStep wrappedStep.

Definition label (name value : string) : JS unit :=
  try_catch
    (let! t := JasmineAllureReporter.currentTest in AllureTest.addLabel t name value)
    (fun _ => JasmineAllureReporter.addLabel name value).

End Interface.
End JasmineAllureInterface.

(** [installHooks]: what a hook installed by [makeWrapperAll] does when the
    host engine runs it. *)
Module Hooks.

(** The fixture body registered by the user: one that takes the [done]
    callback (it settles the promise built around it, or throws) or one
    that is called without arguments. *)
Inductive Action :=
| TakesDone (run : JS settlement)
| Plain (run : Body).

(** How the hook answered the host engine. *)
Inductive Signal := NotYet | Done | DoneFail (e : value).

(** [() => new Promise((resolve, reject) => { ...; action(t); })]: a throw
    inside the executor rejects the promise. *)
Definition promised (run : JS settlement) : Body :=
  fun _ =>
    try_catch (let! p := run in ret (VPromise p))
              (fun e => ret (VPromise (Rejected e))).

Definition runHook (fun_ : JS nat) (action : Action) : JS Signal :=
  let! exe := fun_ in
  modify (with_runningExecutable (Some exe));;
  let! r :=
    match action with
    | TakesDone run => ExecutableItemWrapper.wrap exe (promised run) []
    | Plain run => ExecutableItemWrapper.wrap exe run []
    end in
  match r with
  | VPromise Pending => ret NotYet
  | VPromise (Fulfilled _) =>
      modify (with_runningExecutable None);;
      ret Done
  | VPromise (Rejected e) =>
      modify (with_runningExecutable None);;
      ret (DoneFail e)
  | _ =>
      modify (with_runningExecutable None);;
      ret Done
  end.

Definition wrapperBefore (action : Action) : JS Signal :=
  runHook (let! g := JasmineAllureReporter.currentGroup in AllureGroup.addBefore g) action.

Definition wrapperAfter (action : Action) : JS Signal :=
  runHook (let! g := JasmineAllureReporter.currentGroup in AllureGroup.addAfter g) action.

End Hooks.

(* ===================================================================== *)
(** * The event stream of the host engine *)
(* ===================================================================== *)

Inductive Event :=
| RunStarted
| SuiteEntered (suite : jasmine.CustomReporterResult)
| SpecEntered (spec : jasmine.CustomReporterResult)
| SpecExited (spec : jasmine.CustomReporterResult)
| SuiteExited (suite : jasmine.CustomReporterResult)
| RunFinished.

Definition deliver (host : Host) (e : Event) : JS unit :=
  match e with
  | RunStarted => JasmineAllureReporter.jasmineStarted host
  | SuiteEntered suite => JasmineAllureReporter.suiteStarted suite
  | SpecEntered spec => JasmineAllureReporter.specStarted host spec
  | SpecExited spec => JasmineAllureReporter.specDone host spec
  | SuiteExited suite => JasmineAllureReporter.suiteDone suite
  | RunFinished => JasmineAllureReporter.jasmineDone host
  end.

(** The reporter after the host delivered [evs] in order; the host goes on
    with the next event also when a handler threw. *)
Definition state_after (host : Host) (evs : list Event) (s : Reporter) : Reporter :=
  fold_left (fun s e => snd (deliver host e s)) evs s.


(* ===================================================================== *)
(** * Auxiliary definitions for the statements *)
(* ===================================================================== *)

Definition overlap_error : value := new_Error "Test is starting before other ended!".

Definition anomaly_no_suite : Stream * string :=
  (StdErr, "Allure reporter issue: suiteDone called without suiteStart context.").
Definition anomaly_test_running : Stream * string :=
  (StdErr, "Allure reporter issue: A test was running on suiteDone.").

(** The references held on the group stack point into the store. *)
Definition groupStack_valid (s : Reporter) : Prop :=
  Forall (fun g => g < length (groups s)) (groupStack s).

(** Example inputs. *)
Definition plain_host : Host :=
  mkHost (fun s => s) (fun _ to => to) (fun _ _ => "attachment") None.

Definition descriptor (name : string) (status : option string) : jasmine.CustomReporterResult :=
  jasmine.mkResult name name status None None None.


(** A reporter whose store holds one fresh item, at reference 0. *)
Definition one_item : Reporter :=
  snd (ExecutableItemWrapper.alloc stepResult (JasmineAllureReporter.init None)).

(** [() => { throw v }] *)
Definition throwing (v : value) : Body := fun _ => throw v.

(** [() => v] *)
Definition returning (v : value) : Body := fun _ => ret v.

(** [(...argv) => argv]: a body that hands back the list of arguments it
    was called with. *)
Definition probe : Body := fun argv => ret (VArray argv).

(** The status recorded for the item at [r]. *)
Definition status_of (r : nat) (s : Reporter) : option Status :=
  i ← items s !! r; status i.

(** A body that returns 1 when it is called with the empty array as its
    only argument, and throws otherwise. *)
Definition picky : Body :=
  fun argv =>
    match argv with
    | [VArray []] => ret (VNum 1)
    | _ => throw VNull
    end.

(** The reporter while the test "t1" of the suite "A" is running. *)
Definition in_test : Reporter :=
  state_after plain_host
    [SuiteEntered (descriptor "A" None); SpecEntered (descriptor "t1" None)]
    (JasmineAllureReporter.init None).

(** A completion value that is not a promise still pending or rejected. *)
Definition completes (v : value) : Prop :=
  match v with
  | VPromise Pending | VPromise (Rejected _) => False
  | _ => True
  end.

(** The reporter in which the body of the step [name] runs: the step has
    been started on the current executable and pushed, and its stage set to
    running. *)
Definition step_opened (name : string) (s : Reporter) : Reporter :=
  snd ((let! w := JasmineAllureInterface.startStep name in
        ExecutableItemWrapper.set_stage w RUNNING) s).

Definition ended_unexpectedly : value :=
  VStr "Test ended unexpectedly before step could complete.".

Definition anomaly_open_steps : Stream * string :=
  (StdErr, "Allure reporter issue: step stack is not empty on specDone").

(** A step closed by force at the time [now]. *)
Definition force_closed (now : nat) (i : ExecutableItem) : ExecutableItem :=
  with_stop (Some now)
    (with_message ended_unexpectedly
       (with_stage INTERRUPTED (with_status (Some BROKEN) i))).

(** The store after the steps [l] were closed by force one after the
    other, the first at the time [now]. *)
Fixpoint close_each (now : nat) (l : list nat) (its : list ExecutableItem)
  : list ExecutableItem :=
  match l with
  | [] => its
  | r :: l' => close_each (Datatypes.S now) l' (alter (force_closed now) r its)
  end.

(** How [finishTest] completes: it needs the wrapper group on the stack
    and, outside suite mode, the group of the file below it. *)
Definition finish_completion (s : Reporter) : completion unit :=
  match last (groupStack s) with
  | None => Abrupt (new_Error "No active group")
  | Some _ =>
      if isSuite s then Normal tt
      else match last (pop (groupStack s)) with
           | None => Abrupt (new_Error "No active suite")
           | Some _ => Normal tt
           end
  end.

(** Modelled from the spec, for comparison with [replace_first]: the
    message text "removed from the start of the stack". *)
Definition remove_leading (message stack : string) : string :=
  if String.prefix message stack
  then String.substring (String.length message) (String.length stack - String.length message) stack
  else stack.

(** What the block "Capture exceptions" of [specDone] does to the test. *)
Definition exception_details (host : Host) (spec : jasmine.CustomReporterResult)
           (i : ExecutableItem) : ExecutableItem :=
  match JasmineAllureReporter.exceptionInfo spec with
  | Some e =>
      let m := stripAnsi host (jasmine.message e) in
      if negb (String.eqb (jasmine.stack e) EmptyString)
      then with_trace (VStr (replace_first m (stripAnsi host (jasmine.stack e))))
                      (with_message (VStr m) i)
      else with_message (VStr m) i
  | None => i
  end.

(** A spec that failed with the expectations [fes]. *)
Definition failed_spec (fes : list jasmine.FailedExpectation) : jasmine.CustomReporterResult :=
  jasmine.mkResult "t1" "t1" (Some "failed") None (Some fes) None.

(** The reporter while the test "t1" runs with the steps "outer" and
    "inner" left open. *)
Definition in_steps : Reporter :=
  snd ((JasmineAllureInterface.startStep "outer";;
        JasmineAllureInterface.startStep "inner") in_test).

(** The events of the scenario with the nested suites "A" and "B" and the
    spec "t1". *)
Definition nested_suites : list Event :=
  [SuiteEntered (descriptor "A" None);
   SuiteEntered (descriptor "B" None);
   SpecEntered (descriptor "t1" None);
   SpecExited (descriptor "t1" (Some "passed"));
   SuiteExited (descriptor "B" None);
   SuiteExited (descriptor "A" None)].

(** A host whose environment has JEST_WORKER_ID set to 1. *)
Definition worker_host : Host :=
  mkHost (fun s => s) (fun _ to => to) (fun _ _ => "attachment") (Some "1").

(** The label for the worker thread, when the environment names one. *)
Definition thread_labels (host : Host) : list Label :=
  match nonempty (JEST_WORKER_ID host) with
  | Some id => [mkLabel LabelName.THREAD id]
  | None => []
  end.

(** Commands that only rewrite the item at [t]. *)
Definition item_command (t : nat) (c : JS unit) : Prop :=
  exists f, forall s, c s = (Normal tt, with_items (alter f t) s).


(** The settlement of the promise that the wrapped call returns, from the
    settlement of the promise of the body. *)
Definition settled_chain (p : settlement) : settlement :=
  match p with
  | Rejected _ => Fulfilled VUndefined
  | _ => p
  end.

(** [error && error.stack && error.message] *)
Definition exposes_failure (error : value) : bool :=
  match error with
  | VObject m st => truthy st && truthy m
  | _ => false
  end.

(** The reporter in which the body handed to [setup] runs: the fixture has
    been added to the current group and made the running executable, and
    its stage set to running. *)
Definition setup_opened (s : Reporter) : Reporter :=
  snd ((let! group := JasmineAllureReporter.currentGroup in
        let! fixture := AllureGroup.addBefore group in
        modify (with_runningExecutable (Some fixture));;
        ExecutableItemWrapper.set_stage fixture RUNNING) s).

(** What the block "Capture test result/status" of [specDone] does to the
    test. *)
Definition status_update (spec : jasmine.CustomReporterResult)
           (i : ExecutableItem) : ExecutableItem :=
  let st := jasmine.status spec in
  let i1 := if status_is st SpecStatus.PASSED
            then with_stage FINISHED (with_status (Some PASSED) i) else i in
  let i2 := if status_is st SpecStatus.BROKEN
            then with_stage FINISHED (with_status (Some BROKEN) i1) else i1 in
  let i3 := if status_is st SpecStatus.FAILED
            then with_stage FINISHED (with_status (Some FAILED) i2) else i2 in
  if status_is st SpecStatus.PENDING || status_is st SpecStatus.DISABLED
     || status_is st SpecStatus.EXCLUDED || status_is st SpecStatus.TODO
  then with_message
         (VStr (default "Suite disabled" (nonempty (jasmine.pendingReason spec))))
         (with_stage PENDING (with_status (Some SKIPPED) i3))
  else i3.

(** The spec statuses that stand for a skipped spec. *)
Definition skipped_statuses : list string :=
  [SpecStatus.PENDING; SpecStatus.DISABLED; SpecStatus.EXCLUDED; SpecStatus.TODO].

(** The spec statuses that [specDone] maps one to one. *)
Definition outcome_of (st : string) : option Status :=
  if String.eqb st SpecStatus.PASSED then Some PASSED
  else if String.eqb st SpecStatus.BROKEN then Some BROKEN
  else if String.eqb st SpecStatus.FAILED then Some FAILED
  else None.

(** Commands that rewrite the item at [t] with [f] and do nothing else. *)
Definition item_run (t : nat) (c : JS unit) (f : ExecutableItem -> ExecutableItem) : Prop :=
  forall s, c s = (Normal tt, with_items (alter f t) s).


(** The label buffers once [new] has been put into the innermost one. *)
Definition buffer_labels (new : list Label) (ls : list (list Label)) : list (list Label) :=
  if Nat.eqb (length ls) 0 then ls else alter (fun b => b ++ new) (length ls - 1) ls.

(** The labels that place a test outside any describe block by the path
    of its file: the file, the directory it is in, the directories above
    that, and the first component of the path. *)
Definition path_labels (parts : list string) : list Label :=
  match reverse parts with
  | file :: dir :: above =>
      [mkLabel LabelName.SUB_SUITE file;
       mkLabel LabelName.SUITE dir;
       mkLabel LabelName.PARENT_SUITE (join "/" (reverse above));
       mkLabel LabelName.PACKAGE (default EmptyString (head parts))]
  | _ => []
  end.

(** The path that [specStarted] splits: the path of the test file, made
    relative to the project directory when one is configured. *)
Definition spec_file (host : Host) (s : Reporter) (testPath : string) : string :=
  match nonempty (projectDir s) with
  | Some dir => path_relative host dir testPath
  | None => testPath
  end.

(** The reporter inside the describe blocks "A" and "B", under a Jest
    worker, with no test running. *)
Definition in_suites : Reporter :=
  state_after worker_host
    [SuiteEntered (descriptor "A" None); SuiteEntered (descriptor "B" None)]
    (JasmineAllureReporter.init None).

(** A spec of the file api/users/get.test.js, outside any describe block. *)
Definition file_spec : jasmine.CustomReporterResult :=
  jasmine.mkResult "t1" "t1" None None None (Some "api/users/get.test.js").

(** The events that open a describe block. *)
Definition entered (e : Event) : bool :=
  match e with
  | SuiteEntered _ => true
  | _ => false
  end.

(** The references the reporter holds point into its stores: the groups
    on the stack exist, and so does the running test. *)
Definition refs_valid (s : Reporter) : Prop :=
  groupStack_valid s
  /\ (forall t, runningTest s = Some t -> t < length (items s)).

(** What the caller of a wrapped call gets when the body returned [v]: the
    value itself, or, for a promise, the promise of the chain. *)
Definition wrapped_result (v : value) : value :=
  match v with
  | VPromise p => VPromise (settled_chain p)
  | _ => v
  end.

(** The function that a hook hands to the wrapper of its fixture. *)
Definition hook_body (action : Hooks.Action) : Body :=
  match action with
  | Hooks.TakesDone run => Hooks.promised run
  | Hooks.Plain run => run
  end.

(** What a hook tells the host engine after the wrapped call returned
    [v]. *)
Definition hook_answer (v : value) : Hooks.Signal :=
  match v with
  | VPromise Pending => Hooks.NotYet
  | _ => Hooks.Done
  end.
(* ===================================================================== *)
(** * Symbolic execution *)
(* ===================================================================== *)

Lemma last_push {A} (x : A) (l : list A) : last (push x l) = Some x.
Proof. apply last_snoc. Qed.

Lemma bind_normal {S A B} (c : M S A) (k : A -> M S B) (s : S) (a : A) (s1 : S) :
  c s = (Normal a, s1) -> bind c k s = k a s1.
Proof. unfold bind. intros ->. reflexivity. Qed.

Lemma bind_abrupt {S A B} (c : M S A) (k : A -> M S B) (s : S) (e : value) (s1 : S) :
  c s = (Abrupt e, s1) -> bind c k s = (Abrupt e, s1).
Proof. unfold bind. intros ->. reflexivity. Qed.

Lemma bind_unfold {S A B} (c : M S A) (k : A -> M S B) (s : S) :
  bind c k s = match c s with
               | (Normal a, s') => k a s'
               | (Abrupt e, s') => (Abrupt e, s')
               end.
Proof. reflexivity. Qed.

(** One step of a computation: the first command of a sequence is run on
    the state at hand and the sequence goes on from its outcome; when the
    command waits for a case distinction, that is brought to the front. *)
Ltac js_step :=
  match goal with
  | |- context [@bind ?S ?A ?B ?c ?k ?s] =>
      let r := eval hnf in (c s) in
      lazymatch r with
      | (Normal ?a, ?s1) =>
          rewrite (@bind_normal S A B c k s a s1 (@eq_refl _ r)); cbv beta
      | (Abrupt ?e, ?s1) =>
          rewrite (@bind_abrupt S A B c k s e s1 (@eq_refl _ r))
      | _ =>
          rewrite (@bind_unfold S A B c k s); change (c s) with r
      end
  | |- context [match ?x with pair _ _ => _ end] =>
      let r := eval hnf in x in
      progress change x with r; cbv beta iota
  end.

Ltac js_norm :=
  cbn [fst snd items groups roots projectDir groupStack labelStack runningTest stepStack
       runningExecutable isSuite clock console negb andb orb is_set
       with_items with_groups with_roots with_groupStack with_labelStack with_runningTest
       with_stepStack with_runningExecutable with_isSuite with_clock with_console].

Ltac js_rewrite :=
  repeat match goal with
         | H : ?x = _ |- context [?x] => rewrite H
         end;
  repeat rewrite last_push.

(** The outcome of a sequence that has come to its last command. *)
Ltac js_done :=
  repeat match goal with
         | |- context [@throw ?S ?A ?e ?s] => change (@throw S A e s) with (@Abrupt A e, s)
         | |- context [@ret ?S ?A ?a ?s] => change (@ret S A a s) with (@Normal A a, s)
         | |- context [@modify ?S ?f ?s] => change (@modify S f s) with (Normal tt, f s)
         | |- context [fst (?c ?s)] =>
             let r := eval hnf in (c s) in
             lazymatch r with (_, _) => change (c s) with r end
         | |- context [snd (?c ?s)] =>
             let r := eval hnf in (c s) in
             lazymatch r with (_, _) => change (c s) with r end
         end.

Ltac js_run := repeat (js_norm; js_rewrite; try js_step); js_done; js_norm.

(* ===================================================================== *)
(** * Suite exit *)
(* ===================================================================== *)

(** C5, as stated, fails: a suite-exited event that arrives with no open
    group is raised as an error, not logged. *)
Lemma suiteDone_without_open_group_raises :
  let suite := jasmine.mkResult "A" "A" None None None None in
  fst (JasmineAllureReporter.suiteDone suite (JasmineAllureReporter.init None))
  = Abrupt (new_Error "No active suite.")
  /\ is_normal (fst (JasmineAllureReporter.suiteDone suite (JasmineAllureReporter.init None))) = false.
Proof. split; reflexivity. Qed.

(** C5, amended: a suite-exited event outside suite-mode or while a test is
    running is logged on the error stream and not raised; when a group is
    open it is closed and popped together with the top label buffer, and
    the handler returns; when no group is open the handler raises
    "No active suite." after the logging and leaves the stacks as they
    are. *)
Theorem suiteDone_logs_anomalies_and_raises_only_without_group
        (suite : jasmine.CustomReporterResult) (s : Reporter) :
  let out := JasmineAllureReporter.suiteDone suite s in
  console (snd out) =
    console s
    ++ (if isSuite s then [] else [anomaly_no_suite])
    ++ (if is_set (runningTest s) then [anomaly_test_running] else [])
  /\ isSuite (snd out) = isSuite s
  /\ runningTest (snd out) = runningTest s
  /\ match last (groupStack s) with
     | Some g =>
         fst out = Normal tt
         /\ groupStack (snd out) = pop (groupStack s)
         /\ labelStack (snd out) = pop (labelStack s)
         /\ groups (snd out) = alter close_group g (groups s)
     | None =>
         fst out = Abrupt (new_Error "No active suite.")
         /\ groupStack (snd out) = groupStack s
         /\ labelStack (snd out) = labelStack s
         /\ groups (snd out) = groups s
     end.
Proof.
  unfold JasmineAllureReporter.suiteDone.
  destruct (isSuite s) eqn:E1, (runningTest s) eqn:E2, (last (groupStack s)) eqn:E3;
    js_run.
  all: rewrite ?app_nil_r, <- ?app_assoc; auto 10.
Qed.

(* ===================================================================== *)
(** * Spec entry while a test is running *)
(* ===================================================================== *)

Lemma alter_snoc {A} (f : A -> A) (l : list A) (x : A) :
  alter f (length l) (l ++ [x]) = l ++ [f x].
Proof.
  replace (length l) with (length l + 0) by lia.
  rewrite alter_app_r. reflexivity.
Qed.

Lemma lookup_snoc_new {A} (l : list A) (x : A) : (l ++ [x]) !! length l = Some x.
Proof. rewrite list_lookup_middle; auto. Qed.

Lemma split_at_cons (sep : ascii) (s : string) :
  exists w ws, split_at sep s = w :: ws.
Proof.
  destruct s as [|c s]; simpl; eauto.
  destruct (Ascii.eqb c sep); eauto.
  destruct (split_at sep s); eauto.
Qed.

(** While a test is running, [specStarted] throws, whatever the state, and
    the running test stays the one it was. *)
Lemma specStarted_while_running (host : Host) (spec : jasmine.CustomReporterResult)
      (s : Reporter) (t : nat) :
  runningTest s = Some t ->
  exists e, fst (JasmineAllureReporter.specStarted host spec s) = Abrupt e
            /\ runningTest (snd (JasmineAllureReporter.specStarted host spec s)) = Some t.
Proof.
  intros Hrun. unfold JasmineAllureReporter.specStarted, JasmineAllureReporter.specPath.
  destruct (isSuite s) eqn:E1; js_run.
  - destruct (last (groupStack s)) eqn:E3; js_run; eauto.
  - destruct (nonempty (projectDir s)) as [dir|] eqn:E2,
             (jasmine.testPath spec) as [path|] eqn:E4; js_run; eauto.
    + destruct (split_at_cons "/" (path_relative host dir path)) as (w & ws & E5).
      rewrite E5.
      destruct (last (groupStack s)) eqn:E3; js_run; eauto.
    + destruct (split_at_cons "/" path) as (w & ws & E5).
      rewrite E5.
      destruct (last (groupStack s)) eqn:E3; js_run; eauto.
Qed.

Lemma groupStack_valid_last (s : Reporter) (g : nat) :
  groupStack_valid s -> last (groupStack s) = Some g -> g < length (groups s).
Proof.
  unfold groupStack_valid. rewrite Forall_forall, last_lookup.
  intros H E. apply H. eapply list_elem_of_lookup_2, E.
Qed.

Lemma lookup_snoc_at {A} (l : list A) (x : A) (i : nat) :
  i = length l -> (l ++ [x]) !! i = Some x.
Proof. intros ->. apply lookup_snoc_new. Qed.

Ltac store_lengths :=
  repeat (rewrite length_alter || rewrite length_app); cbn [length].

Ltac stores_after_overlap :=
  store_lengths; rewrite !alter_snoc;
  rewrite list_lookup_alter_eq, list_lookup_alter_ne by lia;
  rewrite lookup_snoc_at by (store_lengths; lia);
  rewrite <- ?app_assoc; cbn; repeat split; auto; store_lengths; lia.

(** With a group to start the test in, the error is the overlap error. *)
Lemma specStarted_overlap_error (host : Host) (spec : jasmine.CustomReporterResult)
      (s : Reporter) (t : nat) :
  runningTest s = Some t ->
  (if isSuite s then is_set (last (groupStack s)) else is_set (jasmine.testPath spec)) = true ->
  fst (JasmineAllureReporter.specStarted host spec s) = Abrupt overlap_error.
Proof.
  intros Hrun.
  unfold JasmineAllureReporter.specStarted, JasmineAllureReporter.specPath.
  destruct (isSuite s) eqn:E1; js_run.
  - destruct (last (groupStack s)) eqn:E3; js_run; [reflexivity | discriminate].
  - destruct (jasmine.testPath spec) as [path|] eqn:E4; [intros _ | discriminate].
    destruct (nonempty (projectDir s)) as [dir|] eqn:E2; js_run.
    + destruct (split_at_cons "/" (path_relative host dir path)) as (w & ws & E5).
      rewrite E5.
      destruct (last (groupStack s)) eqn:E3; js_run; reflexivity.
    + destruct (split_at_cons "/" path) as (w & ws & E5).
      rewrite E5.
      destruct (last (groupStack s)) eqn:E3; js_run; reflexivity.
Qed.

Lemma specDone_without_test (host : Host) (spec : jasmine.CustomReporterResult) (s : Reporter) :
  runningTest s = None ->
  JasmineAllureReporter.specDone host spec s
  = (Abrupt (new_Error "specDone while no test is running"), s).
Proof.
  intros Hrun. unfold JasmineAllureReporter.specDone. js_run. reflexivity.
Qed.

(** C3: the reporter holds one running test at most.  After any sequence
    of events, from any reporter (the initial one in particular), a
    spec-entered event delivered while a test is running makes
    [specStarted] throw, and the running test stays the one it was; with a
    group to start the test in (an open group in suite mode, a test path
    otherwise) the error thrown is "Test is starting before other ended!".
    A spec-exited event delivered while no test is running makes [specDone]
    throw "specDone while no test is running", with the reporter
    untouched. *)
Theorem overlapping_or_missing_test_is_fatal
        (host : Host) (s0 : Reporter) (evs : list Event)
        (spec : jasmine.CustomReporterResult) :
  let s := state_after host evs s0 in
  (forall t, runningTest s = Some t ->
     (exists e, fst (JasmineAllureReporter.specStarted host spec s) = Abrupt e)
     /\ runningTest (snd (JasmineAllureReporter.specStarted host spec s)) = Some t
     /\ ((if isSuite s then is_set (last (groupStack s)) else is_set (jasmine.testPath spec)) = true ->
         fst (JasmineAllureReporter.specStarted host spec s) = Abrupt overlap_error))
  /\ (runningTest s = None ->
      JasmineAllureReporter.specDone host spec s
      = (Abrupt (new_Error "specDone while no test is running"), s)).
Proof.
  intros s. split.
  - intros t Hrun.
    destruct (specStarted_while_running host spec s t Hrun) as (e & He & Hrt).
    repeat split; eauto using specStarted_overlap_error.
  - apply specDone_without_test.
Qed.

Lemma overlapping_or_missing_test_is_fatal_witness :
  let evs := [SuiteEntered (descriptor "A" None); SpecEntered (descriptor "t1" None)] in
  let s := state_after plain_host evs (JasmineAllureReporter.init None) in
  runningTest s = Some 0
  /\ fst (JasmineAllureReporter.specStarted plain_host (descriptor "t2" None) s)
     = Abrupt overlap_error
  /\ runningTest (state_after plain_host [] (JasmineAllureReporter.init None)) = None
  /\ JasmineAllureReporter.specDone plain_host (descriptor "t1" (Some "passed"))
       (JasmineAllureReporter.init None)
     = (Abrupt (new_Error "specDone while no test is running"), JasmineAllureReporter.init None).
Proof.
  intros evs s.
  split; [reflexivity|]. split.
  - apply (proj1 (overlapping_or_missing_test_is_fatal
                      plain_host (JasmineAllureReporter.init None) evs (descriptor "t2" None)) 0);
      reflexivity.
  - split; [reflexivity|].
    apply (proj2 (overlapping_or_missing_test_is_fatal
                    plain_host (JasmineAllureReporter.init None) []
                    (descriptor "t1" (Some "passed"))));
      reflexivity.
Defined.

(** C10: when [specStarted] raises the overlap error, the "Test wrapper"
    group has already been created and pushed, and the new test has already
    been started inside it: the group stack has grown by the wrapper (and,
    outside suite mode, by the group of the file before it), the store
    holds the wrapper group with the new test as its only child, the store
    of items holds the new test, and the running test is still the old
    one. *)
Theorem specStarted_overlap_check_follows_mutation
        (host : Host) (spec : jasmine.CustomReporterResult) (s : Reporter) (t : nat) :
  groupStack_valid s ->
  runningTest s = Some t ->
  fst (JasmineAllureReporter.specStarted host spec s) = Abrupt overlap_error ->
  let s' := snd (JasmineAllureReporter.specStarted host spec s) in
  let w := length (groups s) + (if isSuite s then 0 else 1) in
  groupStack s' = groupStack s ++ (if isSuite s then [] else [length (groups s)]) ++ [w]
  /\ length (groups s') = Datatypes.S w
  /\ groups s' !! w = Some (mkGroup "Test wrapper" [ChildTest (length (items s))] false)
  /\ items s' =
       items s ++ [with_name (jasmine.description spec) (with_start (Some (clock s)) stepResult)]
  /\ runningTest s' = Some t.
Proof.
  intros Hwf Hrun.
  unfold JasmineAllureReporter.specStarted, JasmineAllureReporter.specPath.
  destruct (isSuite s) eqn:E1; js_run.
  - destruct (last (groupStack s)) eqn:E3; js_run; [|discriminate].
    intros _. unfold push.
    pose proof (groupStack_valid_last _ _ Hwf E3) as Hlt.
    rewrite !length_alter, !length_app, !alter_snoc, Nat.add_0_r. cbn [length].
    rewrite list_lookup_alter_eq.
    rewrite list_lookup_alter_ne, lookup_snoc_new by lia. cbn. repeat split; auto; lia.
  - destruct (nonempty (projectDir s)) as [dir|] eqn:E2,
             (jasmine.testPath spec) as [path|] eqn:E4; js_run; try discriminate.
    + destruct (split_at_cons "/" (path_relative host dir path)) as (w & ws & E5).
      rewrite E5.
      destruct (last (groupStack s)) eqn:E3; js_run.
      all: intros _; unfold push; stores_after_overlap.
    + destruct (split_at_cons "/" path) as (w & ws & E5).
      rewrite E5.
      destruct (last (groupStack s)) eqn:E3; js_run.
      all: intros _; unfold push; stores_after_overlap.
Qed.

Lemma specStarted_overlap_check_follows_mutation_witness :
  let evs := [SuiteEntered (descriptor "A" None); SpecEntered (descriptor "t1" None)] in
  let s := state_after plain_host evs (JasmineAllureReporter.init None) in
  let s' := snd (JasmineAllureReporter.specStarted plain_host (descriptor "t2" None) s) in
  groupStack s = [0; 1]
  /\ groupStack s' = [0; 1; 2]
  /\ groups s' !! 2 = Some (mkGroup "Test wrapper" [ChildTest 1] false)
  /\ length (items s') = 2
  /\ runningTest s' = Some 0.
Proof.
  intros evs s s'.
  assert (Hvalid : groupStack_valid s) by (repeat constructor).
  destruct (specStarted_overlap_check_follows_mutation
              plain_host (descriptor "t2" None) s 0 Hvalid eq_refl eq_refl)
    as (H1 & H2 & H3 & H4 & H5).
  split; [reflexivity|]. split; [exact H1|]. split; [exact H3|].
  split; [exact (f_equal (@length _) H4)|exact H5].
Defined.

(* ===================================================================== *)
(** * The executable wrapper *)
(* ===================================================================== *)

Lemma truthy_js_or (v d : value) : truthy v = true -> js_or v d = v.
Proof. unfold js_or. intros ->. reflexivity. Qed.

(** C1, as stated, fails: a body that throws a string is recorded as
    passed, not failed, and the caller gets [undefined]. *)
Lemma sync_throw_of_string_not_failed :
  let out := ExecutableItemWrapper.wrap 0 (throwing (VStr "boom")) [] one_item in
  fst out = Normal VUndefined
  /\ status_of 0 (snd out) = Some PASSED
  /\ status_of 0 (snd out) <> Some FAILED.
Proof. repeat split; try reflexivity. discriminate. Qed.

(** C1, amended: when the body throws an error whose message and stack are
    both truthy, the item is recorded as failed and finished, and its
    detail message is the message of the error. *)
Theorem sync_throw_of_error_recorded_failed
        (r : nat) (body : Body) (args : list value) (s s1 : Reporter)
        (i : ExecutableItem) (m st : value) :
  body [VArray args] (snd (ExecutableItemWrapper.set_stage r RUNNING s))
  = (Abrupt (VObject m st), s1) ->
  truthy m = true ->
  truthy st = true ->
  items s1 !! r = Some i ->
  let out := ExecutableItemWrapper.wrap r body args s in
  exists i', items (snd out) !! r = Some i'
             /\ status i' = Some FAILED
             /\ stage i' = FINISHED
             /\ message (statusDetails i') = m.
Proof.
  intros Hbody Hm Hst Hi.
  unfold ExecutableItemWrapper.wrap. js_step.
  rewrite bind_unfold. unfold try_catch at 1.
  change (with_items (alter (with_stage RUNNING) r) s)
    with (snd (ExecutableItemWrapper.set_stage r RUNNING s)).
  rewrite Hbody.
  unfold ExecutableItemWrapper.on_throw, ExecutableItemWrapper.record_failure.
  js_run.
  repeat rewrite list_lookup_alter_eq. rewrite Hi. cbn -[truthy]. js_run.
  repeat rewrite list_lookup_alter_eq. rewrite Hi. cbn -[truthy].
  eexists. split; [reflexivity|]. cbn -[truthy].
  rewrite truthy_js_or by assumption. auto.
Qed.

Lemma sync_throw_of_error_recorded_failed_witness :
  let out := ExecutableItemWrapper.wrap 0 (throwing (new_Error "boom")) [] one_item in
  status_of 0 (snd out) = Some FAILED
  /\ (stage <$> items (snd out) !! 0) = Some FINISHED
  /\ (message ∘ statusDetails <$> items (snd out) !! 0) = Some (VStr "boom").
Proof.
  intros out.
  destruct (sync_throw_of_error_recorded_failed
              0 (throwing (new_Error "boom")) [] one_item
              (snd (ExecutableItemWrapper.set_stage 0 RUNNING one_item))
              (with_stage RUNNING stepResult) (VStr "boom") (VStr "Error: boom")
              eq_refl eq_refl eq_refl eq_refl)
    as (i' & Hi' & Hstatus & Hstage & Hmessage).
  fold out in Hi'. unfold status_of. rewrite Hi'. cbn.
  rewrite Hstatus, Hstage, Hmessage. auto.
Defined.

(** C2, on the code: a body that throws a plain object, one without message
    or stack, leaves the item passed and finished and the caller with
    [undefined]; a body whose promise rejects with the same object leaves
    the item broken and interrupted, without a detail message. *)
Theorem sync_throw_of_plain_object_recorded_passed :
  let plain := VObject VUndefined VUndefined in
  let thrown := ExecutableItemWrapper.wrap 0 (throwing plain) [] one_item in
  let rejected :=
    ExecutableItemWrapper.wrap 0 (returning (VPromise (Rejected plain))) [] one_item in
  (fst thrown = Normal VUndefined
   /\ (stage <$> items (snd thrown) !! 0) = Some FINISHED
   /\ status_of 0 (snd thrown) = Some PASSED)
  /\ (fst rejected = Normal (VPromise (Fulfilled VUndefined))
      /\ (stage <$> items (snd rejected) !! 0) = Some INTERRUPTED
      /\ status_of 0 (snd rejected) = Some BROKEN
      /\ (message ∘ statusDetails <$> items (snd rejected) !! 0) = Some VUndefined).
Proof. repeat split. Qed.

(** The wrapped call uses the body at one list of arguments only. *)
Lemma wrap_ext (r : nat) (body body' : Body) (args : list value) (s : Reporter) :
  body [VArray args] (snd (ExecutableItemWrapper.set_stage r RUNNING s))
  = body' [VArray args] (snd (ExecutableItemWrapper.set_stage r RUNNING s)) ->
  ExecutableItemWrapper.wrap r body args s = ExecutableItemWrapper.wrap r body' args s.
Proof.
  intros H. unfold ExecutableItemWrapper.wrap.
  rewrite !(bind_unfold (ExecutableItemWrapper.set_stage r RUNNING)).
  destruct (ExecutableItemWrapper.set_stage r RUNNING s) as [[[]|e] s1] eqn:E;
    [|reflexivity].
  rewrite !(bind_unfold (try_catch _ _)). unfold try_catch.
  cbn [snd] in H. rewrite H. reflexivity.
Qed.

Lemma wrap_probe (r : nat) (args : list value) (s : Reporter) :
  fst (ExecutableItemWrapper.wrap r probe args s) = Normal (VArray [VArray args]).
Proof.
  unfold ExecutableItemWrapper.wrap, probe. js_run.
  destruct (_ ≫= _); js_run; reflexivity.
Qed.

Lemma currentExecutable_run (s : Reporter) (exe : nat) :
  fst (JasmineAllureInterface.currentExecutable s) = Normal exe ->
  JasmineAllureInterface.currentExecutable s = (Normal exe, s).
Proof.
  unfold JasmineAllureInterface.currentExecutable. js_run.
  destruct (last (stepStack s)); js_run.
  - intros [= ->]. reflexivity.
  - destruct (runningExecutable s); js_run.
    + intros [= ->]. reflexivity.
    + unfold JasmineAllureReporter.currentTest. js_run.
      destruct (runningTest s); js_run.
      * intros [= ->]. reflexivity.
      * discriminate.
Qed.

Lemma step_ext (name : string) (body body' : Body) (s : Reporter) :
  (forall s', body [VArray []] s' = body' [VArray []] s') ->
  JasmineAllureInterface.step name body s = JasmineAllureInterface.step name body' s.
Proof.
  intros H. unfold JasmineAllureInterface.step.
  rewrite !(bind_unfold (JasmineAllureInterface.startStep name)).
  destruct (JasmineAllureInterface.startStep name s) as [[w|e] s1]; [|reflexivity].
  rewrite !(bind_unfold (try_catch _ _)). unfold try_catch, WrappedStep.run.
  rewrite (wrap_ext w body body' [] s1 (H _)). reflexivity.
Qed.

Lemma setup_ext (body body' : Body) (s : Reporter) :
  (forall s', body [VArray []] s' = body' [VArray []] s') ->
  JasmineAllureInterface.setup body s = JasmineAllureInterface.setup body' s.
Proof.
  intros H. unfold JasmineAllureInterface.setup.
  rewrite !(bind_unfold JasmineAllureReporter.currentGroup).
  destruct (JasmineAllureReporter.currentGroup s) as [[g|e] s1]; [|reflexivity].
  rewrite !(bind_unfold (AllureGroup.addBefore g)).
  destruct (AllureGroup.addBefore g s1) as [[f|e] s2]; [|reflexivity].
  rewrite !(bind_unfold (modify _)).
  destruct (modify (with_runningExecutable (Some f)) s2) as [[[]|e] s3]; [|reflexivity].
  rewrite !(bind_unfold (ExecutableItemWrapper.wrap _ _ _)).
  rewrite (wrap_ext f body body' [] s3 (H _)). reflexivity.
Qed.

Lemma runHook_ext (fun_ : JS nat) (body body' : Body) (s : Reporter) :
  (forall s', body [VArray []] s' = body' [VArray []] s') ->
  Hooks.runHook fun_ (Hooks.Plain body) s = Hooks.runHook fun_ (Hooks.Plain body') s.
Proof.
  intros H. unfold Hooks.runHook.
  rewrite !(bind_unfold fun_).
  destruct (fun_ s) as [[f|e] s1]; [|reflexivity].
  rewrite !(bind_unfold (modify _)).
  destruct (modify (with_runningExecutable (Some f)) s1) as [[[]|e] s2]; [|reflexivity].
  rewrite !(bind_unfold (ExecutableItemWrapper.wrap _ _ _)).
  rewrite (wrap_ext f body body' [] s2 (H _)). reflexivity.
Qed.

Lemma step_probe (name : string) (s : Reporter) (exe : nat) :
  fst (JasmineAllureInterface.currentExecutable s) = Normal exe ->
  fst (JasmineAllureInterface.step name probe s) = Normal (VArray [VArray []]).
Proof.
  intros Hexe. apply currentExecutable_run in Hexe.
  unfold JasmineAllureInterface.step, JasmineAllureInterface.startStep.
  rewrite bind_unfold, (bind_normal _ _ _ _ _ Hexe).
  unfold ExecutableItemWrapper.startStep, ExecutableItemWrapper.new_AllureStep,
    WrappedStep.run, ExecutableItemWrapper.wrap, WrappedStep.endStep, probe.
  js_run. unfold try_catch. js_run.
  destruct (_ ≫= _); js_run; reflexivity.
Qed.

(* ===================================================================== *)
(** * Steps opened through the interface *)
(* ===================================================================== *)

Lemma startStep_run (name : string) (s : Reporter) (exe : nat) :
  fst (JasmineAllureInterface.currentExecutable s) = Normal exe ->
  exists s1,
    JasmineAllureInterface.startStep name s = (Normal (length (items s)), s1)
    /\ snd (ExecutableItemWrapper.set_stage (length (items s)) RUNNING s1) = step_opened name s
    /\ stepStack s1 = push (length (items s)) (stepStack s)
    /\ length (items s1) = Datatypes.S (length (items s)).
Proof.
  intros Hexe. apply currentExecutable_run in Hexe.
  unfold step_opened.
  rewrite (bind_unfold (JasmineAllureInterface.startStep name)).
  unfold JasmineAllureInterface.startStep.
  rewrite !(bind_normal _ _ _ _ _ Hexe).
  unfold ExecutableItemWrapper.startStep, ExecutableItemWrapper.new_AllureStep.
  do 12 (try js_step).
  eexists. split; [reflexivity|]. split; [reflexivity|]. split; [reflexivity|].
  js_norm. store_lengths. lia.
Qed.

(** A step run through [step] whose body completes. *)
Lemma step_completes (name : string) (body : Body) (s s2 : Reporter) (exe : nat)
      (v : value) (i : ExecutableItem) :
  fst (JasmineAllureInterface.currentExecutable s) = Normal exe ->
  body [VArray []] (step_opened name s) = (Normal v, s2) ->
  completes v ->
  items s2 !! length (items s) = Some i ->
  let out := JasmineAllureInterface.step name body s in
  fst out = Normal v
  /\ stepStack (snd out) = pop (stepStack s2)
  /\ exists i', items (snd out) !! length (items s) = Some i'
                /\ status i' = Some (default PASSED (status i))
                /\ stage i' = FINISHED
                /\ stop i' = Some (clock s2).
Proof.
  intros Hexe Hbody Hv Hi.
  destruct (startStep_run name s exe Hexe) as (s1 & Hstart & Hopen & _).
  unfold JasmineAllureInterface.step.
  rewrite (bind_normal _ _ _ _ _ Hstart).
  rewrite bind_unfold. unfold try_catch, WrappedStep.run, ExecutableItemWrapper.wrap.
  rewrite (bind_unfold (ExecutableItemWrapper.set_stage _ _)).
  destruct (ExecutableItemWrapper.set_stage (length (items s)) RUNNING s1)
    as [[[]|e] s1'] eqn:E; [|discriminate E].
  cbn [snd] in Hopen. subst s1'.
  rewrite bind_unfold. unfold try_catch. rewrite Hbody.
  unfold WrappedStep.endStep, ExecutableItemWrapper.chain, ExecutableItemWrapper.on_fulfilled.
  destruct v as [| | | | | | |[| |]]; try contradiction; js_run.
  all: destruct (status i) as [st|] eqn:Est; cbn [mbind option_bind is_set negb]; js_run.
  all: split; [reflexivity|]; split; [reflexivity|].
  all: repeat rewrite list_lookup_alter_eq; rewrite Hi; cbn.
  all: eexists; split; [reflexivity|]; cbn; auto.
Qed.

Lemma pop_push {A} (x : A) (l : list A) : pop (push x l) = l.
Proof. apply removelast_last. Qed.

Lemma with_items_alter_id (r : nat) (s : Reporter) :
  with_items (alter (fun i => i) r) s = s.
Proof. destruct s. unfold with_items. cbn. rewrite list_alter_id by reflexivity. reflexivity. Qed.

Lemma with_items_alter_alter (f g : ExecutableItem -> ExecutableItem) (r : nat) (s : Reporter) :
  with_items (alter f r) (with_items (alter g r) s) = with_items (alter (f ∘ g) r) s.
Proof. unfold with_items. cbn. rewrite list_alter_alter_eq. reflexivity. Qed.

(** The attachments handed to [logStep] all go to the step on top of the
    step stack. *)
Lemma attachments_loop (host : Host) (atts : list (string * string * string))
      (s : Reporter) (r : nat) :
  last (stepStack s) = Some r ->
  exists f,
    (forall i, status (f i) = status i /\ stage (f i) = stage i)
    /\ for_of atts (fun a => match a with
                             | (name, content, type) =>
                                 JasmineAllureInterface.attachment host name content type
                             end) s
       = (Normal tt, with_items (alter f r) s).
Proof.
  revert s. induction atts as [|[[n c] ty] atts IH]; intros s Hlast.
  - exists (fun i => i). split; [auto|]. cbn. rewrite with_items_alter_id. reflexivity.
  - cbn [for_of].
    unfold JasmineAllureInterface.attachment at 1, JasmineAllureInterface.currentExecutable,
      ExecutableItemWrapper.addAttachment.
    js_run.
    match goal with
    | |- context [for_of atts ?body ?s'] => destruct (IH s' Hlast) as (f & Hf & ->)
    end.
    rewrite with_items_alter_alter.
    eexists. split; [|reflexivity].
    intros i. cbn. destruct (Hf (with_attachments
                                    (push (mkAttachment n ty (runtime_writeAttachment host c ty))
                                          (attachments i)) i)) as [-> ->].
    auto.
Qed.

(** A step logged through [logStep]. *)
Lemma logStep_keeps_status (host : Host) (name : string) (st : Status)
      (atts : option (list (string * string * string))) (s : Reporter) (exe : nat) :
  fst (JasmineAllureInterface.currentExecutable s) = Normal exe ->
  let out := JasmineAllureInterface.logStep host name st atts s in
  fst out = Normal tt
  /\ stepStack (snd out) = stepStack s
  /\ exists i', items (snd out) !! length (items s) = Some i'
                /\ status i' = Some st
                /\ stage i' = FINISHED.
Proof.
  intros Hexe.
  destruct (startStep_run name s exe Hexe) as (s1 & Hstart & _ & Hstack & Hlen).
  unfold JasmineAllureInterface.logStep.
  rewrite (bind_normal _ _ _ _ _ Hstart).
  assert (Hloop : exists f,
             (forall i, status (f i) = status i /\ stage (f i) = stage i)
             /\ match atts with
                | Some atts =>
                    for_of atts (fun a => match a with
                                          | (name, content, type) =>
                                              JasmineAllureInterface.attachment host name content type
                                          end)
                | None => ret tt
                end s1 = (Normal tt, with_items (alter f (length (items s))) s1)).
  { destruct atts as [atts|].
    - apply attachments_loop. rewrite Hstack. apply last_push.
    - exists (fun i => i). split; [auto|]. rewrite with_items_alter_id. reflexivity. }
  destruct Hloop as (f & Hf & Hloop).
  rewrite (bind_normal _ _ _ _ _ Hloop).
  unfold WrappedStep.logStep, ExecutableItemWrapper.logStep, WrappedStep.endStep,
    AllureStep.endStep.
  js_run. rewrite ?Hstack, ?pop_push.
  split; [reflexivity|]. split; [reflexivity|].
  destruct (lookup_lt_is_Some_2 (items s1) (length (items s))) as [x Hx]; [lia|].
  repeat rewrite list_lookup_alter_eq. rewrite Hx. cbn.
  eexists. split; [reflexivity|]. cbn. auto.
Qed.

(** C7: a step run through [step] whose body completes (returns a value
    that is not a promise, or a promise that is fulfilled) ends finished,
    with status passed when the body left the step without a status and
    with the status the step had otherwise; a step logged through [logStep]
    ends finished with the status given. *)
Theorem step_roundtrip_keeps_explicit_status :
  (forall name body s s2 exe v i,
      fst (JasmineAllureInterface.currentExecutable s) = Normal exe ->
      body [VArray []] (step_opened name s) = (Normal v, s2) ->
      completes v ->
      items s2 !! length (items s) = Some i ->
      let out := JasmineAllureInterface.step name body s in
      fst out = Normal v
      /\ stepStack (snd out) = pop (stepStack s2)
      /\ exists i', items (snd out) !! length (items s) = Some i'
                    /\ status i' = Some (default PASSED (status i))
                    /\ (status i = None -> status i' = Some PASSED)
                    /\ (forall st, status i = Some st -> status i' = Some st)
                    /\ stage i' = FINISHED
                    /\ stop i' = Some (clock s2))
  /\ (forall host name st atts s exe,
         fst (JasmineAllureInterface.currentExecutable s) = Normal exe ->
         let out := JasmineAllureInterface.logStep host name st atts s in
         fst out = Normal tt
         /\ stepStack (snd out) = stepStack s
         /\ exists i', items (snd out) !! length (items s) = Some i'
                       /\ status i' = Some st
                       /\ stage i' = FINISHED).
Proof.
  split.
  - intros name body s s2 exe v i Hexe Hbody Hv Hi out.
    destruct (step_completes name body s s2 exe v i Hexe Hbody Hv Hi)
      as (Hret & Hstack & i' & Hi' & Hstatus & Hstage & Hstop).
    split; [exact Hret|]. split; [exact Hstack|].
    exists i'. split; [exact Hi'|]. split; [exact Hstatus|].
    split; [intros E; rewrite Hstatus, E; reflexivity|].
    split; [intros st E; rewrite Hstatus, E; reflexivity|].
    split; assumption.
  - intros host name st atts s exe Hexe. apply (logStep_keeps_status host name st atts s exe Hexe).
Qed.


Lemma step_roundtrip_keeps_explicit_status_witness :
  let silent := returning VUndefined in
  let explicit : Body := fun _ => ExecutableItemWrapper.logStep 1 SKIPPED;; ret VUndefined in
  status_of 1 (snd (JasmineAllureInterface.step "s" silent in_test)) = Some PASSED
  /\ status_of 1 (snd (JasmineAllureInterface.step "s" explicit in_test)) = Some SKIPPED
  /\ status_of 1 (snd (JasmineAllureInterface.logStep plain_host "s" BROKEN None in_test))
     = Some BROKEN.
Proof.
  intros silent explicit.
  destruct step_roundtrip_keeps_explicit_status as [Hstep Hlog].
  assert (Hexe : fst (JasmineAllureInterface.currentExecutable in_test) = Normal 0)
    by (vm_compute; reflexivity).
  split; [|split].
  - pose (s2 := snd (silent [VArray []] (step_opened "s" in_test))).
    pose (i := default stepResult (items s2 !! 1)).
    assert (Hbody : silent [VArray []] (step_opened "s" in_test) = (Normal VUndefined, s2))
      by (vm_compute; reflexivity).
    assert (Hi : items s2 !! length (items in_test) = Some i) by (vm_compute; reflexivity).
    destruct (Hstep "s" silent in_test s2 0 VUndefined i Hexe Hbody I Hi)
      as (_ & _ & i' & Hi' & _ & Hnone & _).
    change (length (items in_test)) with 1 in Hi'.
    unfold status_of. rewrite Hi'. apply Hnone. vm_compute. reflexivity.
  - pose (s2 := snd (explicit [VArray []] (step_opened "s" in_test))).
    pose (i := default stepResult (items s2 !! 1)).
    assert (Hbody : explicit [VArray []] (step_opened "s" in_test) = (Normal VUndefined, s2))
      by (vm_compute; reflexivity).
    assert (Hi : items s2 !! length (items in_test) = Some i) by (vm_compute; reflexivity).
    destruct (Hstep "s" explicit in_test s2 0 VUndefined i Hexe Hbody I Hi)
      as (_ & _ & i' & Hi' & _ & _ & Hsome & _).
    change (length (items in_test)) with 1 in Hi'.
    unfold status_of. rewrite Hi'. apply Hsome. vm_compute. reflexivity.
  - destruct (Hlog plain_host "s" BROKEN None in_test 0 Hexe)
      as (_ & _ & i' & Hi' & Hstatus & _).
    change (length (items in_test)) with 1 in Hi'.
    unfold status_of. rewrite Hi'. exact Hstatus.
Defined.

(* ===================================================================== *)
(** * Spec exit *)
(* ===================================================================== *)

Lemma item_command_update (t : nat) (f : ExecutableItem -> ExecutableItem) :
  item_command t (ExecutableItemWrapper.update t f).
Proof. exists f. reflexivity. Qed.

Lemma item_command_ret (t : nat) : item_command t (ret tt).
Proof. exists (fun i => i). intros s. rewrite with_items_alter_id. reflexivity. Qed.

Lemma item_command_seq (t : nat) (c1 c2 : JS unit) :
  item_command t c1 -> item_command t c2 -> item_command t (c1;; c2).
Proof.
  intros [f Hf] [g Hg]. exists (g ∘ f). intros s.
  rewrite (bind_normal _ _ _ _ _ (Hf s)), Hg, with_items_alter_alter. reflexivity.
Qed.

Lemma item_command_when (t : nat) (b : bool) (c : JS unit) :
  item_command t c -> item_command t (when b c).
Proof. destruct b; [auto | intros _; apply item_command_ret]. Qed.

Lemma captureStatus_item (host : Host) (spec : jasmine.CustomReporterResult) (t : nat) :
  item_command t (JasmineAllureReporter.captureStatus spec t).
Proof.
  unfold JasmineAllureReporter.captureStatus.
  repeat first [ apply item_command_seq | apply item_command_when
               | apply item_command_update ].
Qed.

Lemma with_items_with_items (f g : list ExecutableItem -> list ExecutableItem) (s : Reporter) :
  with_items f (with_items g s) = with_items (f ∘ g) s.
Proof. reflexivity. Qed.

Lemma with_items_with_clock (f : list ExecutableItem -> list ExecutableItem) (n : nat)
      (s : Reporter) :
  with_items f (with_clock n s) = with_clock n (with_items f s).
Proof. reflexivity. Qed.

Lemma with_clock_with_clock (n m : nat) (s : Reporter) :
  with_clock n (with_clock m s) = with_clock n s.
Proof. reflexivity. Qed.

(** The loop over the steps left open. *)
Lemma force_close_loop (l : list nat) (s : Reporter) :
  for_of l (fun step =>
              ExecutableItemWrapper.set_status step (Some BROKEN);;
              ExecutableItemWrapper.set_stage step INTERRUPTED;;
              ExecutableItemWrapper.set_detailsMessage step
                (VStr "Test ended unexpectedly before step could complete.");;
              AllureStep.endStep step) s
  = (Normal tt, with_clock (clock s + length l) (with_items (close_each (clock s) l) s)).
Proof.
  revert s. induction l as [|r l IH]; intros s.
  - destruct s. cbn. rewrite Nat.add_0_r. reflexivity.
  - cbn [for_of]. unfold AllureStep.endStep. js_run.
    rewrite IH.
    rewrite !with_items_with_clock, !with_clock_with_clock, !with_items_with_items.
    js_norm.
    replace (Datatypes.S (clock s) + length l) with (clock s + length (r :: l))
      by (cbn [length]; lia).
    do 2 f_equal. unfold with_items. f_equal.
    unfold compose. cbn [close_each]. rewrite !list_alter_alter_eq. reflexivity.
Qed.

Lemma close_each_notin (now : nat) (l : list nat) (its : list ExecutableItem) (r : nat) :
  r ∉ l -> close_each now l its !! r = its !! r.
Proof.
  revert now its. induction l as [|x l IH]; intros now its Hr; [reflexivity|].
  apply not_elem_of_cons in Hr as [Hne Hr].
  cbn [close_each]. rewrite IH by assumption.
  apply list_lookup_alter_ne. auto.
Qed.

Lemma close_each_lookup (now : nat) (l : list nat) (its : list ExecutableItem) (k r : nat) :
  NoDup l -> l !! k = Some r ->
  close_each now l its !! r = force_closed (now + k) <$> its !! r.
Proof.
  revert now its k. induction l as [|x l IH]; intros now its k Hnd Hk; [discriminate|].
  apply NoDup_cons in Hnd as [Hx Hnd].
  cbn [close_each]. destruct k as [|k]; cbn in Hk.
  - injection Hk as ->. rewrite close_each_notin by assumption.
    rewrite list_lookup_alter_eq, Nat.add_0_r. reflexivity.
  - rewrite (IH _ _ k) by assumption.
    rewrite list_lookup_alter_ne.
    + f_equal. f_equal. lia.
    + intros ->. apply Hx. eapply list_elem_of_lookup_2, Hk.
Qed.

Lemma closeLeakedSteps_none (s : Reporter) :
  stepStack s = [] -> JasmineAllureReporter.closeLeakedSteps s = (Normal tt, s).
Proof.
  intros E. unfold JasmineAllureReporter.closeLeakedSteps. js_run. reflexivity.
Qed.

Lemma closeLeakedSteps_run (s : Reporter) :
  stepStack s <> [] ->
  JasmineAllureReporter.closeLeakedSteps s
  = (Normal tt,
     with_stepStack (fun _ => [])
       (with_clock (clock s + length (stepStack s))
          (with_items (close_each (clock s) (reverse (stepStack s)))
             (with_console (push anomaly_open_steps) s)))).
Proof.
  intros E. unfold JasmineAllureReporter.closeLeakedSteps. js_run.
  destruct (stepStack s) as [|x l] eqn:El; [contradiction|].
  cbn [length Nat.ltb Nat.leb]. js_run. rewrite force_close_loop.
  js_norm. rewrite length_reverse. js_run. reflexivity.
Qed.

Lemma finishTest_run (t : nat) (s : Reporter) :
  exists s',
    JasmineAllureReporter.finishTest t s = (finish_completion s, s')
    /\ items s' = alter (with_stop (Some (clock s))) t (items s)
    /\ stepStack s' = stepStack s
    /\ console s' = console s.
Proof.
  unfold JasmineAllureReporter.finishTest, finish_completion. js_run.
  destruct (last (groupStack s)) eqn:E1; js_run; [|eexists; repeat split].
  destruct (isSuite s) eqn:E2; js_run; [eexists; repeat split|].
  destruct (last (pop (groupStack s))) eqn:E3; js_run; eexists; repeat split.
Qed.

Lemma close_each_length (now : nat) (l : list nat) (its : list ExecutableItem) :
  length (close_each now l its) = length its.
Proof.
  revert now its. induction l as [|x l IH]; intros now its; [reflexivity|].
  cbn [close_each]. rewrite IH. apply length_alter.
Qed.

Lemma closeLeakedSteps_frame (s : Reporter) :
  exists s1,
    JasmineAllureReporter.closeLeakedSteps s = (Normal tt, s1)
    /\ groupStack s1 = groupStack s
    /\ isSuite s1 = isSuite s
    /\ stepStack s1 = []
    /\ length (items s1) = length (items s).
Proof.
  destruct (stepStack s) as [|x l] eqn:E.
  - exists s. rewrite closeLeakedSteps_none by assumption. auto.
  - eexists. rewrite closeLeakedSteps_run by (rewrite E; discriminate).
    split; [reflexivity|]. js_norm. rewrite close_each_length. auto.
Qed.

Lemma captureException_run (host : Host) (spec : jasmine.CustomReporterResult)
      (t : nat) (s : Reporter) :
  JasmineAllureReporter.captureException host spec t s
  = (Normal tt, with_items (alter (exception_details host spec) t) s).
Proof.
  unfold JasmineAllureReporter.captureException, exception_details.
  destruct (JasmineAllureReporter.exceptionInfo spec) as [e|].
  - destruct (negb _).
    + js_step.
      change (ExecutableItemWrapper.set_detailsTrace t ?v ?s')
        with (Normal tt, with_items (alter (with_trace v) t) s').
      rewrite with_items_alter_alter. reflexivity.
    + js_step. reflexivity.
  - unfold ret. rewrite with_items_alter_id. reflexivity.
Qed.

(** [specDone] on a running test: the steps left open are closed, then the
    test is rewritten and the groups are popped. *)
Lemma specDone_run (host : Host) (spec : jasmine.CustomReporterResult)
      (s : Reporter) (t : nat) :
  runningTest s = Some t ->
  exists f0 s1 s',
    JasmineAllureReporter.closeLeakedSteps s = (Normal tt, s1)
    /\ JasmineAllureReporter.specDone host spec s = (finish_completion s, s')
    /\ items s' = alter (with_stop (Some (clock s1)) ∘ exception_details host spec ∘ f0) t
                        (items s1)
    /\ stepStack s' = stepStack s1
    /\ console s' = console s1.
Proof.
  intros Hrun.
  destruct (closeLeakedSteps_frame s) as (s1 & Hclose & Hgroups & Hsuite & _ & _).
  destruct (captureStatus_item host spec t) as [f0 Hf0].
  destruct (finishTest_run t
              (with_items (alter (exception_details host spec) t)
                          (with_items (alter f0 t) s1)))
    as (s' & Hfinish & Hitems & Hsteps & Hconsole).
  exists f0, s1, s'.
  split; [exact Hclose|].
  split; [|split; [|split]].
  - unfold JasmineAllureReporter.specDone. js_step. js_norm. rewrite Hrun.
    rewrite (bind_normal _ _ _ _ _ Hclose), (bind_normal _ _ _ _ _ (Hf0 s1)).
    rewrite (bind_normal _ _ _ _ _ (captureException_run host spec t _)).
    rewrite Hfinish. f_equal.
    unfold finish_completion. js_norm. rewrite Hgroups, Hsuite. reflexivity.
  - rewrite Hitems. js_norm. rewrite !list_alter_alter_eq. reflexivity.
  - rewrite Hsteps. reflexivity.
  - rewrite Hconsole. reflexivity.
Qed.

(** C4: when spec-exited fires on a running test with steps left open, the
    anomaly is logged, every open step is marked broken and interrupted
    with the message "Test ended unexpectedly before step could complete."
    and stamped with a stop time, the step that was opened last first (the
    step at position [k] of the stack, counted from the outermost, is
    stamped [n - 1 - k] readings of the clock after the innermost), the
    step stack is empty afterwards, and [specDone] completes as it does
    without open steps. *)
Theorem open_steps_force_closed_on_spec_exit
        (host : Host) (spec : jasmine.CustomReporterResult) (s : Reporter) (t : nat) :
  runningTest s = Some t ->
  stepStack s <> [] ->
  NoDup (stepStack s) ->
  t ∉ stepStack s ->
  let out := JasmineAllureReporter.specDone host spec s in
  let n := length (stepStack s) in
  stepStack (snd out) = []
  /\ console (snd out) = console s ++ [anomaly_open_steps]
  /\ (forall k r i,
         stepStack s !! k = Some r ->
         items s !! r = Some i ->
         exists i', items (snd out) !! r = Some i'
                    /\ status i' = Some BROKEN
                    /\ stage i' = INTERRUPTED
                    /\ message (statusDetails i') = ended_unexpectedly
                    /\ stop i' = Some (clock s + (n - 1 - k)))
  /\ fst out = fst (JasmineAllureReporter.specDone host spec (with_stepStack (fun _ => []) s))
  /\ fst out = finish_completion s.
Proof.
  intros Hrun Hopen Hnd Ht out n.
  destruct (specDone_run host spec s t Hrun)
    as (f0 & s1 & s' & Hclose & Hdone & Hitems & Hsteps & Hconsole).
  rewrite closeLeakedSteps_run in Hclose by assumption.
  injection Hclose as <-.
  subst out. rewrite Hdone. cbn [fst snd].
  split; [rewrite Hsteps; reflexivity|].
  split; [rewrite Hconsole; reflexivity|].
  split.
  - intros k r i Hk Hi.
    assert (Hr : r <> t).
    { intros ->. apply Ht. eapply list_elem_of_lookup_2, Hk. }
    pose proof (lookup_lt_Some _ _ _ Hk) as Hlt.
    rewrite Hitems. js_norm.
    rewrite list_lookup_alter_ne by auto.
    rewrite (close_each_lookup _ _ _ (n - 1 - k) r).
    + rewrite Hi. eexists. split; [reflexivity|]. cbn. auto.
    + rewrite reverse_Permutation. assumption.
    + rewrite reverse_lookup by (subst n; lia).
      replace (length (stepStack s) - Datatypes.S (n - 1 - k)) with k by (subst n; lia).
      assumption.
  - split; [|reflexivity].
    destruct (specDone_run host spec (with_stepStack (fun _ => []) s) t Hrun)
      as (? & ? & ? & _ & -> & _).
    reflexivity.
Qed.

Lemma open_steps_force_closed_on_spec_exit_witness :
  let out := JasmineAllureReporter.specDone plain_host (descriptor "t1" (Some "passed")) in_steps in
  runningTest in_steps = Some 0
  /\ stepStack in_steps = [1; 2]
  /\ stepStack (snd out) = []
  /\ fst out = Normal tt
  /\ (exists inner outer,
         items (snd out) !! 2 = Some inner /\ items (snd out) !! 1 = Some outer
         /\ status inner = Some BROKEN /\ status outer = Some BROKEN
         /\ stage inner = INTERRUPTED /\ stage outer = INTERRUPTED
         /\ stop inner = Some 3 /\ stop outer = Some 4).
Proof.
  intros out. subst out.
  assert (Hrun : runningTest in_steps = Some 0) by (vm_compute; reflexivity).
  assert (Hopen : stepStack in_steps <> []) by (vm_compute; discriminate).
  assert (Hnd : NoDup (stepStack in_steps))
    by (apply (bool_decide_unpack _); vm_compute; exact I).
  assert (Ht : 0 ∉ stepStack in_steps)
    by (apply (bool_decide_unpack _); vm_compute; exact I).
  destruct (open_steps_force_closed_on_spec_exit
              plain_host (descriptor "t1" (Some "passed")) in_steps 0 Hrun Hopen Hnd Ht)
    as (Hempty & _ & Hsteps & _ & Hfst).
  split; [exact Hrun|]. split; [vm_compute; reflexivity|].
  split; [exact Hempty|]. split; [rewrite Hfst; vm_compute; reflexivity|].
  destruct (Hsteps 1 2 (default stepResult (items in_steps !! 2)))
    as (inner & Hinner & Hs1 & Hg1 & _ & Hp1); [vm_compute; reflexivity..|].
  destruct (Hsteps 0 1 (default stepResult (items in_steps !! 1)))
    as (outer & Houter & Hs2 & Hg2 & _ & Hp2); [vm_compute; reflexivity..|].
  exists inner, outer. repeat split; assumption.
Defined.


Lemma prefix_app (m rest : string) : String.prefix m (m ++ rest) = true.
Proof.
  induction m as [|c m IH]; [destruct rest; reflexivity|].
  simpl. destruct (ascii_dec c c); [exact IH | contradiction].
Qed.

Lemma substring_all (s : string) : String.substring 0 (String.length s) s = s.
Proof. induction s as [|c s IH]; [reflexivity|]. simpl. rewrite IH. reflexivity. Qed.

Lemma substring_app (m rest : string) :
  String.substring (String.length m) (String.length rest) (m ++ rest) = rest.
Proof. induction m as [|c m IH]; [apply substring_all | exact IH]. Qed.

Lemma string_length_app (a b : string) :
  String.length (a ++ b) = String.length a + String.length b.
Proof. induction a as [|c a IH]; [reflexivity|]. simpl. rewrite IH. reflexivity. Qed.

(** When the stack begins with the message, the message is removed from
    its start. *)
Lemma replace_first_leading (m rest : string) : replace_first m (m ++ rest) = rest.
Proof.
  assert (H : String.substring (String.length m)
                               (String.length (m ++ rest) - String.length m) (m ++ rest) = rest).
  { rewrite string_length_app.
    replace (String.length m + String.length rest - String.length m)
      with (String.length rest) by lia.
    apply substring_app. }
  pose proof (prefix_app m rest) as Hp.
  destruct (String.append m rest) as [|c s]; cbn [replace_first]; rewrite Hp; exact H.
Qed.
Lemma findMessageAboutThrow_first (pre post : list jasmine.FailedExpectation)
      (e : jasmine.FailedExpectation) :
  Forall (fun p => jasmine.matcherName p <> EmptyString) pre ->
  jasmine.matcherName e = EmptyString ->
  JasmineAllureReporter.findMessageAboutThrow (Some (pre ++ e :: post)) = Some e.
Proof.
  intros Hpre He. unfold JasmineAllureReporter.findMessageAboutThrow. cbn [default].
  induction Hpre as [|p pre Hp _ IH]; cbn.
  - rewrite He. reflexivity.
  - destruct (String.eqb_spec (jasmine.matcherName p) EmptyString); [contradiction | exact IH].
Qed.

Lemma findMessageAboutThrow_none (fes : list jasmine.FailedExpectation) :
  Forall (fun p => jasmine.matcherName p <> EmptyString) fes ->
  JasmineAllureReporter.findMessageAboutThrow (Some fes) = None.
Proof.
  intros H. unfold JasmineAllureReporter.findMessageAboutThrow. cbn [default].
  induction H as [|p fes Hp _ IH]; cbn; [reflexivity|].
  destruct (String.eqb_spec (jasmine.matcherName p) EmptyString); [contradiction | exact IH].
Qed.

(** C8, as stated, fails: the message is removed where it first occurs in
    the stack, which need not be the start of the stack. *)
Lemma failure_message_removed_inside_stack :
  let fe := jasmine.mkFailedExpectation "toBe" "boom" "Error: boom at spec.js" in
  let out := JasmineAllureReporter.specDone plain_host (failed_spec [fe]) in_test in
  (trace ∘ statusDetails <$> items (snd out) !! 0) = Some (VStr "Error:  at spec.js")
  /\ remove_leading "boom" "Error: boom at spec.js" = "Error: boom at spec.js"
  /\ (trace ∘ statusDetails <$> items (snd out) !! 0)
     <> Some (VStr (remove_leading "boom" "Error: boom at spec.js")).
Proof. vm_compute. repeat split. discriminate. Qed.

(** C8, amended: when a spec exits with failure records, the failure
    reported on the test is the first expectation whose matcher name is
    empty and, when there is none, the first expectation recorded; the
    detail message of the test is the message of that expectation with the
    colour codes stripped; when its stack is not empty, the trace of the
    test is the stack with the colour codes stripped and the first
    occurrence of the stripped message removed, which is the start of the
    stack when the stack begins with the message. *)
Theorem reported_failure_selected_and_cleaned
        (host : Host) (spec : jasmine.CustomReporterResult) (s : Reporter)
        (t : nat) (x : ExecutableItem) :
  runningTest s = Some t ->
  items s !! t = Some x ->
  let out := JasmineAllureReporter.specDone host spec s in
  (forall pre e post,
      jasmine.failedExpectations spec = Some (pre ++ e :: post) ->
      Forall (fun p => jasmine.matcherName p <> EmptyString) pre ->
      jasmine.matcherName e = EmptyString ->
      JasmineAllureReporter.exceptionInfo spec = Some e)
  /\ (forall e rest,
         jasmine.failedExpectations spec = Some (e :: rest) ->
         Forall (fun p => jasmine.matcherName p <> EmptyString) (e :: rest) ->
         JasmineAllureReporter.exceptionInfo spec = Some e)
  /\ (forall e,
         JasmineAllureReporter.exceptionInfo spec = Some e ->
         exists i',
           items (snd out) !! t = Some i'
           /\ message (statusDetails i') = VStr (stripAnsi host (jasmine.message e))
           /\ (jasmine.stack e <> EmptyString ->
               trace (statusDetails i')
               = VStr (replace_first (stripAnsi host (jasmine.message e))
                                     (stripAnsi host (jasmine.stack e)))))
  /\ (forall m rest, replace_first m (m ++ rest) = rest).
Proof.
  intros Hrun Hx out.
  split; [|split; [|split]].
  - intros pre e post Hfes Hpre He.
    unfold JasmineAllureReporter.exceptionInfo.
    rewrite Hfes, (findMessageAboutThrow_first pre post e Hpre He). reflexivity.
  - intros e rest Hfes Hall.
    unfold JasmineAllureReporter.exceptionInfo.
    rewrite Hfes, (findMessageAboutThrow_none _ Hall). reflexivity.
  - intros e He.
    destruct (specDone_run host spec s t Hrun)
      as (f0 & s1 & s' & Hclose & Hdone & Hitems & _).
    destruct (closeLeakedSteps_frame s) as (s1' & Hclose' & _ & _ & _ & Hlen).
    rewrite Hclose in Hclose'. injection Hclose' as <-.
    destruct (lookup_lt_is_Some_2 (items s1) t) as [x1 Hx1].
    { rewrite Hlen. eapply lookup_lt_Some, Hx. }
    subst out. rewrite Hdone. cbn [snd].
    rewrite Hitems, list_lookup_alter_eq, Hx1. cbn [fmap option_fmap option_map].
    eexists. split; [reflexivity|].
    unfold compose, exception_details. rewrite He.
    destruct (String.eqb_spec (jasmine.stack e) EmptyString) as [Hempty|Hstack]; cbn.
    + split; [reflexivity | intros H; contradiction].
    + split; reflexivity.
  - exact replace_first_leading.
Qed.

Lemma reported_failure_selected_and_cleaned_witness :
  let thrown := jasmine.mkFailedExpectation EmptyString "boom" "boom at spec.js" in
  let expected := jasmine.mkFailedExpectation "toBe" "Expected 1 to be 2." "stack" in
  let out := JasmineAllureReporter.specDone plain_host (failed_spec [expected; thrown]) in_test in
  runningTest in_test = Some 0
  /\ JasmineAllureReporter.exceptionInfo (failed_spec [expected; thrown]) = Some thrown
  /\ exists i', items (snd out) !! 0 = Some i'
                /\ message (statusDetails i') = VStr "boom"
                /\ trace (statusDetails i') = VStr " at spec.js".
Proof.
  intros thrown expected out. subst out.
  assert (Hrun : runningTest in_test = Some 0) by (vm_compute; reflexivity).
  assert (Hx : items in_test !! 0 = Some (default stepResult (items in_test !! 0)))
    by (vm_compute; reflexivity).
  destruct (reported_failure_selected_and_cleaned
              plain_host (failed_spec [expected; thrown]) in_test 0 _ Hrun Hx)
    as (Hfirst & _ & Hdetails & _).
  assert (Hsel : JasmineAllureReporter.exceptionInfo (failed_spec [expected; thrown]) = Some thrown).
  { apply (Hfirst [expected] thrown []); [reflexivity | | reflexivity].
    repeat constructor. discriminate. }
  split; [exact Hrun|]. split; [exact Hsel|].
  destruct (Hdetails thrown Hsel) as (i' & Hi' & Hmsg & Htrace).
  exists i'. split; [exact Hi'|]. split; [exact Hmsg|].
  rewrite Htrace by discriminate. vm_compute. reflexivity.
Defined.

(* ===================================================================== *)
(** * The scenario with nested suites *)
(* ===================================================================== *)

(** C6, as stated, fails: under a Jest worker the test also carries the
    thread label, and the test is not a child of the group "B" but of the
    "Test wrapper" group inside it. *)
Lemma nested_suites_wrapper_and_thread_label :
  let final := state_after worker_host nested_suites (JasmineAllureReporter.init None) in
  (labels <$> items final !! 0)
  = Some [mkLabel LabelName.PARENT_SUITE "A"; mkLabel LabelName.SUITE "B";
          mkLabel LabelName.THREAD "1"]
  /\ (labels <$> items final !! 0)
     <> Some [mkLabel LabelName.PARENT_SUITE "A"; mkLabel LabelName.SUITE "B"]
  /\ (children <$> groups final !! 1) = Some [ChildGroup 2]
  /\ (children <$> groups final !! 1) <> Some [ChildTest 0].
Proof. vm_compute. repeat split; discriminate. Qed.

(** C6, amended: the six events are all handled without an error; the test
    "t1" ends passed and carries the labels parent-suite "A" and suite "B",
    no sub-suite label, and after them the thread label when the
    environment names a worker; the root holds the group "A", whose only
    child is the group "B", whose only child is the group "Test wrapper",
    whose only child is the test "t1"; all three groups are closed and the
    stacks are back to what they were. *)
Theorem nested_suites_labels_and_tree (host : Host) (projectDir : option string) :
  let start := JasmineAllureReporter.init projectDir in
  let final := state_after host nested_suites start in
  fst (for_of nested_suites (deliver host) start) = Normal tt
  /\ snd (for_of nested_suites (deliver host) start) = final
  /\ (name <$> items final !! 0) = Some "t1"
  /\ (status <$> items final !! 0) = Some (Some PASSED)
  /\ (labels <$> items final !! 0)
     = Some ([mkLabel LabelName.PARENT_SUITE "A"; mkLabel LabelName.SUITE "B"]
               ++ thread_labels host)
  /\ roots final = [0]
  /\ groups final = [mkGroup "A" [ChildGroup 1] true;
                     mkGroup "B" [ChildGroup 2] true;
                     mkGroup "Test wrapper" [ChildTest 0] true]
  /\ groupStack final = []
  /\ runningTest final = None.
Proof.
  destruct host as [strip relative write [[|c id]|]]; vm_compute; repeat split.
Qed.
(* ===================================================================== *)
(** * The wrapped call on promises and on thrown [null] *)
(* ===================================================================== *)

(** The state in which the body runs. *)
Lemma wrap_unfold (r : nat) (body : Body) (args : list value) (s : Reporter) :
  ExecutableItemWrapper.wrap r body args s
  = match body [VArray args] (snd (ExecutableItemWrapper.set_stage r RUNNING s)) with
    | (Normal (VPromise promise), s1) => ExecutableItemWrapper.chain r promise s1
    | (Normal result, s1) =>
        (let! st := ExecutableItemWrapper.get_status r in
         when (negb (is_set st)) (ExecutableItemWrapper.set_status r (Some PASSED));;
         ExecutableItemWrapper.set_stage r FINISHED;;
         ret result) s1
    | (Abrupt error, s1) =>
        (let! result := ExecutableItemWrapper.on_throw r error in
         match result with
         | VPromise promise => ExecutableItemWrapper.chain r promise
         | _ =>
             let! st := ExecutableItemWrapper.get_status r in
             when (negb (is_set st)) (ExecutableItemWrapper.set_status r (Some PASSED));;
             ExecutableItemWrapper.set_stage r FINISHED;;
             ret result
         end) s1
    end.
Proof.
  unfold ExecutableItemWrapper.wrap. js_step.
  rewrite bind_unfold. unfold try_catch at 1.
  change (with_items (alter (with_stage RUNNING) r) s)
    with (snd (ExecutableItemWrapper.set_stage r RUNNING s)).
  destruct (body [VArray args] _) as [[v|e] s1]; [|reflexivity].
  destruct v; reflexivity.
Qed.

Lemma on_rejected_run (r : nat) (error : value) (s : Reporter) :
  exists s', ExecutableItemWrapper.on_rejected r error s = (Normal VUndefined, s').
Proof.
  unfold ExecutableItemWrapper.on_rejected, ExecutableItemWrapper.record_failure. js_run.
  destruct (negb _); js_run.
  all: destruct error as [| | | | | |m st|]; cbn [truthy]; js_run; eauto.
  all: try (destruct b; js_run; eauto).
  all: try (destruct (negb _); js_run; eauto).
  all: destruct (truthy st), (truthy m); js_run; eauto.
Qed.

Lemma chain_run (r : nat) (p : settlement) (s : Reporter) :
  exists s', ExecutableItemWrapper.chain r p s = (Normal (VPromise (settled_chain p)), s').
Proof.
  destruct p as [|a|e]; cbn [ExecutableItemWrapper.chain settled_chain].
  - eexists. reflexivity.
  - unfold ExecutableItemWrapper.on_fulfilled. js_run. destruct (negb _); js_run; eauto.
  - destruct (on_rejected_run r e s) as [s' H].
    rewrite (bind_normal _ _ _ _ _ H). eexists. reflexivity.
Qed.

Lemma on_throw_not_promise (r : nat) (error v : value) (s s' : Reporter) :
  ExecutableItemWrapper.on_throw r error s = (Normal v, s') -> isPromise v = false.
Proof.
  unfold ExecutableItemWrapper.on_throw, ExecutableItemWrapper.record_failure.
  destruct error as [| | | | | |m st|]; js_run; try discriminate.
  all: try (intros [= <- _]; reflexivity).
  destruct (truthy st), (truthy m); js_run; intros [= <- _]; reflexivity.
Qed.

Lemma finish_sync_value (r : nat) (v : value) (s : Reporter) :
  exists s',
    (let! st := ExecutableItemWrapper.get_status r in
     when (negb (is_set st)) (ExecutableItemWrapper.set_status r (Some PASSED));;
     ExecutableItemWrapper.set_stage r FINISHED;;
     ret v) s = (Normal v, s').
Proof. js_run. destruct (negb _); js_run; eauto. Qed.

Lemma finish_not_rejected (r : nat) (v : value) (s : Reporter) (e : value) :
  isPromise v = false ->
  fst ((let! st := ExecutableItemWrapper.get_status r in
        when (negb (is_set st)) (ExecutableItemWrapper.set_status r (Some PASSED));;
        ExecutableItemWrapper.set_stage r FINISHED;;
        ret v) s) <> Normal (VPromise (Rejected e)).
Proof.
  intros Hv. destruct (finish_sync_value r v s) as [s' ->].
  cbn [fst]. intros [= ->]. discriminate.
Qed.

Lemma wrap_not_rejected (r : nat) (body : Body) (args : list value) (s : Reporter) (e : value) :
  fst (ExecutableItemWrapper.wrap r body args s) <> Normal (VPromise (Rejected e)).
Proof.
  rewrite wrap_unfold.
  destruct (body [VArray args] _) as [[v|err] s1] eqn:Hbody.
  - destruct v as [| | | | | | |p]; try (apply finish_not_rejected; reflexivity).
    destruct (chain_run r p s1) as [s' ->]. cbn [fst].
    intros [= H]. destruct p; discriminate.
  - rewrite bind_unfold.
    destruct (ExecutableItemWrapper.on_throw r err s1) as [[v|e'] s2] eqn:Hthrow;
      [|cbn; discriminate].
    pose proof (on_throw_not_promise _ _ _ _ _ Hthrow) as Hv.
    destruct v; try discriminate Hv; apply finish_not_rejected; reflexivity.
Qed.

(** X1: the promise that the wrapped call returns is never rejected: when
    the promise of the body is rejected, the returned promise is fulfilled
    with [undefined]; it is fulfilled with the value of the body's promise
    when that is fulfilled, and pending when that never settles. *)
Theorem wrapped_promise_never_rejects
        (r : nat) (body : Body) (args : list value) (s : Reporter) :
  let out := ExecutableItemWrapper.wrap r body args s in
  (forall e, fst out <> Normal (VPromise (Rejected e)))
  /\ (forall p s1,
         body [VArray args] (snd (ExecutableItemWrapper.set_stage r RUNNING s))
         = (Normal (VPromise p), s1) ->
         fst out = Normal (VPromise (settled_chain p))).
Proof.
  cbv zeta. split.
  - intros e. apply wrap_not_rejected.
  - intros p s1 Hbody. rewrite wrap_unfold, Hbody.
    destruct (chain_run r p s1) as [s' ->]. reflexivity.
Qed.

Lemma wrapped_promise_never_rejects_witness :
  fst (ExecutableItemWrapper.wrap 0 (returning (VPromise (Rejected (new_Error "late")))) []
                                  one_item)
  = Normal (VPromise (Fulfilled VUndefined)).
Proof.
  apply (proj2 (wrapped_promise_never_rejects
                  0 (returning (VPromise (Rejected (new_Error "late")))) [] one_item)
               (Rejected (new_Error "late"))
               (snd (ExecutableItemWrapper.set_stage 0 RUNNING one_item))).
  reflexivity.
Defined.

(** X2: when the promise of the body is rejected with an error whose
    message and stack are both truthy, the item ends failed and finished
    (not interrupted), whatever status it had, its detail message is the
    message of the error and its trace the stack of the error as it is. *)
Theorem rejection_with_error_recorded_failed
        (r : nat) (body : Body) (args : list value) (s s1 : Reporter)
        (i : ExecutableItem) (m st : value) :
  body [VArray args] (snd (ExecutableItemWrapper.set_stage r RUNNING s))
  = (Normal (VPromise (Rejected (VObject m st))), s1) ->
  truthy m = true ->
  truthy st = true ->
  items s1 !! r = Some i ->
  let out := ExecutableItemWrapper.wrap r body args s in
  exists i', items (snd out) !! r = Some i'
             /\ status i' = Some FAILED
             /\ stage i' = FINISHED
             /\ statusDetails i' = mkDetails m st.
Proof.
  intros Hbody Hm Hst Hi. cbv zeta. rewrite wrap_unfold, Hbody.
  unfold ExecutableItemWrapper.chain, ExecutableItemWrapper.on_rejected,
    ExecutableItemWrapper.record_failure.
  js_run. repeat rewrite list_lookup_alter_eq. rewrite Hi. cbn -[truthy].
  destruct (status i); cbn -[truthy]; js_run.
  all: repeat rewrite list_lookup_alter_eq; rewrite Hi; cbn -[truthy].
  all: eexists; split; [reflexivity|]; cbn -[truthy].
  all: rewrite !truthy_js_or by assumption; auto.
Qed.

Lemma rejection_with_error_recorded_failed_witness :
  let out := ExecutableItemWrapper.wrap
               0 (returning (VPromise (Rejected (new_Error "late")))) [] one_item in
  status_of 0 (snd out) = Some FAILED
  /\ (stage <$> items (snd out) !! 0) = Some FINISHED.
Proof.
  intros out. subst out.
  destruct (rejection_with_error_recorded_failed
              0 (returning (VPromise (Rejected (new_Error "late")))) [] one_item
              (snd (ExecutableItemWrapper.set_stage 0 RUNNING one_item))
              (with_stage RUNNING stepResult) (VStr "late") (VStr "Error: late")
              eq_refl eq_refl eq_refl eq_refl)
    as (i' & Hi' & Hstatus & Hstage & _).
  unfold status_of. rewrite Hi'. cbn. rewrite Hstatus, Hstage. auto.
Defined.

(** X3: when the promise of the body is rejected with a value that does
    not expose both a message and a stack, the item ends interrupted, with
    the status it already had and with status broken when it had none; its
    details are left as they were. *)
Theorem rejection_without_error_keeps_earlier_status
        (r : nat) (body : Body) (args : list value) (s s1 : Reporter)
        (i : ExecutableItem) (e : value) :
  body [VArray args] (snd (ExecutableItemWrapper.set_stage r RUNNING s))
  = (Normal (VPromise (Rejected e)), s1) ->
  exposes_failure e = false ->
  items s1 !! r = Some i ->
  let out := ExecutableItemWrapper.wrap r body args s in
  exists i', items (snd out) !! r = Some i'
             /\ status i' = Some (default BROKEN (status i))
             /\ stage i' = INTERRUPTED
             /\ statusDetails i' = statusDetails i.
Proof.
  intros Hbody He Hi. cbv zeta. rewrite wrap_unfold, Hbody.
  unfold ExecutableItemWrapper.chain, ExecutableItemWrapper.on_rejected,
    ExecutableItemWrapper.record_failure.
  js_run. repeat rewrite list_lookup_alter_eq. rewrite Hi. cbn -[truthy].
  destruct (status i) eqn:Est; cbn -[truthy]; js_run.
  all: destruct e as [| | | | | |m st|]; cbn [truthy]; js_run.
  all: try (destruct b; js_run).
  all: try (destruct (negb _); js_run).
  all: try (cbn [exposes_failure] in He; rewrite He; js_run).
  all: repeat rewrite list_lookup_alter_eq; rewrite Hi; cbn.
  all: eexists; split; [reflexivity|]; cbn; rewrite ?Est; auto.
Qed.

Lemma rejection_without_error_keeps_earlier_status_witness :
  let reject : Body :=
    fun _ => ExecutableItemWrapper.logStep 0 SKIPPED;; ret (VPromise (Rejected (VStr "no"))) in
  status_of 0 (snd (ExecutableItemWrapper.wrap 0 reject [] one_item)) = Some SKIPPED
  /\ status_of 0 (snd (ExecutableItemWrapper.wrap
                         0 (returning (VPromise (Rejected (VStr "no")))) [] one_item))
     = Some BROKEN.
Proof.
  intros reject. split.
  - pose (s1 := snd (reject [VArray []]
                            (snd (ExecutableItemWrapper.set_stage 0 RUNNING one_item)))).
    assert (Hbody : reject [VArray []]
                           (snd (ExecutableItemWrapper.set_stage 0 RUNNING one_item))
                    = (Normal (VPromise (Rejected (VStr "no"))), s1))
      by (vm_compute; reflexivity).
    assert (Hi : items s1 !! 0 = Some (default stepResult (items s1 !! 0)))
      by (vm_compute; reflexivity).
    destruct (rejection_without_error_keeps_earlier_status
                0 reject [] one_item s1 _ (VStr "no") Hbody eq_refl Hi)
      as (i' & Hi' & Hstatus & _).
    unfold status_of. rewrite Hi'. cbn. rewrite Hstatus. vm_compute. reflexivity.
  - pose (s1 := snd (ExecutableItemWrapper.set_stage 0 RUNNING one_item)).
    assert (Hi : items s1 !! 0 = Some (default stepResult (items s1 !! 0)))
      by (vm_compute; reflexivity).
    destruct (rejection_without_error_keeps_earlier_status
                0 (returning (VPromise (Rejected (VStr "no")))) [] one_item s1 _ (VStr "no")
                eq_refl eq_refl Hi)
      as (i' & Hi' & Hstatus & _).
    unfold status_of. rewrite Hi'. cbn. rewrite Hstatus. vm_compute. reflexivity.
Defined.

(** X4: when the promise of the body never settles, the wrapped call
    returns a promise that never settles and records nothing: the item
    stays as the body left it, at stage running unless the body changed
    that. *)
Theorem pending_promise_records_nothing
        (r : nat) (body : Body) (args : list value) (s s1 : Reporter) :
  body [VArray args] (snd (ExecutableItemWrapper.set_stage r RUNNING s))
  = (Normal (VPromise Pending), s1) ->
  ExecutableItemWrapper.wrap r body args s = (Normal (VPromise Pending), s1).
Proof. intros Hbody. rewrite wrap_unfold, Hbody. reflexivity. Qed.

Lemma pending_promise_records_nothing_witness :
  let out := ExecutableItemWrapper.wrap 0 (returning (VPromise Pending)) [] one_item in
  fst out = Normal (VPromise Pending)
  /\ (stage <$> items (snd out) !! 0) = Some RUNNING
  /\ status_of 0 (snd out) = None.
Proof.
  intros out. subst out.
  rewrite (pending_promise_records_nothing
             0 (returning (VPromise Pending)) [] one_item
             (snd (ExecutableItemWrapper.set_stage 0 RUNNING one_item)) eq_refl).
  repeat split.
Defined.

(** X5: a body that throws [null] or [undefined] makes the wrapped call
    itself throw a TypeError, from the read of [error.stack] in the catch
    clause; nothing is recorded, so the item stays as the body left it. *)
Theorem thrown_null_escapes_as_TypeError
        (r : nat) (body : Body) (args : list value) (s s1 : Reporter) (e : value) :
  body [VArray args] (snd (ExecutableItemWrapper.set_stage r RUNNING s)) = (Abrupt e, s1) ->
  e = VNull \/ e = VUndefined ->
  exists msg, ExecutableItemWrapper.wrap r body args s = (Abrupt (new_TypeError msg), s1).
Proof.
  intros Hbody He. rewrite wrap_unfold, Hbody.
  destruct He as [-> | ->]; eexists; reflexivity.
Qed.

Lemma thrown_null_escapes_as_TypeError_witness :
  let out := ExecutableItemWrapper.wrap 0 (throwing VNull) [] one_item in
  is_normal (fst out) = false
  /\ (stage <$> items (snd out) !! 0) = Some RUNNING
  /\ status_of 0 (snd out) = None.
Proof.
  intros out. subst out.
  destruct (thrown_null_escapes_as_TypeError
              0 (throwing VNull) [] one_item
              (snd (ExecutableItemWrapper.set_stage 0 RUNNING one_item)) VNull
              eq_refl (or_introl eq_refl)) as [msg ->].
  repeat split.
Defined.


(* ===================================================================== *)
(** * Fixtures: the hooks and [setup] *)
(* ===================================================================== *)

Lemma setup_opened_eq (s : Reporter) (g : nat) :
  last (groupStack s) = Some g ->
  setup_opened s
  = with_items (alter (with_stage RUNNING) (length (items s)))
      (with_runningExecutable (Some (length (items s)))
         (with_groups (alter (add_child (ChildFixture (length (items s)))) g)
            (with_items (fun l => l ++ [stepResult]) s))).
Proof.
  intros Hg. unfold setup_opened, AllureGroup.addBefore, AllureGroup.addFixture.
  js_run. reflexivity.
Qed.
Local Opaque ExecutableItemWrapper.wrap.

(** X7: [setup] needs an open group: without one it throws "No active
    group" and leaves the reporter as it was.  With one, it adds a fixture
    to that group, runs the body with the fixture as the running
    executable, and, when the body completes, returns its value, leaves no
    running executable and ends the fixture finished, passed unless the
    body gave it a status; when the promise of the body never settles the
    reporter is left as the body left it. *)
Theorem setup_records_fixture_in_current_group (body : Body) (s : Reporter) :
  let out := JasmineAllureInterface.setup body s in
  let f := length (items s) in
  (last (groupStack s) = None -> out = (Abrupt (new_Error "No active group"), s))
  /\ (forall g x,
         last (groupStack s) = Some g -> groups s !! g = Some x ->
         runningExecutable (setup_opened s) = Some f
         /\ groups (setup_opened s) !! g = Some (add_child (ChildFixture f) x)
         /\ items (setup_opened s) !! f = Some (with_stage RUNNING stepResult))
  /\ (forall g v s2 i,
         last (groupStack s) = Some g ->
         body [VArray []] (setup_opened s) = (Normal v, s2) ->
         completes v ->
         items s2 !! f = Some i ->
         fst out = Normal v
         /\ runningExecutable (snd out) = None
         /\ exists i', items (snd out) !! f = Some i'
                       /\ status i' = Some (default PASSED (status i))
                       /\ stage i' = FINISHED)
  /\ (forall g s2,
         last (groupStack s) = Some g ->
         body [VArray []] (setup_opened s) = (Normal (VPromise Pending), s2) ->
         out = (Normal (VPromise Pending), s2)).
Proof.
  cbv zeta. split; [|split; [|split]].
  - intros Hnone. unfold JasmineAllureInterface.setup. js_run. reflexivity.
  - intros g x Hg Hx. rewrite (setup_opened_eq s g Hg). js_norm.
    split; [reflexivity|]. split.
    + rewrite list_lookup_alter_eq, Hx. reflexivity.
    + rewrite alter_snoc. apply lookup_snoc_new.
  - intros g v s2 i Hg Hbody Hv Hi.
    unfold JasmineAllureInterface.setup, AllureGroup.addBefore, AllureGroup.addFixture.
    js_run. rewrite wrap_unfold.
    match goal with
    | |- context [body _ ?st] =>
        replace st with (setup_opened s) by (rewrite (setup_opened_eq s g Hg); reflexivity)
    end.
    rewrite Hbody.
    unfold ExecutableItemWrapper.chain, ExecutableItemWrapper.on_fulfilled.
    destruct v as [| | | | | | |[| |]]; try contradiction; js_run.
    all: repeat rewrite list_lookup_alter_eq; rewrite ?Hi; cbn [mbind option_bind].
    all: destruct (status i) as [st|] eqn:Est; cbn [is_set negb]; js_run.
    all: split; [reflexivity|]; split; [reflexivity|].
    all: repeat rewrite list_lookup_alter_eq; rewrite ?Hi; cbn.
    all: eexists; split; [reflexivity|]; cbn; auto.
  - intros g s2 Hg Hbody.
    unfold JasmineAllureInterface.setup, AllureGroup.addBefore, AllureGroup.addFixture.
    js_run. rewrite wrap_unfold.
    match goal with
    | |- context [body _ ?st] =>
        replace st with (setup_opened s) by (rewrite (setup_opened_eq s g Hg); reflexivity)
    end.
    rewrite Hbody. reflexivity.
Qed.

Local Transparent ExecutableItemWrapper.wrap.

Lemma setup_records_fixture_in_current_group_witness :
  let start := JasmineAllureReporter.init None in
  let out := JasmineAllureInterface.setup (returning VUndefined) in_test in
  JasmineAllureInterface.setup (returning VUndefined) start
  = (Abrupt (new_Error "No active group"), start)
  /\ fst out = Normal VUndefined
  /\ runningExecutable (snd out) = None
  /\ status_of 1 (snd out) = Some PASSED.
Proof.
  intros start out. subst start out. split.
  - apply (proj1 (setup_records_fixture_in_current_group
                    (returning VUndefined) (JasmineAllureReporter.init None))).
    reflexivity.
  - pose (s2 := setup_opened in_test).
    assert (Hg : last (groupStack in_test) = Some 1) by (vm_compute; reflexivity).
    assert (Hbody : returning VUndefined [VArray []] (setup_opened in_test)
                    = (Normal VUndefined, s2)) by reflexivity.
    assert (Hi : items s2 !! length (items in_test)
                 = Some (default stepResult (items s2 !! 1))) by (vm_compute; reflexivity).
    destruct (proj1 (proj2 (proj2 (setup_records_fixture_in_current_group
                                     (returning VUndefined) in_test)))
                    1 VUndefined s2 _ Hg Hbody I Hi)
      as (Hret & Hexe & i' & Hi' & Hstatus & _).
    split; [exact Hret|]. split; [exact Hexe|].
    change (length (items in_test)) with 1 in Hi'.
    unfold status_of. rewrite Hi'. cbn. rewrite Hstatus. vm_compute. reflexivity.
Defined.


(* ===================================================================== *)
(** * The interface: where steps and labels go *)
(* ===================================================================== *)

Lemma step_opened_eq (name : string) (s : Reporter) (exe : nat) :
  fst (JasmineAllureInterface.currentExecutable s) = Normal exe ->
  JasmineAllureInterface.startStep name s
  = (Normal (length (items s)),
     with_stepStack (push (length (items s)))
       (with_items (alter (with_name name) (length (items s)))
          (with_items (alter (with_start (Some (clock s))) (length (items s)))
             (with_clock (Datatypes.S (clock s))
                (with_items
                   (alter (fun i => with_steps (push (length (items s)) (steps i)) i) exe)
                   (with_items (fun l => l ++ [stepResult]) s)))))).
Proof.
  intros Hexe. apply currentExecutable_run in Hexe.
  unfold JasmineAllureInterface.startStep.
  rewrite (bind_normal _ _ _ _ _ Hexe).
  unfold ExecutableItemWrapper.startStep, ExecutableItemWrapper.new_AllureStep.
  do 12 (try js_step). reflexivity.
Qed.

(** X8: a step is started on the innermost open step, else on the running
    fixture, else on the running test, and with none of them [startStep]
    throws "No active test" and changes nothing.  The new step is appended
    to the steps of that executable, is stamped with the start time, named,
    pushed on the step stack, and is the current executable from then on;
    no other item changes. *)
Theorem startStep_nests_under_current_executable (name : string) (s : Reporter) :
  let out := JasmineAllureInterface.startStep name s in
  let r := length (items s) in
  (last (stepStack s) = None -> runningExecutable s = None -> runningTest s = None ->
   out = (Abrupt (new_Error "No active test"), s))
  /\ (forall exe x,
         fst (JasmineAllureInterface.currentExecutable s) = Normal exe ->
         items s !! exe = Some x ->
         fst out = Normal r
         /\ match last (stepStack s), runningExecutable s with
            | Some step, _ => exe = step
            | None, Some fixture => exe = fixture
            | None, None => runningTest s = Some exe
            end
         /\ items (snd out) !! exe = Some (with_steps (steps x ++ [r]) x)
         /\ items (snd out) !! r
            = Some (with_name name (with_start (Some (clock s)) stepResult))
         /\ (forall j, j <> exe -> j < r -> items (snd out) !! j = items s !! j)
         /\ stepStack (snd out) = stepStack s ++ [r]
         /\ fst (JasmineAllureInterface.currentExecutable (snd out)) = Normal r).
Proof.
  cbv zeta. split.
  - intros H1 H2 H3.
    unfold JasmineAllureInterface.startStep, JasmineAllureInterface.currentExecutable,
      JasmineAllureReporter.currentTest.
    js_run. reflexivity.
  - intros exe x Hexe Hx.
    pose proof (lookup_lt_Some _ _ _ Hx) as Hlt.
    rewrite (step_opened_eq name s exe Hexe). cbn [fst snd]. js_norm.
    split; [reflexivity|]. split.
    { revert Hexe. unfold JasmineAllureInterface.currentExecutable,
                     JasmineAllureReporter.currentTest. js_run.
      destruct (last (stepStack s)); js_run; [intros [= ->]; reflexivity|].
      destruct (runningExecutable s); js_run; [intros [= ->]; reflexivity|].
      destruct (runningTest s); js_run; [intros [= ->]; reflexivity | discriminate]. }
    split.
    { rewrite !list_lookup_alter_ne by lia.
      rewrite list_lookup_alter_eq, lookup_app_l, Hx by lia. reflexivity. }
    split.
    { rewrite !list_lookup_alter_eq.
      rewrite list_lookup_alter_ne, lookup_snoc_new by lia. reflexivity. }
    split.
    { intros j Hj Hjr. rewrite !list_lookup_alter_ne by lia.
      apply lookup_app_l. lia. }
    split; [reflexivity|].
    unfold JasmineAllureInterface.currentExecutable. js_run. reflexivity.
Qed.

Lemma startStep_nests_under_current_executable_witness :
  let out := JasmineAllureInterface.startStep "inner" in_steps in
  fst out = Normal 3
  /\ (steps <$> items (snd out) !! 2) = Some [3]
  /\ stepStack (snd out) = [1; 2; 3]
  /\ JasmineAllureInterface.startStep "s" (JasmineAllureReporter.init None)
     = (Abrupt (new_Error "No active test"), JasmineAllureReporter.init None).
Proof.
  intros out. subst out.
  destruct (startStep_nests_under_current_executable "inner" in_steps) as [_ Hnest].
  assert (Hexe : fst (JasmineAllureInterface.currentExecutable in_steps) = Normal 2)
    by (vm_compute; reflexivity).
  assert (Hx : items in_steps !! 2 = Some (default stepResult (items in_steps !! 2)))
    by (vm_compute; reflexivity).
  destruct (Hnest 2 _ Hexe Hx) as (Hret & _ & Hparent & _ & _ & Hstack & _).
  split; [exact Hret|]. split; [rewrite Hparent; vm_compute; reflexivity|].
  split; [rewrite Hstack; vm_compute; reflexivity|].
  apply (proj1 (startStep_nests_under_current_executable "s" (JasmineAllureReporter.init None)));
    reflexivity.
Defined.

(** X9: [label] never throws.  While a test is running the label is added
    to that test and to no buffer, so later tests do not inherit it; with no
    test running it is appended to the innermost label buffer, and dropped
    when there is no buffer at all. *)
Theorem label_goes_to_running_test_or_innermost_buffer (name value : string) (s : Reporter) :
  let out := JasmineAllureInterface.label name value s in
  fst out = Normal tt
  /\ (forall t,
         runningTest s = Some t ->
         labelStack (snd out) = labelStack s
         /\ items (snd out)
            = alter (fun i => with_labels (labels i ++ [mkLabel name value]) i) t (items s))
  /\ (runningTest s = None ->
      items (snd out) = items s
      /\ (labelStack s = [] -> labelStack (snd out) = [])
      /\ (forall outer top,
             labelStack s = outer ++ [top] ->
             labelStack (snd out) = outer ++ [top ++ [mkLabel name value]])).
Proof.
  cbv zeta.
  unfold JasmineAllureInterface.label, JasmineAllureReporter.currentTest,
    JasmineAllureReporter.addLabel, AllureTest.addLabel.
  unfold try_catch, bind at 1 2, gets at 1.
  destruct (runningTest s) as [t|] eqn:Hrun; js_run.
  - split; [reflexivity|]. split; [|discriminate].
    intros t' [= <-]. split; reflexivity.
  - split; [reflexivity|]. split; [discriminate|]. intros _.
    split; [reflexivity|]. split.
    + intros ->. reflexivity.
    + intros outer top ->.
      rewrite length_app. cbn [length].
      replace (length outer + 1 =? 0)%nat with false by (symmetry; apply Nat.eqb_neq; lia).
      replace (length outer + 1 - 1) with (length outer) by lia.
      rewrite alter_snoc. reflexivity.
Qed.

Lemma label_goes_to_running_test_or_innermost_buffer_witness :
  (labels <$> items (snd (JasmineAllureInterface.label "owner" "me" in_test)) !! 0)
  = Some [mkLabel LabelName.PARENT_SUITE "A"; mkLabel "owner" "me"]
  /\ labelStack (snd (JasmineAllureInterface.label "owner" "me" in_test)) = [[]; []]
  /\ labelStack (snd (JasmineAllureInterface.label "owner" "me" (JasmineAllureReporter.init None)))
     = [[mkLabel "owner" "me"]].
Proof.
  destruct (label_goes_to_running_test_or_innermost_buffer "owner" "me" in_test)
    as (_ & Htest & _).
  destruct (label_goes_to_running_test_or_innermost_buffer
              "owner" "me" (JasmineAllureReporter.init None)) as (_ & _ & Hbuffer).
  destruct (Htest 0 eq_refl) as [Hstack Hitems].
  destruct (Hbuffer eq_refl) as (_ & _ & Htop).
  split; [rewrite Hitems; vm_compute; reflexivity|].
  split; [rewrite Hstack; vm_compute; reflexivity|].
  apply (Htop [] []). reflexivity.
Defined.

(** X10: when the body of a step completes, [step] pops the top of the
    step stack, whatever it is.  A body that leaves the stack as it found
    it gives back the stack as it was before the step; a body that leaves
    steps of its own open makes [step] pop the innermost of those instead,
    and the step, although ended, stays on the stack. *)
Theorem step_pops_the_top_of_the_stack
        (name : string) (body : Body) (s s2 : Reporter) (exe : nat)
        (v : value) (i : ExecutableItem) (leaked : list nat) :
  fst (JasmineAllureInterface.currentExecutable s) = Normal exe ->
  body [VArray []] (step_opened name s) = (Normal v, s2) ->
  completes v ->
  items s2 !! length (items s) = Some i ->
  stepStack s2 = stepStack (step_opened name s) ++ leaked ->
  let out := JasmineAllureInterface.step name body s in
  stepStack (step_opened name s) = stepStack s ++ [length (items s)]
  /\ (leaked = [] -> stepStack (snd out) = stepStack s)
  /\ (leaked <> [] ->
      stepStack (snd out) = stepStack s ++ [length (items s)] ++ pop leaked)
  /\ (stop <$> items (snd out) !! length (items s)) = Some (Some (clock s2)).
Proof.
  intros Hexe Hbody Hv Hi Hstack.
  destruct (step_completes name body s s2 exe v i Hexe Hbody Hv Hi)
    as (_ & Hpop & i' & Hi' & _ & _ & Hstop).
  assert (Hopen : stepStack (step_opened name s) = stepStack s ++ [length (items s)]).
  { destruct (startStep_run name s exe Hexe) as (s1 & _ & <- & Hs1 & _).
    js_norm. exact Hs1. }
  cbv zeta. split; [exact Hopen|].
  rewrite Hpop, Hstack, Hopen. split; [|split].
  - intros ->. rewrite app_nil_r. apply pop_push.
  - intros Hne. destruct (exists_last Hne) as (l & q & ->).
    unfold pop. rewrite !app_assoc, !removelast_last. reflexivity.
  - rewrite Hi'. cbn. rewrite Hstop. reflexivity.
Qed.

Lemma step_pops_the_top_of_the_stack_witness :
  let leaking : Body := fun _ => JasmineAllureInterface.startStep "forgotten";; ret VUndefined in
  stepStack (snd (JasmineAllureInterface.step "s" (returning VUndefined) in_test)) = []
  /\ stepStack (snd (JasmineAllureInterface.step "s" leaking in_test)) = [1].
Proof.
  intros leaking.
  assert (Hexe : fst (JasmineAllureInterface.currentExecutable in_test) = Normal 0)
    by (vm_compute; reflexivity).
  split.
  - pose (s2 := step_opened "s" in_test).
    assert (Hi : items s2 !! length (items in_test) = Some (default stepResult (items s2 !! 1)))
      by (vm_compute; reflexivity).
    assert (Hstack : stepStack s2 = stepStack (step_opened "s" in_test) ++ [])
      by (vm_compute; reflexivity).
    destruct (step_pops_the_top_of_the_stack
                "s" (returning VUndefined) in_test s2 0 VUndefined _ [] Hexe eq_refl I Hi Hstack)
      as (_ & Hback & _).
    rewrite Hback by reflexivity. vm_compute. reflexivity.
  - pose (s2 := snd (leaking [VArray []] (step_opened "s" in_test))).
    assert (Hbody : leaking [VArray []] (step_opened "s" in_test) = (Normal VUndefined, s2))
      by (vm_compute; reflexivity).
    assert (Hi : items s2 !! length (items in_test) = Some (default stepResult (items s2 !! 1)))
      by (vm_compute; reflexivity).
    assert (Hstack : stepStack s2 = stepStack (step_opened "s" in_test) ++ [2])
      by (vm_compute; reflexivity).
    destruct (step_pops_the_top_of_the_stack
                "s" leaking in_test s2 0 VUndefined _ [2] Hexe Hbody I Hi Hstack)
      as (_ & _ & Hleak & _).
    rewrite Hleak by discriminate. vm_compute. reflexivity.
Defined.

(** X11: when the body of a step throws [null] or [undefined], [step]
    throws the TypeError of the wrapped call after it has ended the step:
    the top of the step stack is popped and the step is stamped with its
    stop time, while its status and stage stay as the body left them. *)
Theorem step_ends_the_step_before_rethrowing
        (name : string) (body : Body) (s s2 : Reporter) (exe : nat)
        (e : value) (i : ExecutableItem) :
  fst (JasmineAllureInterface.currentExecutable s) = Normal exe ->
  body [VArray []] (step_opened name s) = (Abrupt e, s2) ->
  e = VNull \/ e = VUndefined ->
  items s2 !! length (items s) = Some i ->
  let out := JasmineAllureInterface.step name body s in
  (exists msg, fst out = Abrupt (new_TypeError msg))
  /\ stepStack (snd out) = pop (stepStack s2)
  /\ items (snd out) !! length (items s) = Some (with_stop (Some (clock s2)) i).
Proof.
  intros Hexe Hbody He Hi.
  destruct (startStep_run name s exe Hexe) as (s1 & Hstart & Hopen & _).
  cbv zeta. unfold JasmineAllureInterface.step.
  rewrite (bind_normal _ _ _ _ _ Hstart).
  rewrite bind_unfold. unfold try_catch, WrappedStep.run.
  rewrite wrap_unfold, Hopen, Hbody.
  unfold WrappedStep.endStep, AllureStep.endStep.
  destruct He as [-> | ->]; js_run.
  all: split; [eexists; reflexivity|]; split; [reflexivity|].
  all: rewrite list_lookup_alter_eq, Hi; reflexivity.
Qed.

Lemma step_ends_the_step_before_rethrowing_witness :
  let out := JasmineAllureInterface.step "s" (throwing VNull) in_test in
  is_normal (fst out) = false
  /\ stepStack (snd out) = []
  /\ (stop <$> items (snd out) !! 1) = Some (Some 2)
  /\ status_of 1 (snd out) = None.
Proof.
  intros out. subst out.
  assert (Hexe : fst (JasmineAllureInterface.currentExecutable in_test) = Normal 0)
    by (vm_compute; reflexivity).
  pose (s2 := step_opened "s" in_test).
  assert (Hi : items s2 !! length (items in_test) = Some (default stepResult (items s2 !! 1)))
    by (vm_compute; reflexivity).
  destruct (step_ends_the_step_before_rethrowing
              "s" (throwing VNull) in_test s2 0 VNull _ Hexe eq_refl (or_introl eq_refl) Hi)
    as ([msg Hret] & Hstack & Hitem).
  change (length (items in_test)) with 1 in Hitem.
  split; [rewrite Hret; reflexivity|].
  split; [rewrite Hstack; vm_compute; reflexivity|].
  unfold status_of. rewrite Hitem. vm_compute. split; reflexivity.
Defined.

(* ===================================================================== *)
(** * Spec exit: the status of the test and the groups *)
(* ===================================================================== *)

Lemma item_run_update (t : nat) (f : ExecutableItem -> ExecutableItem) :
  item_run t (ExecutableItemWrapper.update t f) f.
Proof. intros s. reflexivity. Qed.

Lemma item_run_seq (t : nat) (c1 c2 : JS unit) (f g : ExecutableItem -> ExecutableItem) :
  item_run t c1 f -> item_run t c2 g -> item_run t (c1;; c2) (g ∘ f).
Proof.
  intros Hf Hg s.
  rewrite (bind_normal _ _ _ _ _ (Hf s)), Hg, with_items_alter_alter. reflexivity.
Qed.

Lemma item_run_when (t : nat) (b : bool) (c : JS unit) (f : ExecutableItem -> ExecutableItem) :
  item_run t c f -> item_run t (when b c) (if b then f else fun i => i).
Proof.
  intros Hf s. destruct b; [apply Hf|].
  cbn. rewrite with_items_alter_id. reflexivity.
Qed.

Lemma item_run_ext (t : nat) (c : JS unit) (f g : ExecutableItem -> ExecutableItem) :
  item_run t c f -> (forall x, f x = g x) -> item_run t c g.
Proof.
  intros Hf Hext s. rewrite Hf. unfold with_items. do 2 f_equal.
  apply list_alter_ext; auto.
Qed.

Lemma captureStatus_run (spec : jasmine.CustomReporterResult) (t : nat) :
  item_run t (JasmineAllureReporter.captureStatus spec t) (status_update spec).
Proof.
  unfold JasmineAllureReporter.captureStatus.
  eapply item_run_ext.
  - repeat first [ eapply item_run_seq | eapply item_run_when | eapply item_run_update ].
  - intros x. unfold status_update, compose.
    destruct (status_is _ SpecStatus.PASSED), (status_is _ SpecStatus.BROKEN),
      (status_is _ SpecStatus.FAILED),
      (status_is _ SpecStatus.PENDING || status_is _ SpecStatus.DISABLED
       || status_is _ SpecStatus.EXCLUDED || status_is _ SpecStatus.TODO);
      reflexivity.
Qed.

Lemma closeLeakedSteps_keeps (s : Reporter) :
  exists s1,
    JasmineAllureReporter.closeLeakedSteps s = (Normal tt, s1)
    /\ groupStack s1 = groupStack s
    /\ labelStack s1 = labelStack s
    /\ groups s1 = groups s
    /\ isSuite s1 = isSuite s
    /\ runningTest s1 = runningTest s
    /\ stepStack s1 = []
    /\ length (items s1) = length (items s)
    /\ (forall r, r ∉ stepStack s -> items s1 !! r = items s !! r).
Proof.
  destruct (stepStack s) as [|x l] eqn:E.
  - exists s. rewrite closeLeakedSteps_none by assumption. repeat split; auto.
  - eexists. rewrite closeLeakedSteps_run by (rewrite E; discriminate).
    split; [reflexivity|]. js_norm. rewrite close_each_length.
    repeat split; auto.
    intros r Hr. apply close_each_notin. rewrite E, elem_of_reverse. exact Hr.
Qed.

Lemma finishTest_effect (t : nat) (s : Reporter) :
  let out := JasmineAllureReporter.finishTest t s in
  items (snd out) = alter (with_stop (Some (clock s))) t (items s)
  /\ runningTest (snd out) = None
  /\ isSuite (snd out) = isSuite s
  /\ stepStack (snd out) = stepStack s
  /\ match last (groupStack s) with
     | None =>
         fst out = Abrupt (new_Error "No active group")
         /\ groupStack (snd out) = groupStack s
         /\ labelStack (snd out) = labelStack s
         /\ groups (snd out) = groups s
     | Some w =>
         if isSuite s then
           fst out = Normal tt
           /\ groupStack (snd out) = pop (groupStack s)
           /\ labelStack (snd out) = labelStack s
           /\ groups (snd out) = alter close_group w (groups s)
         else
           match last (pop (groupStack s)) with
           | None =>
               fst out = Abrupt (new_Error "No active suite")
               /\ groupStack (snd out) = pop (groupStack s)
               /\ labelStack (snd out) = labelStack s
               /\ groups (snd out) = alter close_group w (groups s)
           | Some g =>
               fst out = Normal tt
               /\ groupStack (snd out) = pop (pop (groupStack s))
               /\ labelStack (snd out) = pop (labelStack s)
               /\ groups (snd out) = alter close_group g (alter close_group w (groups s))
           end
     end.
Proof.
  cbv zeta. unfold JasmineAllureReporter.finishTest. js_run.
  destruct (last (groupStack s)) eqn:E1; js_run; [|repeat split; auto].
  destruct (isSuite s) eqn:E2; js_run; [repeat split; auto|].
  destruct (last (pop (groupStack s))) eqn:E3; js_run; repeat split; auto.
Qed.

Lemma exception_details_status (host : Host) (spec : jasmine.CustomReporterResult)
      (i : ExecutableItem) :
  status (exception_details host spec i) = status i
  /\ stage (exception_details host spec i) = stage i
  /\ stop (exception_details host spec i) = stop i.
Proof.
  unfold exception_details.
  destruct (JasmineAllureReporter.exceptionInfo spec); [|auto].
  destruct (negb _); auto.
Qed.

(** [specDone] on a running test, field by field. *)
Lemma specDone_effect (host : Host) (spec : jasmine.CustomReporterResult)
      (s : Reporter) (t : nat) :
  runningTest s = Some t ->
  exists s1,
    JasmineAllureReporter.closeLeakedSteps s = (Normal tt, s1)
    /\ JasmineAllureReporter.specDone host spec s
       = JasmineAllureReporter.finishTest t
           (with_items (alter (exception_details host spec ∘ status_update spec) t) s1).
Proof.
  intros Hrun.
  destruct (closeLeakedSteps_keeps s) as (s1 & Hclose & _).
  exists s1. split; [exact Hclose|].
  unfold JasmineAllureReporter.specDone. js_step. js_norm. rewrite Hrun.
  rewrite (bind_normal _ _ _ _ _ Hclose).
  rewrite (bind_normal _ _ _ _ _ (captureStatus_run spec t s1)).
  rewrite (bind_normal _ _ _ _ _ (captureException_run host spec t _)).
  rewrite with_items_alter_alter. reflexivity.
Qed.

Lemma status_is_eqb (st c : string) : status_is (Some st) c = String.eqb st c.
Proof. reflexivity. Qed.

(** X12: [specDone] maps the status of the spec to the test: passed,
    broken and failed go over one to one with stage finished; pending,
    disabled, excluded and todo all become skipped with stage pending and,
    when there are no failure records, the pending reason as detail message
    or "Suite disabled" when the reason is missing or empty; any other
    status, or none, leaves the status and the stage of the test as they
    were. *)
Theorem spec_status_decides_test_status
        (host : Host) (spec : jasmine.CustomReporterResult) (s : Reporter)
        (t : nat) (x : ExecutableItem) :
  runningTest s = Some t ->
  items s !! t = Some x ->
  t ∉ stepStack s ->
  let out := JasmineAllureReporter.specDone host spec s in
  exists i',
    items (snd out) !! t = Some i'
    /\ (forall st o,
           jasmine.status spec = Some st -> outcome_of st = Some o ->
           status i' = Some o /\ stage i' = FINISHED)
    /\ (forall st,
           jasmine.status spec = Some st -> st ∈ skipped_statuses ->
           status i' = Some SKIPPED /\ stage i' = PENDING
           /\ (JasmineAllureReporter.exceptionInfo spec = None ->
               message (statusDetails i')
               = VStr (default "Suite disabled" (nonempty (jasmine.pendingReason spec)))))
    /\ ((forall st, jasmine.status spec = Some st ->
                    outcome_of st = None /\ st ∉ skipped_statuses) ->
        status i' = status x /\ stage i' = stage x).
Proof.
  intros Hrun Hx Ht. cbv zeta.
  destruct (closeLeakedSteps_keeps s) as (s1 & Hclose & _ & _ & _ & _ & _ & _ & _ & Hsame).
  destruct (specDone_effect host spec s t Hrun) as (s1' & Hclose' & ->).
  rewrite Hclose in Hclose'. injection Hclose' as <-.
  destruct (finishTest_effect
              t (with_items (alter (exception_details host spec ∘ status_update spec) t) s1))
    as (-> & _).
  js_norm. rewrite !list_lookup_alter_eq, (Hsame t Ht), Hx. cbn [fmap option_fmap option_map].
  eexists. split; [reflexivity|].
  unfold compose.
  destruct (exception_details_status host spec (status_update spec x)) as (Es & Eg & _).
  cbn [status stage with_stop statusDetails]. rewrite Es, Eg.
  split; [|split].
  - intros st o Hst Ho. unfold status_update. rewrite Hst, !status_is_eqb.
    unfold outcome_of in Ho.
    destruct (String.eqb_spec st SpecStatus.PASSED) as [->|_];
      [injection Ho as <-; split; reflexivity|].
    destruct (String.eqb_spec st SpecStatus.BROKEN) as [->|_];
      [injection Ho as <-; split; reflexivity|].
    destruct (String.eqb_spec st SpecStatus.FAILED) as [->|_];
      [injection Ho as <-; split; reflexivity | discriminate].
  - intros st Hst Hin.
    assert (Hupd : status_update spec x
                   = with_message
                       (VStr (default "Suite disabled" (nonempty (jasmine.pendingReason spec))))
                       (with_stage PENDING (with_status (Some SKIPPED) x))).
    { unfold status_update. rewrite Hst, !status_is_eqb.
      unfold skipped_statuses in Hin.
      repeat (apply elem_of_cons in Hin as [->|Hin]; [reflexivity|]).
      apply elem_of_nil in Hin. contradiction. }
    rewrite Hupd. split; [reflexivity|]. split; [reflexivity|].
    intros Hnone. unfold exception_details. rewrite Hnone. reflexivity.
  - intros Hother. unfold status_update.
    destruct (jasmine.status spec) as [st|] eqn:Hst; [|split; reflexivity].
    destruct (Hother st eq_refl) as [Ho Hnot]. rewrite !status_is_eqb.
    unfold outcome_of in Ho. unfold skipped_statuses in Hnot.
    destruct (String.eqb_spec st SpecStatus.PASSED) as [->|_]; [discriminate|].
    destruct (String.eqb_spec st SpecStatus.BROKEN) as [->|_]; [discriminate|].
    destruct (String.eqb_spec st SpecStatus.FAILED) as [->|_]; [discriminate|].
    destruct (String.eqb_spec st SpecStatus.PENDING) as [->|_];
      [exfalso; apply Hnot; repeat constructor|].
    destruct (String.eqb_spec st SpecStatus.DISABLED) as [->|_];
      [exfalso; apply Hnot; repeat constructor|].
    destruct (String.eqb_spec st SpecStatus.EXCLUDED) as [->|_];
      [exfalso; apply Hnot; repeat constructor|].
    destruct (String.eqb_spec st SpecStatus.TODO) as [->|_];
      [exfalso; apply Hnot; repeat constructor|].
    split; reflexivity.
Qed.

Lemma spec_status_decides_test_status_witness :
  let out := JasmineAllureReporter.specDone plain_host (descriptor "t1" (Some "todo")) in_test in
  status_of 0 (snd out) = Some SKIPPED
  /\ (message ∘ statusDetails <$> items (snd out) !! 0) = Some (VStr "Suite disabled").
Proof.
  intros out. subst out.
  assert (Hrun : runningTest in_test = Some 0) by (vm_compute; reflexivity).
  assert (Hx : items in_test !! 0 = Some (default stepResult (items in_test !! 0)))
    by (vm_compute; reflexivity).
  assert (Ht : 0 ∉ stepStack in_test) by (apply (bool_decide_unpack _); vm_compute; exact I).
  destruct (spec_status_decides_test_status
              plain_host (descriptor "t1" (Some "todo")) in_test 0 _ Hrun Hx Ht)
    as (i' & Hi' & _ & Hskipped & _).
  destruct (Hskipped "todo" eq_refl) as (Hstatus & _ & Hmsg); [repeat constructor|].
  unfold status_of. rewrite Hi'. cbn. rewrite Hstatus, (Hmsg eq_refl). split; reflexivity.
Defined.

(** X13: [specDone] ends the test and clears the running test before it
    looks at the groups, so both are done also when it then throws.  In
    suite mode it closes and pops the wrapper group and leaves the label
    buffers alone; outside suite mode it also closes and pops the group of
    the file and drops the top label buffer.  With no group on the stack it
    throws "No active group"; outside suite mode with the wrapper alone on
    the stack it throws "No active suite", the wrapper already popped. *)
Theorem specDone_ends_test_then_pops_groups
        (host : Host) (spec : jasmine.CustomReporterResult) (s : Reporter) (t : nat) :
  runningTest s = Some t ->
  let out := JasmineAllureReporter.specDone host spec s in
  runningTest (snd out) = None
  /\ isSuite (snd out) = isSuite s
  /\ stepStack (snd out) = []
  /\ (is_Some (items s !! t) ->
      exists i', items (snd out) !! t = Some i' /\ is_Some (stop i'))
  /\ match last (groupStack s) with
     | None =>
         fst out = Abrupt (new_Error "No active group")
         /\ groupStack (snd out) = groupStack s
         /\ labelStack (snd out) = labelStack s
         /\ groups (snd out) = groups s
     | Some w =>
         if isSuite s then
           fst out = Normal tt
           /\ groupStack (snd out) = pop (groupStack s)
           /\ labelStack (snd out) = labelStack s
           /\ groups (snd out) = alter close_group w (groups s)
         else
           match last (pop (groupStack s)) with
           | None =>
               fst out = Abrupt (new_Error "No active suite")
               /\ groupStack (snd out) = pop (groupStack s)
               /\ labelStack (snd out) = labelStack s
               /\ groups (snd out) = alter close_group w (groups s)
           | Some g =>
               fst out = Normal tt
               /\ groupStack (snd out) = pop (pop (groupStack s))
               /\ labelStack (snd out) = pop (labelStack s)
               /\ groups (snd out) = alter close_group g (alter close_group w (groups s))
           end
     end.
Proof.
  intros Hrun. cbv zeta.
  destruct (closeLeakedSteps_keeps s)
    as (s1 & Hclose & Hgs & Hls & Hgroups & Hsuite & _ & Hsteps & Hlen & _).
  destruct (specDone_effect host spec s t Hrun) as (s1' & Hclose' & ->).
  rewrite Hclose in Hclose'. injection Hclose' as <-.
  pose proof (finishTest_effect
                t (with_items (alter (exception_details host spec ∘ status_update spec) t) s1))
    as (Hitems & Hrt & Hmode & Hstack & Hpop).
  revert Hpop. js_norm. rewrite Hgs, Hls, Hgroups, Hsuite. intros Hpop.
  split; [exact Hrt|]. split; [rewrite Hmode; js_norm; exact Hsuite|].
  split; [rewrite Hstack; js_norm; exact Hsteps|].
  split; [|exact Hpop].
  intros Hsome. rewrite Hitems. js_norm.
  destruct (lookup_lt_is_Some_2 (items s1) t) as [y Hy].
  { rewrite Hlen. apply lookup_lt_is_Some_1. exact Hsome. }
  rewrite !list_lookup_alter_eq, Hy. cbn.
  eexists. split; [reflexivity|]. cbn. eauto.
Qed.

Lemma specDone_ends_test_then_pops_groups_witness :
  let bare := with_isSuite false (with_groupStack (fun _ => [1]) in_test) in
  let out := JasmineAllureReporter.specDone plain_host (descriptor "t1" (Some "passed")) bare in
  fst out = Abrupt (new_Error "No active suite")
  /\ runningTest (snd out) = None
  /\ groupStack (snd out) = []
  /\ status_of 0 (snd out) = Some PASSED.
Proof.
  intros bare out. subst out.
  assert (Hrun : runningTest bare = Some 0) by (vm_compute; reflexivity).
  destruct (specDone_ends_test_then_pops_groups
              plain_host (descriptor "t1" (Some "passed")) bare 0 Hrun)
    as (Hrt & _ & _ & _ & Hpop).
  change (last (groupStack bare)) with (Some 1) in Hpop.
  change (isSuite bare) with false in Hpop.
  change (last (pop (groupStack bare))) with (@None nat) in Hpop.
  cbv iota in Hpop. destruct Hpop as (Hret & Hgs & _).
  split; [exact Hret|]. split; [exact Hrt|].
  split; [rewrite Hgs; reflexivity|]. vm_compute. reflexivity.
Defined.

(* ===================================================================== *)
(** * Spec entry *)
(* ===================================================================== *)

(** The loop at the end of [specStarted] puts the labels of all buffers on
    the test, outermost buffer first. *)
Lemma flush_buffer (t : nat) (ls : list Label) :
  item_run t (for_of ls (fun label =>
                AllureTest.addLabel t (label_name label) (label_value label)))
           (fun i => with_labels (labels i ++ ls) i).
Proof.
  induction ls as [|l ls IH].
  - intros s. cbn [for_of]. change (ret tt s) with (Normal tt, s).
    rewrite <- (with_items_alter_id t s) at 1. unfold with_items. do 2 f_equal.
    apply list_alter_ext; auto. intros [] _. cbn. rewrite app_nil_r. reflexivity.
  - cbn [for_of]. eapply item_run_ext.
    + eapply item_run_seq; [apply item_run_update | apply IH].
    + intros x. destruct l. unfold compose, push. cbn. rewrite <- app_assoc. reflexivity.
Qed.

Lemma flush_labels (t : nat) (ls : list (list Label)) :
  item_run t (for_of ls (fun labels =>
                for_of labels (fun label =>
                  AllureTest.addLabel t (label_name label) (label_value label))))
           (fun i => with_labels (labels i ++ concat ls) i).
Proof.
  induction ls as [|l ls IH].
  - intros s. cbn [for_of]. change (ret tt s) with (Normal tt, s).
    rewrite <- (with_items_alter_id t s) at 1. unfold with_items. do 2 f_equal.
    apply list_alter_ext; auto. intros [] _. cbn. rewrite app_nil_r. reflexivity.
  - cbn [for_of]. eapply item_run_ext.
    + eapply item_run_seq; [apply flush_buffer | apply IH].
    + intros x. unfold compose. cbn. rewrite <- app_assoc. reflexivity.
Qed.



Lemma buffer_labels_nil (ls : list (list Label)) : buffer_labels [] ls = ls.
Proof.
  unfold buffer_labels. destruct (Nat.eqb (length ls) 0); [reflexivity|].
  apply list_alter_id. intros x. apply app_nil_r.
Qed.

Lemma alter_top_push {A} (f : A -> A) (b : A) (ls : list A) :
  (if Nat.eqb (length (push b ls)) 0 then push b ls
   else alter f (length (push b ls) - 1) (push b ls))
  = ls ++ [f b].
Proof.
  unfold push. rewrite length_app. cbn [length].
  replace (length ls + 1) with (S (length ls)) by lia. cbn [Nat.eqb Nat.sub].
  rewrite Nat.sub_0_r. apply alter_snoc.
Qed.

(** With a place for the test and no test running, [specStarted] returns;
    what it leaves on the stacks. *)
Lemma specStarted_stacks (host : Host) (spec : jasmine.CustomReporterResult) (s : Reporter) :
  runningTest s = None ->
  (if isSuite s then is_set (last (groupStack s)) else is_set (jasmine.testPath spec)) = true ->
  let out := JasmineAllureReporter.specStarted host spec s in
  fst out = Normal tt
  /\ runningTest (snd out) = Some (length (items s))
  /\ isSuite (snd out) = isSuite s
  /\ stepStack (snd out) = stepStack s
  /\ groupStack (snd out)
     = groupStack s ++ (if isSuite s then [length (groups s)]
                        else [length (groups s); Datatypes.S (length (groups s))])
  /\ labelStack (snd out)
     = (if isSuite s then buffer_labels (thread_labels host) (labelStack s)
        else labelStack s ++ [thread_labels host])
  /\ length (items (snd out)) = Datatypes.S (length (items s))
  /\ length (groups (snd out)) = length (groups s) + (if isSuite s then 1 else 2)
  /\ exists i' own,
       items (snd out) = items s ++ [i']
       /\ labels i' = own ++ concat (labelStack (snd out)).
Proof.
  intros Hrun Hplace out. remember out as o eqn:Eo. subst out.
  revert Hplace Eo.
  unfold JasmineAllureReporter.specStarted, JasmineAllureReporter.specPath, thread_labels.
  destruct (isSuite s) eqn:Hsuite.
  - destruct (last (groupStack s)) as [g|] eqn:Hlast; [intros _|discriminate].
    destruct (nonempty (JEST_WORKER_ID host)) as [id|] eqn:Eid;
      [unfold buffer_labels | rewrite buffer_labels_nil].
    all: destruct (groupStack s) as [|a [|b [|c [|d rest]]]] eqn:Estack; [discriminate|..].
    all: js_run.
    all: unfold JasmineAllureReporter.addLabel; js_run.
    all: rewrite !flush_labels; js_norm.
    all: intros ->; js_norm.
    all: rewrite ?Estack, ?alter_snoc; store_lengths.
    all: repeat (split; [first [reflexivity | assumption | lia]|]).
    all: do 2 eexists; split; reflexivity.
  - destruct (jasmine.testPath spec) as [path|] eqn:Hpath; [intros _|discriminate].
    destruct (nonempty (JEST_WORKER_ID host)) as [id|] eqn:Eid.
    all: destruct (nonempty (projectDir s)) as [dir|] eqn:Edir.
    all: js_run.
    all: match goal with
         | |- context [split_at "/" ?p] =>
             destruct (split_at_cons "/" p) as (x & [|y ys] & Eparts); rewrite Eparts
         end.
    all: destruct (last (groupStack s)) as [p|] eqn:Elast.
    all: js_run.
    all: unfold JasmineAllureReporter.addLabel; js_run.
    all: rewrite !flush_labels; js_norm.
    all: intros ->; js_norm.
    all: rewrite ?alter_top_push; unfold push.
    all: rewrite ?alter_snoc; store_lengths; rewrite ?Nat.add_1_r, <- ?app_assoc.
    all: repeat (split; [first [reflexivity | assumption | lia]|]).
    all: do 2 eexists; split; reflexivity.
Qed.


Lemma index_path_labels (parts : list string) :
  1 < length parts ->
  [mkLabel LabelName.SUB_SUITE (at_index parts (length parts - 1));
   mkLabel LabelName.SUITE (at_index parts (length parts - 2));
   mkLabel LabelName.PARENT_SUITE (join "/" (take (length parts - 2) parts));
   mkLabel LabelName.PACKAGE (at_index parts 0)]
  = path_labels parts.
Proof.
  intros Hlen. unfold path_labels, at_index.
  pose proof (reverse_involutive parts) as Hp.
  destruct (reverse parts) as [|file [|dir above]].
  - subst parts. cbn in Hlen. lia.
  - subst parts. cbn in Hlen. lia.
  - rewrite !reverse_cons, <- !app_assoc in Hp. cbn [app] in Hp. subst parts.
    rewrite !length_app. cbn [length].
    replace (length (reverse above) + 2 - 1) with (length (reverse above) + 1) by lia.
    replace (length (reverse above) + 2 - 2) with (length (reverse above) + 0) by lia.
    rewrite !lookup_app_r by lia.
    replace (length (reverse above) + 1 - length (reverse above)) with 1 by lia.
    replace (length (reverse above) + 0 - length (reverse above)) with 0 by lia.
    rewrite Nat.add_0_r, take_app_length. cbn.
    do 3 f_equal.
    destruct (reverse above); reflexivity.
Qed.

Ltac lookup_store :=
  repeat first
    [ rewrite list_lookup_alter_eq
    | rewrite list_lookup_alter_ne by lia
    | rewrite lookup_snoc_new
    | rewrite lookup_app_l by (store_lengths; lia)
    | rewrite lookup_snoc_at by (store_lengths; lia) ];
  cbn.

(** X15: outside suite mode, for a spec with a test path and with no test
    running, [specStarted] returns with a new running test: it has opened
    a group named after the first component of the path and a "Test
    wrapper" group inside it, and a label buffer of its own.  The test is
    labelled by the path when that has more than one component (file,
    directory, directories above, package), then by the labels of the
    buffers that were open, then by the Jest thread. *)
Theorem specStarted_outside_suite_labels_by_path
        (host : Host) (spec : jasmine.CustomReporterResult) (s : Reporter) (path : string) :
  isSuite s = false ->
  runningTest s = None ->
  jasmine.testPath spec = Some path ->
  groupStack_valid s ->
  let out := JasmineAllureReporter.specStarted host spec s in
  let parts := split_at "/" (spec_file host s path) in
  let t := length (items s) in
  let f := length (groups s) in
  let w := Datatypes.S f in
  fst out = Normal tt
  /\ runningTest (snd out) = Some t
  /\ groupStack (snd out) = groupStack s ++ [f; w]
  /\ labelStack (snd out) = labelStack s ++ [thread_labels host]
  /\ groups (snd out) !! f = Some (mkGroup (default EmptyString (head parts)) [ChildGroup w] false)
  /\ groups (snd out) !! w = Some (mkGroup "Test wrapper" [ChildTest t] false)
  /\ exists i',
       items (snd out) = items s ++ [i']
       /\ name i' = jasmine.description spec
       /\ fullName i' = Some (jasmine.fullName spec)
       /\ historyId i' = Some (jasmine.fullName spec)
       /\ stage i' = RUNNING
       /\ status i' = None
       /\ start i' = Some (clock s)
       /\ labels i' = path_labels parts ++ concat (labelStack s) ++ thread_labels host.
Proof.
  intros Hsuite Hrun Hpath Hvalid out. remember out as o eqn:Eo. subst out.
  revert Eo. cbv zeta.
  unfold JasmineAllureReporter.specStarted, JasmineAllureReporter.specPath,
    thread_labels, spec_file.
  destruct (nonempty (JEST_WORKER_ID host)) as [id|] eqn:Eid.
  all: destruct (nonempty (projectDir s)) as [dir|] eqn:Edir.
  all: js_run.
  all: match goal with
       | |- context [split_at "/" ?p] =>
           destruct (split_at_cons "/" p) as (x & [|y ys] & Eparts); rewrite Eparts
       end.
  all: destruct (last (groupStack s)) as [p|] eqn:Elast.
  all: js_run.
  all: unfold JasmineAllureReporter.addLabel; js_run.
  all: rewrite !flush_labels; js_norm.
  all: intros ->; js_norm.
  all: pose proof Hvalid as Hlt; unfold groupStack_valid in Hlt.
  all: try (pose proof (groupStack_valid_last _ _ Hvalid Elast) as Hp).
  all: rewrite ?alter_top_push; unfold push.
  all: store_lengths; rewrite ?Nat.add_1_r.
  all: do 2 (split; [reflexivity|]).
  all: split; [rewrite <- app_assoc; reflexivity|].
  all: split; [reflexivity|].
  all: split; [lookup_store; reflexivity|].
  all: split; [lookup_store; reflexivity|].
  all: rewrite !alter_snoc.
  all: eexists; split; [reflexivity|].
  all: do 6 (split; [reflexivity|]).
  all: try rewrite <- (index_path_labels (x :: y :: ys)) by (cbn; lia).
  all: rewrite concat_app; cbn; rewrite ?app_nil_r, <- ?app_assoc; reflexivity.
Qed.

(** X16: [specStarted] without a place for the test fails before it
    touches the reporter: in suite mode with no group open it throws
    "No active suite"; outside suite mode a spec without a test path makes
    it throw a TypeError.  Outside suite mode "No active suite" is never
    thrown, as the path always has a first component to open a group
    for. *)
Theorem specStarted_without_context_leaves_reporter
        (host : Host) (spec : jasmine.CustomReporterResult) (s : Reporter) :
  let out := JasmineAllureReporter.specStarted host spec s in
  (isSuite s = true -> last (groupStack s) = None ->
   out = (Abrupt (new_Error "No active suite"), s))
  /\ (isSuite s = false -> jasmine.testPath spec = None ->
      exists msg, out = (Abrupt (new_TypeError msg), s))
  /\ (isSuite s = false -> fst out <> Abrupt (new_Error "No active suite")).
Proof.
  cbv zeta. split; [|split].
  - intros Hsuite Hlast.
    unfold JasmineAllureReporter.specStarted. js_run. reflexivity.
  - intros Hsuite Hpath.
    unfold JasmineAllureReporter.specStarted, JasmineAllureReporter.specPath.
    destruct (nonempty (projectDir s)) as [dir|] eqn:Edir; js_run; eauto.
  - intros Hsuite.
    destruct (jasmine.testPath spec) as [path|] eqn:Epath.
    + destruct (runningTest s) as [t|] eqn:Erun.
      * rewrite (specStarted_overlap_error host spec s t Erun)
          by (rewrite Hsuite, Epath; reflexivity).
        discriminate.
      * assert (Hplace : (if isSuite s then is_set (last (groupStack s))
                          else is_set (jasmine.testPath spec)) = true)
          by (rewrite Hsuite, Epath; reflexivity).
        rewrite (proj1 (specStarted_stacks host spec s Erun Hplace)).
        discriminate.
    + unfold JasmineAllureReporter.specStarted, JasmineAllureReporter.specPath.
      destruct (nonempty (projectDir s)) as [dir|] eqn:Edir; js_run; discriminate.
Qed.

(** X17: a spec that starts and ends leaves the reporter ready for the
    next one.  From a reporter with no test running and a place for the
    test, [specStarted] followed by [specDone] returns with no test
    running, the stop time on the test, no open steps and the group stack
    as it was before.  Outside suite mode the label buffers are as before
    too; in suite mode with a Jest worker the thread label stays behind in
    the innermost buffer, one more for every spec. *)
Theorem spec_start_then_done_restores_stacks
        (host : Host) (spec result : jasmine.CustomReporterResult) (s : Reporter) :
  runningTest s = None ->
  (if isSuite s then is_set (last (groupStack s)) else is_set (jasmine.testPath spec)) = true ->
  let s1 := snd (JasmineAllureReporter.specStarted host spec s) in
  let out := JasmineAllureReporter.specDone host result s1 in
  fst out = Normal tt
  /\ runningTest (snd out) = None
  /\ isSuite (snd out) = isSuite s
  /\ stepStack (snd out) = []
  /\ groupStack (snd out) = groupStack s
  /\ labelStack (snd out)
     = (if isSuite s then buffer_labels (thread_labels host) (labelStack s) else labelStack s)
  /\ exists i', items (snd out) !! length (items s) = Some i' /\ is_Some (stop i').
Proof.
  intros Hrun Hplace s1 out.
  destruct (specStarted_stacks host spec s Hrun Hplace)
    as (_ & Hrun1 & Hsuite1 & _ & Hgs1 & Hls1 & Hlen1 & _).
  fold s1 in Hrun1, Hsuite1, Hgs1, Hls1, Hlen1.
  destruct (closeLeakedSteps_keeps s1)
    as (s2 & Hclose & Hgs2 & Hls2 & _ & Hsuite2 & _ & Hsteps2 & Hlen2 & _).
  destruct (specDone_effect host result s1 _ Hrun1) as (s2' & Hclose' & Hdone).
  rewrite Hclose in Hclose'. injection Hclose' as <-.
  subst out. rewrite Hdone.
  pose proof (finishTest_effect
                (length (items s))
                (with_items (alter (exception_details host result ∘ status_update result)
                                   (length (items s))) s2))
    as (Hitems & Hrt & Hmode & Hstack & Hpop).
  revert Hpop. js_norm. rewrite Hgs2, Hls2, Hsuite2, Hgs1, Hls1, Hsuite1.
  assert (Hstop : exists i',
             items (snd (JasmineAllureReporter.finishTest
                           (length (items s))
                           (with_items
                              (alter (exception_details host result ∘ status_update result)
                                     (length (items s))) s2)))
             !! length (items s) = Some i' /\ is_Some (stop i')).
  { rewrite Hitems. js_norm.
    destruct (lookup_lt_is_Some_2 (items s2) (length (items s))) as [y Hy];
      [rewrite Hlen2, Hlen1; lia|].
    rewrite !list_lookup_alter_eq, Hy. cbn. eexists. split; [reflexivity|]. cbn. eauto. }
  rewrite Hmode, Hstack. js_norm. rewrite Hsuite2, Hsuite1.
  destruct (isSuite s).
  - rewrite last_snoc. unfold pop. rewrite removelast_last.
    intros (Hfst & Hgs & Hls & _). auto 10.
  - replace (groupStack s ++ [length (groups s); S (length (groups s))])
      with ((groupStack s ++ [length (groups s)]) ++ [S (length (groups s))])
      by (rewrite <- app_assoc; reflexivity).
    rewrite last_snoc. unfold pop. rewrite !removelast_last, last_snoc.
    intros (Hfst & Hgs & Hls & _). auto 10.
Qed.


Lemma specStarted_outside_suite_labels_by_path_witness :
  let out := JasmineAllureReporter.specStarted plain_host file_spec
               (JasmineAllureReporter.init (Some "/project")) in
  fst out = Normal tt
  /\ groupStack (snd out) = [0; 1]
  /\ (group_name <$> groups (snd out) !! 0) = Some "api"
  /\ (labels <$> items (snd out) !! 0)
     = Some [mkLabel LabelName.SUB_SUITE "get.test.js"; mkLabel LabelName.SUITE "users";
             mkLabel LabelName.PARENT_SUITE "api"; mkLabel LabelName.PACKAGE "api"].
Proof.
  intros out. subst out.
  assert (Hvalid : groupStack_valid (JasmineAllureReporter.init (Some "/project")))
    by constructor.
  destruct (specStarted_outside_suite_labels_by_path
              plain_host file_spec (JasmineAllureReporter.init (Some "/project"))
              "api/users/get.test.js" eq_refl eq_refl eq_refl Hvalid)
    as (Hfst & _ & Hgs & _ & Hf & _ & i' & Hitems & _ & _ & _ & _ & _ & _ & Hlabels).
  split; [exact Hfst|]. split; [exact Hgs|].
  change (length (groups (JasmineAllureReporter.init (Some "/project")))) with 0 in Hf.
  split; [rewrite Hf; vm_compute; reflexivity|].
  rewrite Hitems.
  change (Some (labels i')
          = Some [mkLabel LabelName.SUB_SUITE "get.test.js"; mkLabel LabelName.SUITE "users";
                  mkLabel LabelName.PARENT_SUITE "api"; mkLabel LabelName.PACKAGE "api"]).
  rewrite Hlabels. vm_compute. reflexivity.
Defined.

Lemma specStarted_without_context_leaves_reporter_witness :
  JasmineAllureReporter.specStarted plain_host (descriptor "t1" None)
    (with_isSuite true (JasmineAllureReporter.init None))
  = (Abrupt (new_Error "No active suite"), with_isSuite true (JasmineAllureReporter.init None))
  /\ exists msg,
       JasmineAllureReporter.specStarted plain_host (descriptor "t1" None)
         (JasmineAllureReporter.init None)
       = (Abrupt (new_TypeError msg), JasmineAllureReporter.init None).
Proof.
  split.
  - apply (proj1 (specStarted_without_context_leaves_reporter
                    plain_host (descriptor "t1" None)
                    (with_isSuite true (JasmineAllureReporter.init None))));
      reflexivity.
  - apply (proj1 (proj2 (specStarted_without_context_leaves_reporter
                           plain_host (descriptor "t1" None)
                           (JasmineAllureReporter.init None))));
      reflexivity.
Defined.

Lemma spec_start_then_done_restores_stacks_witness :
  let s1 := snd (JasmineAllureReporter.specStarted worker_host (descriptor "t1" None) in_suites) in
  let out := JasmineAllureReporter.specDone worker_host (descriptor "t1" (Some "passed")) s1 in
  fst out = Normal tt
  /\ runningTest (snd out) = None
  /\ groupStack (snd out) = groupStack in_suites
  /\ labelStack in_suites = [[]; []; []]
  /\ labelStack (snd out) = [[]; []; [mkLabel LabelName.THREAD "1"]].
Proof.
  intros s1 out.
  assert (Hrun : runningTest in_suites = None) by (vm_compute; reflexivity).
  assert (Hplace : (if isSuite in_suites then is_set (last (groupStack in_suites))
                    else is_set (jasmine.testPath (descriptor "t1" None))) = true)
    by (vm_compute; reflexivity).
  destruct (spec_start_then_done_restores_stacks
              worker_host (descriptor "t1" None) (descriptor "t1" (Some "passed"))
              in_suites Hrun Hplace)
    as (Hfst & Hrt & _ & _ & Hgs & Hls & _).
  split; [exact Hfst|]. split; [exact Hrt|]. split; [exact Hgs|].
  split; [vm_compute; reflexivity|].
  subst out s1. rewrite Hls. vm_compute. reflexivity.
Defined.

(* ===================================================================== *)
(** * Invariants of the event handlers *)
(* ===================================================================== *)

(** What [specStarted] does to the stacks and stores, in any reporter and
    whether it throws or not: the stores only grow, the group stack only
    gets new references to groups that exist, and the running test is the
    old one or a new item. *)
Lemma specStarted_frame (host : Host) (spec : jasmine.CustomReporterResult) (s : Reporter) :
  let out := JasmineAllureReporter.specStarted host spec s in
  isSuite (snd out) = isSuite s
  /\ length (groups s) <= length (groups (snd out))
  /\ length (items s) <= length (items (snd out))
  /\ (exists new, groupStack (snd out) = groupStack s ++ new
                  /\ Forall (fun g => g < length (groups (snd out))) new)
  /\ (runningTest (snd out) = runningTest s
      \/ exists t, runningTest (snd out) = Some t /\ t < length (items (snd out))).
Proof.
  intros out.
  destruct (runningTest s) as [t|] eqn:Hrun.
  - remember out as o eqn:Eo. subst out. revert Eo.
    unfold JasmineAllureReporter.specStarted, JasmineAllureReporter.specPath.
    destruct (isSuite s) eqn:E1; js_run.
    + destruct (last (groupStack s)) eqn:E3; js_run; intros ->; js_norm.
      * store_lengths. repeat split; auto; try lia.
        exists [length (groups s)]. split; [reflexivity|].
        repeat constructor. lia.
      * repeat split; auto. exists []. rewrite app_nil_r. split; auto.
    + destruct (nonempty (projectDir s)) as [dir|] eqn:E2,
               (jasmine.testPath spec) as [path|] eqn:E4; js_run.
      all: try (intros ->; js_norm; repeat split; auto;
                exists []; rewrite app_nil_r; split; auto).
      all: match goal with
           | |- context [split_at "/" ?p] =>
               destruct (split_at_cons "/" p) as (x & ys & Eparts); rewrite Eparts
           end.
      all: destruct (last (groupStack s)) eqn:E3; js_run; intros ->; js_norm.
      all: unfold push; store_lengths; rewrite <- ?app_assoc.
      all: repeat split; auto; try lia.
      all: eexists; split; [reflexivity|].
      all: repeat constructor; lia.
  - destruct (if isSuite s then is_set (last (groupStack s))
              else is_set (jasmine.testPath spec)) eqn:Hplace.
    + destruct (specStarted_stacks host spec s Hrun Hplace)
        as (_ & Hrt & Hsuite & _ & Hgs & _ & Hitems & Hgroups & _).
      fold out in Hrt, Hsuite, Hgs, Hitems, Hgroups.
      split; [exact Hsuite|]. split; [lia|]. split; [lia|]. split.
      * eexists. split; [exact Hgs|]. rewrite Hgroups.
        destruct (isSuite s); repeat constructor; lia.
      * right. eexists. split; [exact Hrt|]. lia.
    + assert (Hsame : snd out = s).
      { subst out. revert Hplace.
        unfold JasmineAllureReporter.specStarted, JasmineAllureReporter.specPath.
        destruct (isSuite s) eqn:E1; js_run.
        - destruct (last (groupStack s)) eqn:E3; [discriminate|]. js_run. reflexivity.
        - destruct (jasmine.testPath spec) eqn:E4; [discriminate|].
          destruct (nonempty (projectDir s)) eqn:E2; js_run; reflexivity. }
      rewrite Hsame. repeat split; auto.
      exists []. rewrite app_nil_r. split; auto.
Qed.

Lemma Forall_pop {A} (P : A -> Prop) (l : list A) : Forall P l -> Forall P (pop l).
Proof.
  unfold pop. destruct l as [|x l _] using rev_ind; [auto|].
  rewrite removelast_last, Forall_app. tauto.
Qed.

Lemma Forall_grow (n m : nat) (l : list nat) :
  n <= m -> Forall (fun g => g < n) l -> Forall (fun g => g < m) l.
Proof.
  intros Hle H. eapply Forall_impl; [exact H|]. intros g Hg. cbn in Hg |- *. lia.
Qed.

(** What [specDone] does to the stacks and stores, in any reporter and
    whether it throws or not. *)
Lemma specDone_frame (host : Host) (spec : jasmine.CustomReporterResult) (s : Reporter) :
  let out := JasmineAllureReporter.specDone host spec s in
  isSuite (snd out) = isSuite s
  /\ length (groups (snd out)) = length (groups s)
  /\ length (items (snd out)) = length (items s)
  /\ (groupStack (snd out) = groupStack s
      \/ groupStack (snd out) = pop (groupStack s)
      \/ groupStack (snd out) = pop (pop (groupStack s)))
  /\ (runningTest (snd out) = runningTest s \/ runningTest (snd out) = None).
Proof.
  intros out. destruct (runningTest s) as [t|] eqn:Hrun.
  - destruct (closeLeakedSteps_keeps s)
      as (s1 & Hclose & Hgs & _ & Hgroups & Hsuite & _ & _ & Hlen & _).
    destruct (specDone_effect host spec s t Hrun) as (s1' & Hclose' & Hdone).
    rewrite Hclose in Hclose'. injection Hclose' as <-.
    subst out. rewrite Hdone.
    pose proof (finishTest_effect
                  t (with_items (alter (exception_details host spec ∘ status_update spec) t) s1))
      as (Hitems & Hrt & Hmode & _ & Hpop).
    revert Hpop. js_norm. rewrite Hgs, Hgroups, Hsuite. intros Hpop.
    rewrite Hmode, Hitems, Hrt. js_norm. rewrite !length_alter.
    split; [exact Hsuite|]. split; [|split; [exact Hlen|split; [|auto]]].
    + destruct (last (groupStack s)); [|destruct Hpop as (_ & _ & _ & ->); reflexivity].
      destruct (isSuite s); [destruct Hpop as (_ & _ & _ & ->); apply length_alter|].
      destruct (last (pop (groupStack s)));
        destruct Hpop as (_ & _ & _ & ->); rewrite ?length_alter; reflexivity.
    + destruct (last (groupStack s)); [|destruct Hpop as (_ & -> & _); auto].
      destruct (isSuite s); [destruct Hpop as (_ & -> & _); auto|].
      destruct (last (pop (groupStack s))); destruct Hpop as (_ & -> & _); auto.
  - subst out. rewrite (specDone_without_test host spec s Hrun). cbn [snd]. auto 10.
Qed.

Lemma suiteStarted_frame (suite : jasmine.CustomReporterResult) (s : Reporter) :
  let out := JasmineAllureReporter.suiteStarted suite s in
  isSuite (snd out) = true
  /\ length (groups (snd out)) = Datatypes.S (length (groups s))
  /\ items (snd out) = items s
  /\ groupStack (snd out) = groupStack s ++ [length (groups s)]
  /\ runningTest (snd out) = runningTest s.
Proof.
  intros out. subst out. unfold JasmineAllureReporter.suiteStarted.
  destruct (last (groupStack s)) eqn:E; js_run; store_lengths; repeat split; auto; lia.
Qed.

Lemma suiteDone_frame (suite : jasmine.CustomReporterResult) (s : Reporter) :
  let out := JasmineAllureReporter.suiteDone suite s in
  isSuite (snd out) = isSuite s
  /\ length (groups (snd out)) = length (groups s)
  /\ items (snd out) = items s
  /\ (groupStack (snd out) = groupStack s \/ groupStack (snd out) = pop (groupStack s))
  /\ runningTest (snd out) = runningTest s.
Proof.
  intros out. subst out. unfold JasmineAllureReporter.suiteDone.
  destruct (isSuite s) eqn:E1, (runningTest s) eqn:E2, (last (groupStack s)) eqn:E3;
    js_run; store_lengths; repeat split; auto.
Qed.

(** One event: suite mode is entered by a describe block and by nothing
    else, and valid references stay valid. *)
Lemma deliver_frame (host : Host) (e : Event) (s : Reporter) :
  let s' := snd (deliver host e s) in
  isSuite s' = isSuite s || entered e
  /\ (refs_valid s -> refs_valid s').
Proof.
  intros s'. subst s'. unfold refs_valid, groupStack_valid.
  destruct e as [|suite|spec|spec|suite|]; cbn [deliver entered].
  - rewrite orb_false_r. split; [reflexivity|auto].
  - destruct (suiteStarted_frame suite s) as (Hsuite & Hgroups & Hitems & Hgs & Hrt).
    rewrite Hsuite, Hgroups, Hitems, Hgs, Hrt, orb_true_r. split; [reflexivity|].
    intros [Hvalid Hrun]. split; [|exact Hrun].
    rewrite Forall_app. split; [eapply Forall_grow, Hvalid; lia|repeat constructor].
  - destruct (specStarted_frame host spec s)
      as (Hsuite & Hgroups & Hitems & (new & Hgs & Hnew) & Hrt).
    rewrite Hsuite, Hgs, orb_false_r. split; [reflexivity|].
    intros [Hvalid Hrun]. split.
    + rewrite Forall_app. split; [eapply Forall_grow, Hvalid; exact Hgroups|exact Hnew].
    + intros t Ht. destruct Hrt as [Hrt|(t' & Hrt & Hlt)].
      * rewrite Hrt in Ht. apply Hrun in Ht. lia.
      * rewrite Hrt in Ht. injection Ht as <-. exact Hlt.
  - destruct (specDone_frame host spec s) as (Hsuite & Hgroups & Hitems & Hgs & Hrt).
    rewrite Hsuite, Hgroups, Hitems, orb_false_r. split; [reflexivity|].
    intros [Hvalid Hrun]. split.
    + destruct Hgs as [-> | [-> | ->]]; auto using Forall_pop.
    + intros t Ht. destruct Hrt as [Hrt|Hrt]; rewrite Hrt in Ht; [auto|discriminate].
  - destruct (suiteDone_frame suite s) as (Hsuite & Hgroups & Hitems & Hgs & Hrt).
    rewrite Hsuite, Hgroups, Hitems, Hrt, orb_false_r. split; [reflexivity|].
    intros [Hvalid Hrun]. split; [|exact Hrun].
    destruct Hgs as [-> | ->]; auto using Forall_pop.
  - rewrite orb_false_r. split; [reflexivity|auto].
Qed.

(** X18: suite mode is entered at the first describe block and never
    left: after any events the reporter is in suite mode exactly when it
    was so before or a describe block was entered among them, also when
    handlers threw in between.  So once a describe block has been seen, a
    spec that arrives with no group open is refused with "No active suite"
    and the reporter left as it is, test path or not. *)
Theorem suite_mode_is_never_left
        (host : Host) (evs : list Event) (s : Reporter) (spec : jasmine.CustomReporterResult) :
  let s' := state_after host evs s in
  isSuite s' = isSuite s || existsb entered evs
  /\ (existsb entered evs = true ->
      last (groupStack s') = None ->
      JasmineAllureReporter.specStarted host spec s'
      = (Abrupt (new_Error "No active suite"), s')).
Proof.
  intros s'.
  assert (Hmode : isSuite s' = isSuite s || existsb entered evs).
  { subst s'. unfold state_after. revert s.
    induction evs as [|e evs IH]; intros s; cbn [fold_left existsb].
    - rewrite orb_false_r. reflexivity.
    - rewrite IH, (proj1 (deliver_frame host e s)), orb_assoc. reflexivity. }
  split; [exact Hmode|].
  intros Hentered Hlast. rewrite Hentered, orb_true_r in Hmode.
  unfold JasmineAllureReporter.specStarted. js_run. reflexivity.
Qed.

Lemma suite_mode_is_never_left_witness :
  let s' := state_after plain_host
              [SuiteEntered (descriptor "A" None); SuiteExited (descriptor "A" None)]
              (JasmineAllureReporter.init None) in
  JasmineAllureReporter.specStarted plain_host file_spec s'
  = (Abrupt (new_Error "No active suite"), s').
Proof.
  intros s'.
  apply (proj2 (suite_mode_is_never_left
                  plain_host
                  [SuiteEntered (descriptor "A" None); SuiteExited (descriptor "A" None)]
                  (JasmineAllureReporter.init None) file_spec));
    reflexivity.
Defined.

(** The hypothesis [groupStack_valid] of the theorems on [specStarted] is
    met by every reporter that events lead to from the initial one. *)
Lemma reachable_reporter_refs_valid
      (host : Host) (projectDir : option string) (evs : list Event) :
  refs_valid (state_after host evs (JasmineAllureReporter.init projectDir)).
Proof.
  assert (Hinit : refs_valid (JasmineAllureReporter.init projectDir))
    by (split; [constructor | discriminate]).
  revert Hinit. generalize (JasmineAllureReporter.init projectDir).
  unfold state_after.
  induction evs as [|e evs IH]; intros s Hs; cbn [fold_left]; [exact Hs|].
  apply IH, deliver_frame, Hs.
Qed.

(* ===================================================================== *)
(** * Labels of a describe block *)
(* ===================================================================== *)

(** X20: a label given inside a describe block while no test is running
    belongs to the block: it is kept in the buffer of the block, a spec
    entered afterwards starts a test that carries it, and when the block is
    left the buffer goes with it, the stacks being as they were before the
    block. *)
Theorem label_given_in_describe_block_is_scoped
        (host : Host) (suite spec : jasmine.CustomReporterResult)
        (name value : string) (s : Reporter) :
  runningTest s = None ->
  let s1 := snd (JasmineAllureReporter.suiteStarted suite s) in
  let s2 := snd (JasmineAllureInterface.label name value s1) in
  let started := JasmineAllureReporter.specStarted host spec s2 in
  let left := JasmineAllureReporter.suiteDone suite s2 in
  labelStack s2 = labelStack s ++ [[mkLabel name value]]
  /\ fst started = Normal tt
  /\ (exists i', items (snd started) !! length (items s) = Some i'
                 /\ mkLabel name value ∈ labels i')
  /\ fst left = Normal tt
  /\ labelStack (snd left) = labelStack s
  /\ groupStack (snd left) = groupStack s.
Proof.
  intros Hrun s1 s2 started left.
  assert (Hs2 : labelStack s2 = labelStack s ++ [[mkLabel name value]]
                /\ groupStack s2 = groupStack s ++ [length (groups s)]
                /\ isSuite s2 = true /\ runningTest s2 = None /\ items s2 = items s).
  { assert (Hs1 : labelStack s1 = push [] (labelStack s)
                  /\ groupStack s1 = groupStack s ++ [length (groups s)]
                  /\ isSuite s1 = true /\ runningTest s1 = None /\ items s1 = items s).
    { subst s1. unfold JasmineAllureReporter.suiteStarted.
      destruct (last (groupStack s)) eqn:E; js_run; auto. }
    destruct Hs1 as (Hls1 & Hgs1 & Hsuite1 & Hrun1 & Hitems1).
    clear started left. subst s2. clearbody s1.
    unfold JasmineAllureInterface.label, JasmineAllureReporter.currentTest,
      JasmineAllureReporter.addLabel, AllureTest.addLabel.
    unfold try_catch, bind at 1 2, gets at 1.
    rewrite Hrun1. js_run. rewrite Hls1, alter_top_push. auto. }
  destruct Hs2 as (Hls & Hgs & Hsuite & Hrun2 & Hitems).
  split; [exact Hls|].
  assert (Hplace : (if isSuite s2 then is_set (last (groupStack s2))
                    else is_set (jasmine.testPath spec)) = true)
    by (rewrite Hsuite, Hgs, last_snoc; reflexivity).
  destruct (specStarted_stacks host spec s2 Hrun2 Hplace)
    as (Hfst & _ & _ & _ & _ & Hls' & _ & _ & i' & own & Hnew & Hlabels).
  fold started in Hfst, Hls', Hnew, Hlabels.
  split; [exact Hfst|]. split.
  - exists i'. rewrite Hnew, Hitems, lookup_snoc_new. split; [reflexivity|].
    rewrite Hlabels, Hls', Hsuite, Hls. unfold buffer_labels.
    rewrite length_app. cbn [length].
    replace (length (labelStack s) + 1 =? 0)%nat with false
      by (symmetry; apply Nat.eqb_neq; lia).
    replace (length (labelStack s) + 1 - 1) with (length (labelStack s)) by lia.
    rewrite alter_snoc, concat_app. cbn.
    rewrite !elem_of_app. right. right. left.
  - subst left. unfold JasmineAllureReporter.suiteDone.
    js_run. rewrite ?Hgs, ?last_snoc. js_run.
    rewrite ?Hgs, ?Hls. unfold pop. rewrite !removelast_last. auto.
Qed.

Lemma label_given_in_describe_block_is_scoped_witness :
  let s1 := snd (JasmineAllureReporter.suiteStarted (descriptor "A" None)
                   (JasmineAllureReporter.init None)) in
  let s2 := snd (JasmineAllureInterface.label "owner" "me" s1) in
  labelStack s2 = [[]; [mkLabel "owner" "me"]]
  /\ labelStack (snd (JasmineAllureReporter.suiteDone (descriptor "A" None) s2)) = [[]]
  /\ exists i',
       items (snd (JasmineAllureReporter.specStarted plain_host (descriptor "t1" None) s2)) !! 0
       = Some i'
       /\ mkLabel "owner" "me" ∈ labels i'.
Proof.
  intros s1 s2.
  destruct (label_given_in_describe_block_is_scoped
              plain_host (descriptor "A" None) (descriptor "t1" None) "owner" "me"
              (JasmineAllureReporter.init None) eq_refl)
    as (Hls & _ & Htest & _ & Hleft & _).
  split; [exact Hls|]. split; [exact Hleft|exact Htest].
Defined.

(* ===================================================================== *)
(** * The argument of the body *)
(* ===================================================================== *)

(** The wrapped call hands the value of the body to its caller. *)
Lemma wrap_value (r : nat) (body : Body) (args : list value) (s s1 : Reporter) (v : value) :
  body [VArray args] (snd (ExecutableItemWrapper.set_stage r RUNNING s)) = (Normal v, s1) ->
  exists s', ExecutableItemWrapper.wrap r body args s = (Normal (wrapped_result v), s').
Proof.
  intros Hbody. rewrite wrap_unfold, Hbody.
  destruct v as [| | | | | | |p].
  1-7: match goal with
       | |- context [ret ?v] => destruct (finish_sync_value r v s1) as [s' H]
       end; rewrite H; eauto.
  destruct (chain_run r p s1) as [s' H]. rewrite H. eauto.
Qed.

(** A thrown value with a stack or a message is handed to the caller as the
    value of the wrapped call. *)
Lemma wrap_thrown (r : nat) (body : Body) (args : list value) (s s1 : Reporter)
      (m st : value) :
  body [VArray args] (snd (ExecutableItemWrapper.set_stage r RUNNING s))
  = (Abrupt (VObject m st), s1) ->
  truthy st || truthy m = true ->
  exists s', ExecutableItemWrapper.wrap r body args s = (Normal (VObject m st), s').
Proof.
  intros Hbody Htruthy. rewrite wrap_unfold, Hbody.
  unfold ExecutableItemWrapper.on_throw, ExecutableItemWrapper.record_failure.
  destruct (truthy st) eqn:Est, (truthy m) eqn:Em; try discriminate; js_run.
  all: destruct (negb _); js_run; eauto.
Qed.

Lemma endStep_run (w : nat) (s : Reporter) :
  exists s', WrappedStep.endStep w s = (Normal tt, s').
Proof. unfold WrappedStep.endStep, AllureStep.endStep. js_run. eauto. Qed.

(** [step] hands the value of the wrapped call to its caller. *)
Lemma step_after_wrap (name : string) (body : Body) (s s1 s2 : Reporter) (w : nat) (v : value) :
  JasmineAllureInterface.startStep name s = (Normal w, s1) ->
  ExecutableItemWrapper.wrap w body [] s1 = (Normal v, s2) ->
  exists s', JasmineAllureInterface.step name body s = (Normal v, s').
Proof.
  intros Hstart Hwrap. unfold JasmineAllureInterface.step.
  rewrite (bind_normal _ _ _ _ _ Hstart), bind_unfold.
  unfold try_catch, WrappedStep.run. rewrite Hwrap.
  destruct v as [| | | | | | |[|a|e]];
    try (destruct (endStep_run w s2) as [s' H]; rewrite (bind_normal _ _ _ _ _ H)); eauto.
Qed.

Lemma step_value (name : string) (body : Body) (s s2 : Reporter) (exe : nat) (v : value) :
  fst (JasmineAllureInterface.currentExecutable s) = Normal exe ->
  body [VArray []] (step_opened name s) = (Normal v, s2) ->
  exists s', JasmineAllureInterface.step name body s = (Normal (wrapped_result v), s').
Proof.
  intros Hexe Hbody.
  destruct (startStep_run name s exe Hexe) as (s1 & Hstart & Hopen & _).
  rewrite <- Hopen in Hbody.
  destruct (wrap_value _ body [] s1 s2 v Hbody) as [s3 Hwrap].
  eapply step_after_wrap; eauto.
Qed.

Lemma step_thrown (name : string) (body : Body) (s s2 : Reporter) (exe : nat) (m st : value) :
  fst (JasmineAllureInterface.currentExecutable s) = Normal exe ->
  body [VArray []] (step_opened name s) = (Abrupt (VObject m st), s2) ->
  truthy st || truthy m = true ->
  exists s', JasmineAllureInterface.step name body s = (Normal (VObject m st), s').
Proof.
  intros Hexe Hbody Htruthy.
  destruct (startStep_run name s exe Hexe) as (s1 & Hstart & Hopen & _).
  rewrite <- Hopen in Hbody.
  destruct (wrap_thrown _ body [] s1 s2 m st Hbody Htruthy) as [s3 Hwrap].
  eapply step_after_wrap; eauto.
Qed.

Local Opaque ExecutableItemWrapper.wrap.

(** [setup] hands the value of the wrapped call to its caller. *)
Lemma setup_after_wrap (body : Body) (s : Reporter) (g : nat) :
  last (groupStack s) = Some g ->
  exists st,
    snd (ExecutableItemWrapper.set_stage (length (items s)) RUNNING st) = setup_opened s
    /\ forall s3 v,
        ExecutableItemWrapper.wrap (length (items s)) body [] st = (Normal v, s3) ->
        exists s', JasmineAllureInterface.setup body s = (Normal v, s').
Proof.
  intros Hg. eexists. split.
  - rewrite (setup_opened_eq s g Hg). reflexivity.
  - intros s3 v Hwrap.
    unfold JasmineAllureInterface.setup, JasmineAllureReporter.currentGroup,
      AllureGroup.addBefore, AllureGroup.addFixture.
    js_run.
    destruct v as [| | | | | | |[|a|e]]; js_run; eauto.
Qed.

(** A hook answers the host engine from the value of the wrapped call. *)
Lemma runHook_after_wrap (fun_ : JS nat) (action : Hooks.Action) (s s1 : Reporter) (f : nat) :
  fun_ s = (Normal f, s1) ->
  Hooks.runHook fun_ action s
  = match ExecutableItemWrapper.wrap f (hook_body action) []
            (with_runningExecutable (Some f) s1) with
    | (Normal (VPromise Pending), s2) => (Normal Hooks.NotYet, s2)
    | (Normal (VPromise (Rejected e)), s2) =>
        (Normal (Hooks.DoneFail e), with_runningExecutable None s2)
    | (Normal _, s2) => (Normal Hooks.Done, with_runningExecutable None s2)
    | (Abrupt e, s2) => (Abrupt e, s2)
    end.
Proof.
  intros Hfun. unfold Hooks.runHook.
  rewrite (bind_normal _ _ _ _ _ Hfun). js_step.
  replace (match action with
           | Hooks.TakesDone run => ExecutableItemWrapper.wrap f (Hooks.promised run) []
           | Hooks.Plain run => ExecutableItemWrapper.wrap f run []
           end) with (ExecutableItemWrapper.wrap f (hook_body action) [])
    by (destruct action; reflexivity).
  rewrite bind_unfold.
  destruct (ExecutableItemWrapper.wrap f (hook_body action) [] _) as [[v|e] s2]; [|reflexivity].
  destruct v as [| | | | | | |[|a|e]]; js_run; reflexivity.
Qed.

Local Transparent ExecutableItemWrapper.wrap.

Lemma setup_value (body : Body) (s s2 : Reporter) (g : nat) (v : value) :
  last (groupStack s) = Some g ->
  body [VArray []] (setup_opened s) = (Normal v, s2) ->
  exists s', JasmineAllureInterface.setup body s = (Normal (wrapped_result v), s').
Proof.
  intros Hg Hbody.
  destruct (setup_after_wrap body s g Hg) as (st & Hopen & Hsetup).
  rewrite <- Hopen in Hbody.
  destruct (wrap_value _ body [] st s2 v Hbody) as [s3 Hwrap].
  eauto.
Qed.

Lemma runHook_value (fun_ : JS nat) (action : Hooks.Action) (s s1 s2 : Reporter)
      (f : nat) (v : value) :
  fun_ s = (Normal f, s1) ->
  hook_body action [VArray []]
    (snd (ExecutableItemWrapper.set_stage f RUNNING (with_runningExecutable (Some f) s1)))
  = (Normal v, s2) ->
  exists s', Hooks.runHook fun_ action s = (Normal (hook_answer v), s').
Proof.
  intros Hfun Hbody.
  rewrite (runHook_after_wrap fun_ action s s1 f Hfun).
  destruct (wrap_value f (hook_body action) [] _ s2 v Hbody) as [s3 ->].
  destruct v as [| | | | | | |[|a|e]]; cbn; eauto.
Qed.

(** C9: the wrapped call applies the body once, to one argument, the array
    of the arguments it was itself called with, in the reporter with the
    stage set to running, and goes on from the outcome of that call: a
    value of the body is handed to the caller (a promise as the promise of
    the chain), so the outcome depends on the body only through its
    behaviour at that one-element list, and a body that returns its list
    of arguments returns the list made of that array.  [WrappedStep.run]
    makes the wrapped call without arguments, as do [setup] and the hooks:
    the body of a step, of [setup] and of a hook is applied to the empty
    array, and [step] and [setup] hand its value to their callers. *)
Theorem body_called_with_array_of_arguments :
  (forall r body args s,
      ExecutableItemWrapper.wrap r body args s
      = match body [VArray args] (snd (ExecutableItemWrapper.set_stage r RUNNING s)) with
        | (Normal (VPromise promise), s1) => ExecutableItemWrapper.chain r promise s1
        | (Normal result, s1) =>
            (let! st := ExecutableItemWrapper.get_status r in
             when (negb (is_set st)) (ExecutableItemWrapper.set_status r (Some PASSED));;
             ExecutableItemWrapper.set_stage r FINISHED;;
             ret result) s1
        | (Abrupt error, s1) =>
            (let! result := ExecutableItemWrapper.on_throw r error in
             match result with
             | VPromise promise => ExecutableItemWrapper.chain r promise
             | _ =>
                 let! st := ExecutableItemWrapper.get_status r in
                 when (negb (is_set st)) (ExecutableItemWrapper.set_status r (Some PASSED));;
                 ExecutableItemWrapper.set_stage r FINISHED;;
                 ret result
             end) s1
        end)
  /\ (forall r body args s s1 v,
         body [VArray args] (snd (ExecutableItemWrapper.set_stage r RUNNING s)) = (Normal v, s1) ->
         fst (ExecutableItemWrapper.wrap r body args s) = Normal (wrapped_result v))
  /\ (forall r body body' args s,
         body [VArray args] (snd (ExecutableItemWrapper.set_stage r RUNNING s))
         = body' [VArray args] (snd (ExecutableItemWrapper.set_stage r RUNNING s)) ->
         ExecutableItemWrapper.wrap r body args s = ExecutableItemWrapper.wrap r body' args s)
  /\ (forall r args s,
         fst (ExecutableItemWrapper.wrap r probe args s) = Normal (VArray [VArray args]))
  /\ (forall step body s,
         WrappedStep.run step body s = ExecutableItemWrapper.wrap step body [] s)
  /\ (forall name body s s2 exe v,
         fst (JasmineAllureInterface.currentExecutable s) = Normal exe ->
         body [VArray []] (step_opened name s) = (Normal v, s2) ->
         fst (JasmineAllureInterface.step name body s) = Normal (wrapped_result v))
  /\ (forall name body body' s,
         (forall s', body [VArray []] s' = body' [VArray []] s') ->
         JasmineAllureInterface.step name body s = JasmineAllureInterface.step name body' s)
  /\ (forall name s exe,
         fst (JasmineAllureInterface.currentExecutable s) = Normal exe ->
         fst (JasmineAllureInterface.step name probe s) = Normal (VArray [VArray []]))
  /\ (forall body s s2 g v,
         last (groupStack s) = Some g ->
         body [VArray []] (setup_opened s) = (Normal v, s2) ->
         fst (JasmineAllureInterface.setup body s) = Normal (wrapped_result v))
  /\ (forall body body' s,
         (forall s', body [VArray []] s' = body' [VArray []] s') ->
         JasmineAllureInterface.setup body s = JasmineAllureInterface.setup body' s)
  /\ (forall fun_ body s s1 s2 f v,
         fun_ s = (Normal f, s1) ->
         body [VArray []]
           (snd (ExecutableItemWrapper.set_stage f RUNNING
                   (with_runningExecutable (Some f) s1))) = (Normal v, s2) ->
         fst (Hooks.runHook fun_ (Hooks.Plain body) s) = Normal (hook_answer v))
  /\ (forall fun_ body body' s,
         (forall s', body [VArray []] s' = body' [VArray []] s') ->
         Hooks.runHook fun_ (Hooks.Plain body) s = Hooks.runHook fun_ (Hooks.Plain body') s).
Proof.
  split; [exact wrap_unfold|].
  split.
  { intros r body args s s1 v Hbody.
    destruct (wrap_value r body args s s1 v Hbody) as [s' ->]. reflexivity. }
  split; [exact wrap_ext|].
  split; [exact wrap_probe|].
  split; [reflexivity|].
  split.
  { intros name body s s2 exe v Hexe Hbody.
    destruct (step_value name body s s2 exe v Hexe Hbody) as [s' ->]. reflexivity. }
  split; [exact step_ext|].
  split; [exact step_probe|].
  split.
  { intros body s s2 g v Hg Hbody.
    destruct (setup_value body s s2 g v Hg Hbody) as [s' ->]. reflexivity. }
  split; [exact setup_ext|].
  split; [|exact runHook_ext].
  intros fun_ body s s1 s2 f v Hfun Hbody.
  destruct (runHook_value fun_ (Hooks.Plain body) s s1 s2 f v Hfun Hbody) as [s' ->].
  reflexivity.
Qed.

Lemma body_called_with_array_of_arguments_witness :
  fst (ExecutableItemWrapper.wrap 0 picky [] one_item) = Normal (VNum 1)
  /\ ExecutableItemWrapper.wrap 0 picky [] one_item
     = ExecutableItemWrapper.wrap 0 (returning (VNum 1)) [] one_item
  /\ fst (JasmineAllureInterface.currentExecutable in_test) = Normal 0
  /\ fst (JasmineAllureInterface.step "s" picky in_test) = Normal (VNum 1)
  /\ fst (JasmineAllureInterface.step "s" probe in_test) = Normal (VArray [VArray []])
  /\ JasmineAllureInterface.step "s" picky in_test
     = JasmineAllureInterface.step "s" (returning (VNum 1)) in_test.
Proof.
  destruct body_called_with_array_of_arguments
    as (_ & Hvalue & Hext & _ & _ & Hstep & Hstep_ext & Hprobe & _).
  assert (Hexe : fst (JasmineAllureInterface.currentExecutable in_test) = Normal 0)
    by (vm_compute; reflexivity).
  split.
  { apply (Hvalue 0 picky [] one_item
                  (snd (ExecutableItemWrapper.set_stage 0 RUNNING one_item)) (VNum 1)).
    reflexivity. }
  split; [apply Hext; reflexivity|].
  split; [exact Hexe|].
  split.
  { apply (Hstep "s" picky in_test (step_opened "s" in_test) 0 (VNum 1) Hexe).
    reflexivity. }
  split; [apply (Hprobe "s" in_test 0); exact Hexe|].
  apply Hstep_ext. reflexivity.
Defined.

(* ===================================================================== *)
(** * A thrown error is not thrown again *)
(* ===================================================================== *)

(** X21: a body that throws a value with a stack or a message (an error,
    say) does not make the wrapped call throw: [wrap] returns the thrown
    value as the value of the call.  So [step] and [setup] return it to
    their callers as a value, the catch clause of [step] is not reached,
    and a hook calls [done]. *)
Theorem thrown_error_is_returned_not_rethrown (m st : value) :
  truthy st || truthy m = true ->
  (forall r body args s s1,
      body [VArray args] (snd (ExecutableItemWrapper.set_stage r RUNNING s))
      = (Abrupt (VObject m st), s1) ->
      fst (ExecutableItemWrapper.wrap r body args s) = Normal (VObject m st))
  /\ (forall name body s s2 exe,
         fst (JasmineAllureInterface.currentExecutable s) = Normal exe ->
         body [VArray []] (step_opened name s) = (Abrupt (VObject m st), s2) ->
         fst (JasmineAllureInterface.step name body s) = Normal (VObject m st))
  /\ (forall body s s2 g,
         last (groupStack s) = Some g ->
         body [VArray []] (setup_opened s) = (Abrupt (VObject m st), s2) ->
         fst (JasmineAllureInterface.setup body s) = Normal (VObject m st))
  /\ (forall fun_ action s s1 s2 f,
         fun_ s = (Normal f, s1) ->
         hook_body action [VArray []]
           (snd (ExecutableItemWrapper.set_stage f RUNNING
                   (with_runningExecutable (Some f) s1)))
         = (Abrupt (VObject m st), s2) ->
         fst (Hooks.runHook fun_ action s) = Normal Hooks.Done).
Proof.
  intros Htruthy. split; [|split; [|split]].
  - intros r body args s s1 Hbody.
    destruct (wrap_thrown r body args s s1 m st Hbody Htruthy) as [s' ->]. reflexivity.
  - intros name body s s2 exe Hexe Hbody.
    destruct (step_thrown name body s s2 exe m st Hexe Hbody Htruthy) as [s' ->].
    reflexivity.
  - intros body s s2 g Hg Hbody.
    destruct (setup_after_wrap body s g Hg) as (s0 & Hopen & Hsetup).
    rewrite <- Hopen in Hbody.
    destruct (wrap_thrown _ body [] s0 s2 m st Hbody Htruthy) as [s3 Hwrap].
    destruct (Hsetup s3 _ Hwrap) as [s' ->]. reflexivity.
  - intros fun_ action s s1 s2 f Hfun Hbody.
    rewrite (runHook_after_wrap fun_ action s s1 f Hfun).
    destruct (wrap_thrown f (hook_body action) [] _ s2 m st Hbody Htruthy) as [s3 ->].
    reflexivity.
Qed.

Lemma thrown_error_is_returned_not_rethrown_witness :
  fst (ExecutableItemWrapper.wrap 0 (throwing (new_Error "boom")) [] one_item)
  = Normal (new_Error "boom")
  /\ fst (JasmineAllureInterface.step "s" (throwing (new_Error "boom")) in_test)
     = Normal (new_Error "boom").
Proof.
  destruct (thrown_error_is_returned_not_rethrown (VStr "boom") (VStr "Error: boom") eq_refl)
    as (Hwrap & Hstep & _).
  split.
  - apply (Hwrap 0 (throwing (new_Error "boom")) [] one_item
                 (snd (ExecutableItemWrapper.set_stage 0 RUNNING one_item))).
    reflexivity.
  - assert (Hexe : fst (JasmineAllureInterface.currentExecutable in_test) = Normal 0)
      by (vm_compute; reflexivity).
    apply (Hstep "s" (throwing (new_Error "boom")) in_test (step_opened "s" in_test) 0 Hexe).
    reflexivity.
Defined.

(* ===================================================================== *)
(** * The answer of a hook *)
(* ===================================================================== *)

(** X6: a hook never reports a failure to the host engine: whatever the
    fixture body does, the hook does not call [done.fail], because the
    promise of the wrapped call is never rejected.  It calls [done], with
    no fixture left as the running executable, when the wrapped call
    returns a value that is not a pending promise.  It is not always told
    [done]: while the promise is pending the hook answers nothing, and when
    the wrapped call throws, or the fixture cannot be made because no
    group is open, the error escapes the hook; in these cases the hook
    leaves the reporter as the wrapped call left it, the running
    executable not reset. *)
Theorem hook_never_signals_failure (fun_ : JS nat) (action : Hooks.Action) (s : Reporter) :
  let out := Hooks.runHook fun_ action s in
  (forall e, fst out <> Normal (Hooks.DoneFail e))
  /\ (fst out = Normal Hooks.Done -> runningExecutable (snd out) = None)
  /\ (forall e s1, fun_ s = (Abrupt e, s1) -> out = (Abrupt e, s1))
  /\ (forall f s1,
         fun_ s = (Normal f, s1) ->
         let called := ExecutableItemWrapper.wrap f (hook_body action) []
                         (with_runningExecutable (Some f) s1) in
         match fst called with
         | Normal (VPromise Pending) => out = (Normal Hooks.NotYet, snd called)
         | Normal _ => out = (Normal Hooks.Done, with_runningExecutable None (snd called))
         | Abrupt e => out = (Abrupt e, snd called)
         end)
  /\ (last (groupStack s) = None ->
      Hooks.wrapperBefore action s = (Abrupt (new_Error "No active group"), s)
      /\ Hooks.wrapperAfter action s = (Abrupt (new_Error "No active group"), s)).
Proof.
  cbv zeta.
  assert (Hcases : forall f s1,
             fun_ s = (Normal f, s1) ->
             match fst (ExecutableItemWrapper.wrap f (hook_body action) []
                          (with_runningExecutable (Some f) s1)) with
             | Normal (VPromise Pending) =>
                 Hooks.runHook fun_ action s
                 = (Normal Hooks.NotYet,
                    snd (ExecutableItemWrapper.wrap f (hook_body action) []
                           (with_runningExecutable (Some f) s1)))
             | Normal _ =>
                 Hooks.runHook fun_ action s
                 = (Normal Hooks.Done,
                    with_runningExecutable None
                      (snd (ExecutableItemWrapper.wrap f (hook_body action) []
                              (with_runningExecutable (Some f) s1))))
             | Abrupt e =>
                 Hooks.runHook fun_ action s
                 = (Abrupt e,
                    snd (ExecutableItemWrapper.wrap f (hook_body action) []
                           (with_runningExecutable (Some f) s1)))
             end).
  { intros f s1 Hfun. rewrite (runHook_after_wrap fun_ action s s1 f Hfun).
    pose proof (wrap_not_rejected f (hook_body action) []
                  (with_runningExecutable (Some f) s1)) as Hnr.
    destruct (ExecutableItemWrapper.wrap f (hook_body action) [] _) as [[v|e] s2];
      [|reflexivity].
    destruct v as [| | | | | | |[|a|e]]; try reflexivity.
    destruct (Hnr e eq_refl). }
  assert (Habrupt : forall e s1, fun_ s = (Abrupt e, s1) ->
                                 Hooks.runHook fun_ action s = (Abrupt e, s1)).
  { intros e s1 Hfun. unfold Hooks.runHook. apply bind_abrupt, Hfun. }
  split; [|split; [|split; [exact Habrupt|split; [exact Hcases|]]]].
  - intros e0. destruct (fun_ s) as [[f|e] s1] eqn:Hfun.
    + specialize (Hcases f s1 eq_refl).
      destruct (fst (ExecutableItemWrapper.wrap f (hook_body action) [] _))
        as [[| | | | | | |[|a|e]]|e];
        rewrite Hcases; discriminate.
    + rewrite (Habrupt e s1 eq_refl). discriminate.
  - destruct (fun_ s) as [[f|e] s1] eqn:Hfun.
    + specialize (Hcases f s1 eq_refl).
      destruct (fst (ExecutableItemWrapper.wrap f (hook_body action) [] _))
        as [[| | | | | | |[|a|e]]|e];
        rewrite Hcases; try discriminate; reflexivity.
    + rewrite (Habrupt e s1 eq_refl). discriminate.
  - intros Hnone. unfold Hooks.wrapperBefore, Hooks.wrapperAfter, Hooks.runHook,
                    JasmineAllureReporter.currentGroup.
    split; js_run; reflexivity.
Qed.

Lemma hook_never_signals_failure_witness :
  let failing := Hooks.wrapperBefore (Hooks.Plain (throwing (new_Error "setup failed"))) in_test in
  let pending := Hooks.wrapperBefore (Hooks.Plain (returning (VPromise Pending))) in_test in
  let crashing := Hooks.wrapperBefore (Hooks.Plain (throwing VNull)) in_test in
  (fst failing = Normal Hooks.Done /\ runningExecutable (snd failing) = None)
  /\ (fst pending = Normal Hooks.NotYet /\ runningExecutable (snd pending) = Some 1)
  /\ (is_normal (fst crashing) = false /\ runningExecutable (snd crashing) = Some 1)
  /\ Hooks.wrapperBefore (Hooks.Plain (returning VUndefined)) (JasmineAllureReporter.init None)
     = (Abrupt (new_Error "No active group"), JasmineAllureReporter.init None).
Proof.
  intros failing pending crashing. subst failing pending crashing.
  unfold Hooks.wrapperBefore at 1 2 3 4 5 6.
  set (fun_ := (let! g := JasmineAllureReporter.currentGroup in AllureGroup.addBefore g)).
  pose (s1 := snd (fun_ in_test)).
  assert (Hfun : fun_ in_test = (Normal 1, s1)) by (vm_compute; reflexivity).
  split; [|split; [|split]].
  - set (action := Hooks.Plain (throwing (new_Error "setup failed"))).
    assert (Hdone : fst (Hooks.runHook fun_ action in_test) = Normal Hooks.Done)
      by (vm_compute; reflexivity).
    split; [exact Hdone|].
    exact (proj1 (proj2 (hook_never_signals_failure fun_ action in_test)) Hdone).
  - set (action := Hooks.Plain (returning (VPromise Pending))).
    pose proof (proj1 (proj2 (proj2 (proj2 (hook_never_signals_failure fun_ action in_test))))
                      1 s1 Hfun) as Hcase.
    cbv zeta in Hcase.
    assert (Hcalled : ExecutableItemWrapper.wrap 1 (hook_body action) []
                        (with_runningExecutable (Some 1) s1)
                      = (Normal (VPromise Pending),
                         snd (ExecutableItemWrapper.wrap 1 (hook_body action) []
                                (with_runningExecutable (Some 1) s1))))
      by (vm_compute; reflexivity).
    rewrite Hcalled in Hcase. cbn [fst snd] in Hcase. rewrite Hcase.
    split; [reflexivity|]. vm_compute. reflexivity.
  - set (action := Hooks.Plain (throwing VNull)).
    pose proof (proj1 (proj2 (proj2 (proj2 (hook_never_signals_failure fun_ action in_test))))
                      1 s1 Hfun) as Hcase.
    cbv zeta in Hcase.
    assert (Hcalled : ExecutableItemWrapper.wrap 1 (hook_body action) []
                        (with_runningExecutable (Some 1) s1)
                      = (Abrupt (new_TypeError "Cannot read property 'stack' of null"),
                         snd (ExecutableItemWrapper.wrap 1 (hook_body action) []
                                (with_runningExecutable (Some 1) s1))))
      by (vm_compute; reflexivity).
    rewrite Hcalled in Hcase. cbn [fst snd] in Hcase. rewrite Hcase.
    split; [reflexivity|]. vm_compute. reflexivity.
  - apply (proj2 (proj2 (proj2 (proj2 (hook_never_signals_failure
                                         fun_ (Hooks.Plain (returning VUndefined))
                                         (JasmineAllureReporter.init None)))))).
    reflexivity.
Defined.
